(** * Front-matter reconciliation and cover images: a model of the two scripts

    The repository holds two scripts, [generate_cover_images.py] and
    [update_frontmatter.py].  Both define [update_properties] and the class
    [GithubCommitter]; the first also renders the cover image.  Each script is
    embedded below in a module of its own, on top of a small model of the
    Python string operations the scripts use.

    The string functions are those of Python on ASCII text, that is on code
    points below 128, where the letters, digits and white space of Python
    and its case mappings are the ASCII ones.  A [string] may hold code
    points from 128 up: they are carried along unchanged and count as
    neither white space, nor letters, nor digits, which is not what Python
    does outside ASCII.  A property that depends on it is stated for ASCII
    text ([ascii_text]). *)

From Stdlib Require Import String Ascii List Bool Arith ZArith Lia.
Import ListNotations.

Open Scope string_scope.
Open Scope nat_scope.

(** ** Exceptions and results *)

(** The exceptions by their class; [ValueError] stands for its subclasses
    too, such as [UnicodeDecodeError]. *)
Inductive exn : Type :=
| TypeError
| AttributeError
| ValueError
| YamlError
| ReError
| OSError
| TransportError.

Inductive result (A : Type) : Type :=
| Ok (a : A)
| Raise (e : exn).

Arguments Ok {A} a.
Arguments Raise {A} e.

Definition bind {A B : Type} (r : result A) (k : A -> result B) : result B :=
  match r with
  | Ok a => k a
  | Raise e => Raise e
  end.

Notation "x <- r ;; k" := (bind r (fun x => k))
  (at level 61, r at next level, right associativity).

Definition or_raise {A : Type} (e : exn) (o : option A) : result A :=
  match o with
  | Some a => Ok a
  | None => Raise e
  end.

(** ** Python strings *)

Module Py.

Definition code (c : ascii) : nat := nat_of_ascii c.

Definition in_range (lo hi : nat) (c : ascii) : bool :=
  (lo <=? code c) && (code c <=? hi).

Definition is_upper (c : ascii) : bool := in_range 65 90 c.
Definition is_lower (c : ascii) : bool := in_range 97 122 c.
Definition is_digit (c : ascii) : bool := in_range 48 57 c.
Definition is_cased (c : ascii) : bool := is_upper c || is_lower c.

(** The class [[a-zA-Z0-9]]. *)
Definition is_alnum (c : ascii) : bool := is_lower c || is_upper c || is_digit c.

(** The class [\w]. *)
Definition is_word (c : ascii) : bool := is_alnum c || Ascii.eqb c "_".

(** [\s] and [str.isspace]: TAB to CR, FS to US, and the space. *)
Definition is_space (c : ascii) : bool := in_range 9 13 c || in_range 28 32 c.

Definition to_lower (c : ascii) : ascii :=
  if is_upper c then ascii_of_nat (code c + 32) else c.

Definition to_upper (c : ascii) : ascii :=
  if is_lower c then ascii_of_nat (code c - 32) else c.

Fixpoint smap (f : ascii -> ascii) (s : string) : string :=
  match s with
  | EmptyString => EmptyString
  | String c r => String (f c) (smap f r)
  end.

Fixpoint sfilter (p : ascii -> bool) (s : string) : string :=
  match s with
  | EmptyString => EmptyString
  | String c r => if p c then String c (sfilter p r) else sfilter p r
  end.

Fixpoint sforall (p : ascii -> bool) (s : string) : bool :=
  match s with
  | EmptyString => true
  | String c r => p c && sforall p r
  end.

Fixpoint sexists (p : ascii -> bool) (s : string) : bool :=
  match s with
  | EmptyString => false
  | String c r => p c || sexists p r
  end.

Fixpoint srev_onto (acc s : string) : string :=
  match s with
  | EmptyString => acc
  | String c r => srev_onto (String c acc) r
  end.

Definition srev (s : string) : string := srev_onto "" s.

Definition nonempty (s : string) : bool := negb (String.eqb s "").

(** [str.lower()], on ASCII text: outside ASCII Python lowers other letters
    too, some of them to more than one character. *)
Definition lower (s : string) : string := smap to_lower s.

(** [str.replace(a, b)] for one-character [a] and [b]. *)
Definition replace (a b : ascii) (s : string) : string :=
  smap (fun c => if Ascii.eqb c a then b else c) s.

(** [str.isupper()]: no lower-case character and at least one upper-case one. *)
Definition isupper (s : string) : bool :=
  negb (sexists is_lower s) && sexists is_upper s.

(** [str.isdigit()] *)
Definition isdigit (s : string) : bool := nonempty s && sforall is_digit s.

(** [str.title()], on ASCII text: a character that follows a cased character
    is lowered, any other character is raised. *)
Fixpoint title_from (previous_is_cased : bool) (s : string) : string :=
  match s with
  | EmptyString => EmptyString
  | String c r =>
      String (if previous_is_cased then to_lower c else to_upper c)
             (title_from (is_cased c) r)
  end.

Definition title (s : string) : string := title_from false s.

(** [str.capitalize()], on ASCII text. *)
Definition capitalize (s : string) : string :=
  match s with
  | EmptyString => EmptyString
  | String c r => String (to_upper c) (lower r)
  end.

(** [str.lstrip()], [str.rstrip()], [str.strip()] *)
Fixpoint lstrip (s : string) : string :=
  match s with
  | EmptyString => EmptyString
  | String c r => if is_space c then lstrip r else s
  end.

Definition rstrip (s : string) : string := srev (lstrip (srev s)).

Definition strip (s : string) : string := rstrip (lstrip s).

(** [str.split()]: the maximal runs of characters that are not white space. *)
Fixpoint split_from (word s : string) : list string :=
  match s with
  | EmptyString => if nonempty word then [word] else []
  | String c r =>
      if is_space c
      then (if nonempty word then word :: split_from "" r else split_from "" r)
      else split_from (word ++ String c "") r
  end.

Definition split (s : string) : list string := split_from "" s.

(** [str.split(sep)] for a one-character separator: empty pieces are kept. *)
Fixpoint split_on_from (sep : ascii) (piece s : string) : list string :=
  match s with
  | EmptyString => [piece]
  | String c r =>
      if Ascii.eqb c sep
      then piece :: split_on_from sep "" r
      else split_on_from sep (piece ++ String c "") r
  end.

Definition split_on (sep : ascii) (s : string) : list string :=
  split_on_from sep "" s.

(** [sep.join(pieces)] *)
Definition join (sep : string) (pieces : list string) : string :=
  String.concat sep pieces.

Fixpoint spaces (n : nat) : string :=
  match n with
  | O => EmptyString
  | S k => String " " (spaces k)
  end.

(** [str.center(width)], with CPython's rounding of the left margin:
    [left = marg / 2 + (marg & width & 1)]. *)
Definition center (s : string) (width : nat) : string :=
  let n := String.length s in
  if width <=? n then s
  else
    let marg := width - n in
    let left := marg / 2 + (if Nat.odd marg && Nat.odd width then 1 else 0) in
    spaces left ++ s ++ spaces (marg - left).

(** [s.startswith(p)], returning what follows the prefix. *)
Fixpoint strip_prefix (p s : string) : option string :=
  match p, s with
  | EmptyString, _ => Some s
  | String a p', String b s' => if Ascii.eqb a b then strip_prefix p' s' else None
  | String _ _, EmptyString => None
  end.

(** [s.endswith(suffix)] *)
Definition endswith (s suffix : string) : bool :=
  match strip_prefix (srev suffix) (srev s) with
  | Some _ => true
  | None => false
  end.

(** The first occurrence of [p] in [s]: the text before it and the text
    after it. *)
Fixpoint find_sub (p s : string) {struct s} : option (string * string) :=
  match strip_prefix p s with
  | Some after => Some ("", after)
  | None =>
      match s with
      | EmptyString => None
      | String c r =>
          match find_sub p r with
          | Some (before, after) => Some (String c before, after)
          | None => None
          end
      end
  end.

(** The last ["."] of [s]: the text before it and the text after it
    ([s.rfind('.')]). *)
Fixpoint rsplit_dot (s : string) : option (string * string) :=
  match s with
  | EmptyString => None
  | String c r =>
      match rsplit_dot r with
      | Some (before, after) => Some (String c before, after)
      | None => if Ascii.eqb c "." then Some ("", r) else None
      end
  end.

(** [Path(p).name]: the last component of the path; empty components and
    ["."] components are dropped when a path is built. *)
Definition path_name (p : string) : string :=
  last (filter (fun part => nonempty part && negb (String.eqb part "."))
               (split_on "/" p)) "".

(** [Path(p).stem]: the name without its last suffix; a dot in first or last
    position does not start a suffix. *)
Definition path_stem (p : string) : string :=
  let name := path_name p in
  match rsplit_dot name with
  | Some (before, after) => if nonempty before && nonempty after then before else name
  | None => name
  end.

(** The longest prefix of [s] whose characters satisfy [p], and the rest. *)
Fixpoint span (p : ascii -> bool) (s : string) : string * string :=
  match s with
  | EmptyString => ("", "")
  | String c r =>
      if p c then let (run, rest) := span p r in (String c run, rest)
      else ("", s)
  end.


End Py.

Definition nl : string := String (ascii_of_nat 10) "".

(** ** YAML values and Python dictionaries

    What the YAML loader returns.  A dictionary keeps its keys in insertion
    order; [VDate] is the [datetime.date] the loader makes of an unquoted
    date. *)

#[local] Set Warnings "-register-all".

Inductive value : Type :=
| VNull
| VBool (b : bool)
| VInt (n : Z)
| VStr (s : string)
| VDate (iso : string)
| VList (items : list value)
| VMap (entries : list (string * value)).

Definition dict : Type := list (string * value).

(** Python truth value. *)
Definition truthy (v : value) : bool :=
  match v with
  | VNull => false
  | VBool b => b
  | VInt n => negb (Z.eqb n 0)
  | VStr s => Py.nonempty s
  | VDate _ => true
  | VList items => match items with [] => false | _ :: _ => true end
  | VMap entries => match entries with [] => false | _ :: _ => true end
  end.

(** [v == s] for a string [s]: only an equal string is equal to it. *)
Definition eq_str (v : value) (s : string) : bool :=
  match v with
  | VStr t => String.eqb t s
  | _ => false
  end.

Module Dict.

Fixpoint lookup (k : string) (d : dict) : option value :=
  match d with
  | [] => None
  | (k', v) :: r => if String.eqb k k' then Some v else lookup k r
  end.

(** [k in d] *)
Definition mem (k : string) (d : dict) : bool :=
  match lookup k d with Some _ => true | None => false end.

(** [d.get(k, default)] *)
Definition get (k : string) (default : value) (d : dict) : value :=
  match lookup k d with Some v => v | None => default end.

(** [d[k] = v]: an existing key keeps its place, a new key goes last. *)
Fixpoint set (k : string) (v : value) (d : dict) : dict :=
  match d with
  | [] => [(k, v)]
  | (k', v') :: r => if String.eqb k k' then (k, v) :: r else (k', v') :: set k v r
  end.

(** [d.setdefault(k, v)]: [d] is changed only when [k] is not a key. *)
Definition setdefault (k : string) (v : value) (d : dict) : dict :=
  if mem k d then d else set k v d.

Definition keys (d : dict) : list string := map fst d.

End Dict.

(** ** Library functions

    The YAML object of [ruamel.yaml], the expansion of a replacement template
    by [re.sub] and [textwrap.wrap] are not code of the scripts: they are
    taken as an interface.  [yaml_load] raises what the loader raises: its
    own error on a text that is no YAML, and [ValueError] where a scalar
    that reads as a date is no date of the calendar.  [re_expand] returns
    [None] when the template is rejected; it takes the template, the whole
    match and the first group.  The two scripts configure the YAML object
    differently ([typ='safe'] in one, the round-trip default in the other);
    what is proved of a script holds for every instance. *)

Class Libs : Type := {
  yaml_load : string -> result value;
  yaml_dump : dict -> string;
  re_expand : string -> string -> string -> option string;
  textwrap_wrap : string -> nat -> list string
}.

(** ** The header pattern [^\s*---(.*?)---] with [re.DOTALL]

    Without [re.MULTILINE] the pattern matches at the start of the text only:
    all leading white space, a fence, the shortest text up to the next fence.
    [matched] is the whole match, [group1] the text between the fences and
    [rest] the text after the match. *)

Record header_match : Type := {
  matched : string;
  group1 : string;
  rest : string
}.

Definition search_header (text : string) : option header_match :=
  let (blank, after_blank) := Py.span Py.is_space text in
  match Py.strip_prefix "---" after_blank with
  | Some after_fence =>
      match Py.find_sub "---" after_fence with
      | Some (inner, after) =>
          Some {| matched := blank ++ "---" ++ inner ++ "---";
                  group1 := inner;
                  rest := after |}
      | None => None
      end
  | None => None
  end.

(** [re.sub(pattern, repl, text, count=1)] at a match [m] of the header
    pattern: the expanded template, then the text after the match. *)
Definition sub_header `{Libs} (repl : string) (m : header_match) : result string :=
  new_header <- or_raise ReError (re_expand repl (matched m) (group1 m)) ;;
  Ok (new_header ++ rest m).

(** The body of a document: what follows the header, or the whole text where
    there is no header. *)
Definition body_of (text : string) : string :=
  match search_header text with
  | Some m => rest m
  | None => text
  end.

(** The file system: [None] where the path is not a file, and otherwise what
    opening and reading the file as UTF-8 gives: its text, or the exception
    that is raised ([UnicodeDecodeError], which is a [ValueError], where the
    bytes are no UTF-8). *)
Definition file_system : Type := string -> option (result string).

(** [if not file_content and file_path.is_file(): file_content = read()] *)
Definition read_if_missing (read_file : file_system)
    (file_path : string) (file_content : option string) : result (option string) :=
  if match file_content with Some text => Py.nonempty text | None => false end
  then Ok file_content
  else match read_file file_path with
       | Some read =>
           on_disk <- read ;;
           Ok (Some on_disk)
       | None => Ok file_content
       end.

(** A method of [dict] called on [v]. *)
Definition as_dict (e : exn) (v : value) : result dict :=
  match v with
  | VMap entries => Ok entries
  | _ => Raise e
  end.

(** ** generate_cover_images.py *)

Module GenerateCoverImages.

Definition COMMIT_MSG : string := "Updating Covers and Deploying".
Definition BRANCH : string := "main".
Definition COVERS_DIR : string := "public/assets/blog/covers/".
Definition GITHUB_USERNAME : string := "mohankumarpaluru".
Definition COVER_REPO : string := "blog-cover-generator".

Definition cdn_url_prefix : string :=
  "https://cdn.jsdelivr.net/gh/" ++ GITHUB_USERNAME ++ "/" ++ COVER_REPO
    ++ "@" ++ BRANCH ++ "/" ++ COVERS_DIR.

(** [text.replace(' ', '_').replace('-', ' ')], then every character outside
    [[a-zA-Z0-9]] removed, then [lower()]. *)
Definition clean_text_for_filename (text : string) : string :=
  let cleaned_text := Py.replace "-" " " (Py.replace " " "_" text) in
  let cleaned_text := Py.sfilter Py.is_alnum cleaned_text in
  Py.lower cleaned_text.

(** [clean_text_for_filename(note_title)] for a title taken from the header:
    only a string has a [replace] that takes two strings. *)
Definition clean_title (note_title : value) : result string :=
  match note_title with
  | VStr text => Ok (clean_text_for_filename text)
  | VDate _ => Raise TypeError
  | _ => Raise AttributeError
  end.

(** What [update_properties] returns: [False, False, False], or the title,
    the image file name ([False] when no image is to be made) and the new
    content. *)
Inductive outcome : Type :=
| Unchanged
| Updated (note_title : value) (png_file_name : option string) (file_content : string).

(** Lines 70 to 73: the title of the header, or the stem of the file name
    where the header has no true title. *)
Definition titled (stem : string) (properties : dict) : value * dict :=
  let note_title := Dict.get "title" VNull properties in
  if truthy note_title then (note_title, properties)
  else (VStr stem, Dict.set "title" (VStr stem) properties).

(** The header branch of [update_properties] up to the dump: the title, the
    image file name and the properties to be written, or [None] for the early
    return. *)
Definition header_properties (stem formatted_date : string) (properties : dict)
  : result (option (value * option string * dict)) :=
  let '(note_title, properties) := titled stem properties in
  let note_date := Dict.get "date" VNull properties in
  let dont_up_date := Dict.get "dupdate" VNull properties in
  og_image <- as_dict AttributeError (Dict.get "ogImage" (VMap []) properties) ;;
  let og_image_url := Dict.get "url" VNull og_image in
  if truthy og_image_url && eq_str note_date formatted_date then Ok None
  else
    named <-
      (if truthy og_image_url then Ok (None, properties)
       else
         cleaned <- clean_title note_title ;;
         let png_file_name := cleaned ++ ".png" in
         Ok (Some png_file_name,
             Dict.setdefault "ogImage"
               (VMap [("url", VStr (cdn_url_prefix ++ png_file_name))]) properties)) ;;
    let '(png_file_name, properties) := named in
    let properties :=
      if truthy dont_up_date then properties
      else Dict.set "date" (VStr formatted_date) properties in
    Ok (Some (note_title, png_file_name, properties)).

(** The properties made for a document without a header. *)
Definition fresh_properties (stem formatted_date : string) : dict :=
  let png_file_name := clean_text_for_filename stem ++ ".png" in
  [ ("title", VStr stem);
    ("ogImage", VMap [("url", VStr (cdn_url_prefix ++ png_file_name))]);
    ("date", VStr formatted_date) ].

(** [update_properties(file_path, file_content)].  [read_file] is the file
    system and [formatted_date] is [datetime.now().strftime("%Y-%m-%d")]. *)
Definition update_properties `{Libs} (read_file : file_system)
    (formatted_date : string) (file_path file_content : option string)
  : result outcome :=
  path <- or_raise TypeError file_path ;;
  file_content <- read_if_missing read_file path file_content ;;
  text <- or_raise TypeError file_content ;;
  let stem := Py.path_stem path in
  match search_header text with
  | Some m =>
      loaded <- yaml_load (group1 m) ;;
      properties <- as_dict AttributeError loaded ;;
      decided <- header_properties stem formatted_date properties ;;
      match decided with
      | None => Ok Unchanged
      | Some (note_title, png_file_name, properties) =>
          let props := yaml_dump properties in
          new_content <- sub_header ("---" ++ nl ++ props ++ "---") m ;;
          Ok (Updated note_title png_file_name new_content)
      end
  | None =>
      let note_title := stem in
      let png_file_name := clean_text_for_filename note_title ++ ".png" in
      let props := yaml_dump (fresh_properties stem formatted_date) in
      Ok (Updated (VStr note_title) (Some png_file_name)
            ("---" ++ nl ++ props ++ "---" ++ nl ++ nl ++ text))
  end.

(** What the caller, [get_updated_files_png], does with the result: the
    document is rewritten only when the returned content is true, and an
    image is made only when the returned file name is true. *)
Definition content_after (before : string) (o : outcome) : string :=
  match o with
  | Unchanged => before
  | Updated _ _ new_content => if Py.nonempty new_content then new_content else before
  end.

Definition cover_job (o : outcome) : option (value * string) :=
  match o with
  | Unchanged => None
  | Updated note_title png_file_name _ =>
      match png_file_name with
      | Some png => if Py.nonempty png then Some (note_title, png) else None
      | None => None
      end
  end.

(** The text drawn by [create_image]: lines 140 to 145. *)
Definition title_text (input_text : string) : string :=
  if Py.isupper input_text then input_text else Py.title input_text.

Definition wrapped_text `{Libs} (input_text : string) (max_line_length : nat) : string :=
  Py.join (nl ++ nl)
    (map (fun line => Py.center line max_line_length)
         (textwrap_wrap (title_text input_text) max_line_length)).




End GenerateCoverImages.

(** ** update_frontmatter.py *)

Module UpdateFrontmatter.

Definition COMMIT_MSG : string := "Updating Front Matter and Deploying".

(** [re.sub(r'\.[^.]+$', '', filename)]: the last dot and what follows it are
    removed when something follows it. *)
Definition remove_extension (filename : string) : string :=
  match Py.rsplit_dot filename with
  | Some (before, after) => if Py.nonempty after then before else filename
  | None => filename
  end.

Fixpoint but_last (s : string) : string :=
  match s with
  | EmptyString => EmptyString
  | String c r => match r with EmptyString => EmptyString | String _ _ => String c (but_last r) end
  end.

Fixpoint last_char (s : string) : string :=
  match s with
  | EmptyString => EmptyString
  | String c r => match r with EmptyString => s | String _ _ => last_char r end
  end.

(** The second alternative of the pattern of [split_words] at a text that
    starts with an upper-case letter: a run of upper-case letters that is
    followed by an upper-case and a lower-case letter, a digit, a character
    outside [\w], or the end.  The run gives back its last letter when a
    lower-case letter follows it. *)
Definition upper_run (s : string) : option (string * string) :=
  let (run, after) := Py.span Py.is_upper s in
  match after with
  | EmptyString => Some (run, after)
  | String d _ =>
      if Py.is_digit d || negb (Py.is_word d) then Some (run, after)
      else if Py.is_lower d && Py.nonempty (but_last run)
      then Some (but_last run, last_char run ++ after)
      else None
  end.

(** One match of [[A-Z]?[a-z]+|[A-Z]+(?=[A-Z][a-z]|\d|\W|$)|\d+] at the start
    of [s]: the token and the text after it.  [\d] and [\W] are taken on
    ASCII text, where they are [[0-9]] and the complement of [[a-zA-Z0-9_]];
    outside ASCII Python has more digits and more word characters. *)
Definition match_word (s : string) : option (string * string) :=
  match s with
  | EmptyString => None
  | String c r =>
      if Py.is_lower c then Some (Py.span Py.is_lower s)
      else if Py.is_upper c then
        match r with
        | String d _ =>
            if Py.is_lower d
            then let (run, after) := Py.span Py.is_lower r in Some (String c run, after)
            else upper_run s
        | EmptyString => upper_run s
        end
      else if Py.is_digit c then Some (Py.span Py.is_digit s)
      else None
  end.

(** [re.findall]: the matches from left to right; where nothing matches, one
    character is skipped.  Each step consumes a character, so the length of
    the text is fuel enough. *)
Fixpoint findall_words (fuel : nat) (s : string) : list string :=
  match fuel with
  | O => []
  | S fuel' =>
      match s with
      | EmptyString => []
      | String _ r =>
          match match_word s with
          | Some (word, after) => word :: findall_words fuel' after
          | None => findall_words fuel' r
          end
      end
  end.

Definition split_words (filename : string) : list string :=
  findall_words (String.length filename) filename.

Definition process_word (word : string) : string :=
  if Py.isupper word && (1 <? String.length word) then word
  else if Py.isdigit word then word
  else Py.capitalize word.

Definition generate_title (filename : string) : string :=
  let base_name := Py.replace "-" " " (Py.replace "_" " " (remove_extension filename)) in
  Py.join " "
    (map (fun word => if negb (Py.isupper word) then Py.title word else word)
         (Py.split base_name)).

Definition generate_description (filename : string) : string :=
  let base_name := remove_extension filename in
  let words := split_words base_name in
  Py.join " " (map process_word words).

(** [if file_path:] holds for a path that is given and not empty. *)
Definition given_path (file_path : option string) : option string :=
  match file_path with
  | Some p => if Py.nonempty p then Some p else None
  | None => None
  end.

(** The content after the optional read from the file system. *)
Definition resolve_content (read_file : file_system)
    (file_path file_content : option string) : result (option string) :=
  match given_path file_path with
  | Some p => read_if_missing read_file p file_content
  | None => Ok file_content
  end.

(** [yaml.load(...) or {}], then used as a dictionary: a true value that is
    not a dictionary fails at the membership test or at the assignment. *)
Definition loaded_properties (loaded : value) : result dict :=
  if truthy loaded then as_dict TypeError loaded else Ok [].

(** Lines 91 to 95: title and description are filled in when the key is
    missing, the date is always set. *)
Definition fill_properties (path : option string) (current_date : string)
    (properties : dict) : dict :=
  let properties :=
    if negb (Dict.mem "title" properties)
    then Dict.set "title"
           (VStr (match path with
                  | Some p => generate_title (Py.path_stem p)
                  | None => "Untitled"
                  end)) properties
    else properties in
  let properties :=
    if negb (Dict.mem "description" properties)
    then Dict.set "description"
           (VStr (match path with
                  | Some p => generate_description (Py.path_stem p)
                  | None => ""
                  end)) properties
    else properties in
  Dict.set "date" (VStr current_date) properties.

Definition front_matter `{Libs} (properties : dict) : string :=
  "---" ++ nl ++ Py.strip (yaml_dump properties) ++ nl ++ "---" ++ nl.

(** [update_properties(file_path, file_content)]; [current_date] is
    [datetime.now().strftime("%Y-%m-%d")]. *)
Definition update_properties `{Libs} (read_file : file_system)
    (current_date : string) (file_path file_content : option string)
  : result string :=
  let path := given_path file_path in
  file_content <- resolve_content read_file file_path file_content ;;
  text <- or_raise ValueError file_content ;;
  match search_header text with
  | Some m =>
      loaded <- yaml_load (group1 m) ;;
      properties <- loaded_properties loaded ;;
      let properties := fill_properties path current_date properties in
      sub_header (front_matter properties) m
  | None =>
      let properties := fill_properties path current_date [] in
      Ok (front_matter properties ++ nl ++ Py.strip text)
  end.

End UpdateFrontmatter.

(** ** GithubCommitter

    The class is the same in both scripts, up to [COMMIT_MSG], which is a
    parameter here.  The remote repository is a store of blobs, trees and
    commits and the ref [heads/main].  Every call of the hosting API is
    recorded in a log with its outcome; [fails] tells which calls fail, by
    their position in the log.  A call that fails raises and leaves the
    repository as it was, and nothing in the class catches the exception. *)

Module GithubCommitter.

Definition sha : Type := nat.

Inductive blob : Type :=
| Utf8Blob (content : string)
| Base64Blob (content : string).

Record tree_element : Type := {
  te_path : string;
  te_mode : string;
  te_type : string;
  te_sha : sha
}.

Record git_tree : Type := {
  tree_entries : list tree_element;
  base_tree : sha
}.

Record git_commit : Type := {
  message : string;
  tree : sha;
  parents : list sha
}.

Record repository : Type := {
  blobs : list (sha * blob);
  trees : list (sha * git_tree);
  commits : list (sha * git_commit);
  heads_main : sha;
  next_sha : sha
}.

Inductive api_call : Type :=
| GetBranch
| GetGitRef
| CreateGitBlob
| GetGitTree
| CreateGitTree
| GetGitCommit
| CreateGitCommit
| EditRef.

Record world : Type := {
  repo : repository;
  log : list (api_call * bool)
}.

(** A computation that may raise and that changes the world either way. *)
Definition M (A : Type) : Type := world -> result A * world.

Definition ret {A : Type} (a : A) : M A := fun w => (Ok a, w).

Definition raise {A : Type} (e : exn) : M A := fun w => (Raise e, w).

Definition mbind {A B : Type} (m : M A) (k : A -> M B) : M B :=
  fun w =>
    match m w with
    | (Ok a, w') => k a w'
    | (Raise e, w') => (Raise e, w')
    end.

Notation "x <~ m ;; k" := (mbind m (fun x => k))
  (at level 61, m at next level, right associativity).

Section Calls.

Variable fails : nat -> bool.

Definition call {A : Type} (c : api_call) (op : repository -> A * repository) : M A :=
  fun w =>
    if fails (List.length (log w))
    then (Raise TransportError, {| repo := repo w; log := (log w ++ [(c, false)])%list |})
    else
      let (a, after) := op (repo w) in
      (Ok a, {| repo := after; log := (log w ++ [(c, true)])%list |}).

Definition get_branch : M sha :=
  call GetBranch (fun r => (heads_main r, r)).

Definition get_git_ref : M sha :=
  call GetGitRef (fun r => (heads_main r, r)).

Definition get_git_tree (s : sha) : M sha :=
  call GetGitTree (fun r => (s, r)).

Definition get_git_commit (s : sha) : M sha :=
  call GetGitCommit (fun r => (s, r)).

Definition create_git_blob (b : blob) : M sha :=
  call CreateGitBlob (fun r =>
    (next_sha r,
     {| blobs := (blobs r ++ [(next_sha r, b)])%list;
        trees := trees r;
        commits := commits r;
        heads_main := heads_main r;
        next_sha := S (next_sha r) |})).

Definition create_git_tree (entries : list tree_element) (base : sha) : M sha :=
  call CreateGitTree (fun r =>
    (next_sha r,
     {| blobs := blobs r;
        trees := (trees r ++ [(next_sha r, {| tree_entries := entries; base_tree := base |})])%list;
        commits := commits r;
        heads_main := heads_main r;
        next_sha := S (next_sha r) |})).

Definition create_git_commit (msg : string) (t : sha) (ps : list sha) : M sha :=
  call CreateGitCommit (fun r =>
    (next_sha r,
     {| blobs := blobs r;
        trees := trees r;
        commits := (commits r ++ [(next_sha r, {| message := msg; tree := t; parents := ps |})])%list;
        heads_main := heads_main r;
        next_sha := S (next_sha r) |})).

Definition edit_ref (s : sha) : M unit :=
  call EditRef (fun r =>
    (tt,
     {| blobs := blobs r;
        trees := trees r;
        commits := commits r;
        heads_main := s;
        next_sha := next_sha r |})).

(** The object: [self.branch.commit.sha], read when it is constructed. *)
Record committer : Type := { branch_commit_sha : sha }.

Definition init : M committer :=
  s <~ get_branch ;;
  ret {| branch_commit_sha := s |}.

(** The local files: [open] raises where the path is not a file. *)
Variable open_local : string -> option string.

(** The body of the loop of [commit_files], for the files that are left;
    [tree_list] holds the elements made so far. *)
Fixpoint add_blobs (file_paths : list (string * string)) (tree_list : list tree_element)
  : M (list tree_element) :=
  match file_paths with
  | [] => ret tree_list
  | (git_path, local_path) :: others =>
      content <~ match open_local local_path with
                 | Some c => ret c
                 | None => raise OSError
                 end ;;
      new_blob <~ create_git_blob
                    (if Py.endswith local_path ".png" then Base64Blob content
                     else Utf8Blob content) ;;
      let tree_element :=
        {| te_path := git_path; te_mode := "100644"; te_type := "blob"; te_sha := new_blob |} in
      add_blobs others (tree_list ++ [tree_element])%list
  end.

Definition create_commit_and_push (self : committer) (commit_msg : string)
    (new_tree : sha) : M unit :=
  t <~ get_git_tree new_tree ;;
  parent <~ get_git_commit (branch_commit_sha self) ;;
  commit <~ create_git_commit commit_msg t [parent] ;;
  edit_ref commit.

Definition commit_files (self : committer) (commit_msg : string)
    (file_paths : list (string * string)) : M unit :=
  main_sha <~ get_git_ref ;;
  tree_list <~ add_blobs file_paths [] ;;
  base <~ get_git_tree main_sha ;;
  new_tree <~ create_git_tree tree_list base ;;
  create_commit_and_push self commit_msg new_tree.

(** The blob that the loop makes of a local file. *)
Definition blob_of (local_path content : string) : blob :=
  if Py.endswith local_path ".png" then Base64Blob content else Utf8Blob content.

(** A tree element stands for a file of the mapping when it has the file's
    path in the repository, the mode and type of the loop, and the hash of a
    blob of the repository that holds the content of the local file. *)
Definition stands_for (r : repository) (file : string * string) (e : tree_element) : Prop :=
  te_path e = fst file /\ te_mode e = "100644" /\ te_type e = "blob"
  /\ exists content : string,
       open_local (snd file) = Some content
       /\ In (te_sha e, blob_of (snd file) content) (blobs r).

(** The exception is one that [commit_files] can end with: a call of the API
    failed, or a local file of the mapping could not be opened. *)
Definition publisher_error (file_paths : list (string * string)) (e : exn) : Prop :=
  e = TransportError
  \/ (e = OSError /\ exists file, In file file_paths /\ open_local (snd file) = None).

End Calls.

(** The repository has one more commit, made on top of its head, and its
    head is on it. *)
Definition advanced (before after : world) : Prop :=
  exists c : sha * git_commit,
    commits (repo after) = (commits (repo before) ++ [c])%list
    /\ heads_main (repo after) = fst c
    /\ parents (snd c) = [heads_main (repo before)].

End GithubCommitter.

(** ** The two classes that collect the changed notes

    [GitNotesCoverChecker] and [GitNotesFrontMatterHandler] hold two flags
    and a scratch directory made by [tempfile.mkdtemp()].  The scratch
    directory is a mapping from local paths to the text (or bytes) written
    there; [tmp name] is the path [self.tmpdir / name].  Directories are
    implicit, so [mkdir(parents=True, exist_ok=True)] leaves no trace.  An
    exception ends the run and keeps what was done before it. *)

Module Assoc.

Section Entries.

Context {A : Type}.

Fixpoint lookup (k : string) (d : list (string * A)) : option A :=
  match d with
  | [] => None
  | (k', v) :: r => if String.eqb k k' then Some v else lookup k r
  end.

(** [d[k] = v] *)
Fixpoint set (k : string) (v : A) (d : list (string * A)) : list (string * A) :=
  match d with
  | [] => [(k, v)]
  | (k', v') :: r => if String.eqb k k' then (k, v) :: r else (k', v') :: set k v r
  end.

(** [k in d] *)
Definition mem (k : string) (d : list (string * A)) : bool :=
  match lookup k d with Some _ => true | None => false end.

End Entries.

End Assoc.

Module Notes.

Definition PUBLISH_TRIGGER_FILE : string := ".github/trigger_files/publish.txt".
Definition JOURNAL_TRIGGER_FILE : string := ".github/trigger_files/journal.txt".

(** An entry of [commit.files]. *)
Record note_file : Type := {
  filename : string;
  status : string
}.

(** A mapping from a path in the repository to a local path. *)
Definition paths : Type := list (string * string).

Record handler : Type := {
  publish_flag : bool;
  journal_flag : bool;
  scratch : list (string * string)
}.

(** A method of the object: it may raise, and it changes the object either
    way. *)
Definition method (A : Type) : Type := handler -> result A * handler.

Definition ret {A : Type} (a : A) : method A := fun self => (Ok a, self).

Definition lift {A : Type} (r : result A) : method A := fun self => (r, self).

Definition mbind {A B : Type} (m : method A) (k : A -> method B) : method B :=
  fun self =>
    match m self with
    | (Ok a, self') => k a self'
    | (Raise e, self') => (Raise e, self')
    end.

Notation "x <~ m ;; k" := (mbind m (fun x => k))
  (at level 61, m at next level, right associativity).

(** [s.startswith(p)] *)
Definition startswith (s p : string) : bool :=
  match Py.strip_prefix p s with Some _ => true | None => false end.

(** The two [if filename.startswith(...)] of the loop. *)
Definition raise_flags (filename : string) : method unit :=
  fun self =>
    (Ok tt,
     {| publish_flag := if startswith filename "publish/" then true else publish_flag self;
        journal_flag := if startswith filename "journal/" then true else journal_flag self;
        scratch := scratch self |}).

(** [status not in ('removed', 'renamed', 'deleted')] *)
Definition kept_status (status : string) : bool :=
  negb (String.eqb status "removed" || String.eqb status "renamed"
        || String.eqb status "deleted").

(** The condition of the loop on an entry. *)
Definition to_update (f : note_file) : bool :=
  Py.endswith (filename f) ".md" && kept_status (status f).

(** [path.write_text(content)] *)
Definition write_text (path content : string) : method unit :=
  fun self =>
    (Ok tt,
     {| publish_flag := publish_flag self;
        journal_flag := journal_flag self;
        scratch := Assoc.set path content (scratch self) |}).

(** The local path has been written. *)
Definition written (self : handler) (path : string) : Prop :=
  Assoc.lookup path (scratch self) <> None.

(** A method that leaves the flags alone and removes no file. *)
Definition steady {A : Type} (m : method A) : Prop :=
  forall (self : handler) (r : result A) (self' : handler),
    m self = (r, self') ->
    publish_flag self' = publish_flag self
    /\ journal_flag self' = journal_flag self
    /\ forall path : string, written self path -> written self' path.

End Notes.

Module GitNotesCoverChecker.

Import Notes.

Section Checker.

Context {L : Libs}.

(** The files of the working directory, the date of the run, the content of
    a file of the notes repository ([None] where the call raises), the
    scratch path of a name, and the image drawn for a title ([None] where
    [create_image] raises). *)
Variable read_file : file_system.
Variable formatted_date : string.
Variable get_contents : string -> option string.
Variable tmp : string -> string.
Variable draw : string -> option string.

(** [create_image(title, png_path)]: only a string has [isupper]. *)
Definition create_image (title : value) (png_path : string) : method unit :=
  match title with
  | VStr input_text =>
      image <~ lift (or_raise OSError (draw input_text)) ;;
      write_text png_path image
  | _ => lift (Raise AttributeError)
  end.

(** The body of the loop of [get_updated_files_png]. *)
Definition check_note (f : note_file) (png_files updated_notes : paths)
  : method (paths * paths) :=
  let filename := filename f in
  if to_update f then
    _ <~ raise_flags filename ;;
    content <~ lift (or_raise TransportError (get_contents filename)) ;;
    o <~ lift (GenerateCoverImages.update_properties read_file formatted_date
                 (Some filename) (Some content)) ;;
    updated_notes <~
      match o with
      | GenerateCoverImages.Updated _ _ new_content =>
          if Py.nonempty new_content then
            let md_path := tmp filename in
            _ <~ write_text md_path new_content ;;
            ret (Assoc.set filename md_path updated_notes)
          else ret updated_notes
      | GenerateCoverImages.Unchanged => ret updated_notes
      end ;;
    png_files <~
      match GenerateCoverImages.cover_job o with
      | Some (title, png_name) =>
          let png_path := tmp png_name in
          _ <~ create_image title png_path ;;
          ret (Assoc.set (GenerateCoverImages.COVERS_DIR ++ png_name) png_path png_files)
      | None => ret png_files
      end ;;
    ret (png_files, updated_notes)
  else
    _ <~ raise_flags filename ;;
    ret (png_files, updated_notes).

(** What the loop does with an entry that is to be updated, after the
    flags. *)
Definition check_note_body (f : note_file) (png_files updated_notes : paths)
  : method (paths * paths) :=
  content <~ lift (or_raise TransportError (get_contents (filename f))) ;;
  o <~ lift (GenerateCoverImages.update_properties read_file formatted_date
               (Some (filename f)) (Some content)) ;;
  updated_notes <~
    match o with
    | GenerateCoverImages.Updated _ _ new_content =>
        if Py.nonempty new_content then
          _ <~ write_text (tmp (filename f)) new_content ;;
          ret (Assoc.set (filename f) (tmp (filename f)) updated_notes)
        else ret updated_notes
    | GenerateCoverImages.Unchanged => ret updated_notes
    end ;;
  png_files <~
    match GenerateCoverImages.cover_job o with
    | Some (title, png_name) =>
        _ <~ create_image title (tmp png_name) ;;
        ret (Assoc.set (GenerateCoverImages.COVERS_DIR ++ png_name) (tmp png_name) png_files)
    | None => ret png_files
    end ;;
  ret (png_files, updated_notes).

Fixpoint check_notes (notes_files : list note_file) (png_files updated_notes : paths)
  : method (paths * paths) :=
  match notes_files with
  | [] => ret (png_files, updated_notes)
  | f :: others =>
      dicts <~ check_note f png_files updated_notes ;;
      check_notes others (fst dicts) (snd dicts)
  end.

Definition get_updated_files_png (notes_files : list note_file) : method (paths * paths) :=
  check_notes notes_files [] [].

(** [update_trigger_file]: the content of the trigger file with one more
    line; [updates_exist] is the mapping of the images and
    [formatted_datetime] the time of the call. *)
Definition update_trigger_file (formatted_datetime trigger_file : string)
    (updates_exist : paths) : result string :=
  file_content <- or_raise TransportError (get_contents trigger_file) ;;
  let new_content_to_add :=
    match updates_exist with
    | _ :: _ => nl ++ " Covers Updated on " ++ formatted_datetime
    | [] => nl ++ " No covers were updated: " ++ formatted_datetime
    end in
  Ok (file_content ++ new_content_to_add).

Definition add_triggers (formatted_datetime trigger_file : string)
    (files_dict png_dict : paths) : method paths :=
  new_pub_trigger_content <~
    lift (update_trigger_file formatted_datetime trigger_file png_dict) ;;
  let trigger_publish_path := tmp trigger_file in
  _ <~ write_text trigger_publish_path new_pub_trigger_content ;;
  ret (Assoc.set trigger_file trigger_publish_path files_dict).

(** The first half of [run_cover_checker], up to the two commits: the two
    mappings that are handed to the committers.  [publish_time] and
    [journal_time] are the times of the two calls of [add_triggers]. *)
Variable publish_time : string.
Variable journal_time : string.

Definition staged (notes_files : list note_file) : method (paths * paths) :=
  dicts <~ get_updated_files_png notes_files ;;
  let png_files_dict := fst dicts in
  let updated_notes_dict := snd dicts in
  updated_notes_dict <~
    (fun self =>
       if publish_flag self
       then add_triggers publish_time PUBLISH_TRIGGER_FILE updated_notes_dict
              png_files_dict self
       else ret updated_notes_dict self) ;;
  updated_notes_dict <~
    (fun self =>
       if journal_flag self
       then add_triggers journal_time JOURNAL_TRIGGER_FILE updated_notes_dict
              png_files_dict self
       else ret updated_notes_dict self) ;;
  ret (png_files_dict, updated_notes_dict).

(** The second half: the covers are committed when there are any, the notes
    always.  Each repository has its own failing calls; [open] reads the
    scratch directory. *)
Variable covers_fails : nat -> bool.
Variable notes_fails : nat -> bool.

Definition publish (fails : nat -> bool) (self : handler) (commit_msg : string)
    (file_paths : paths) : GithubCommitter.M unit :=
  GithubCommitter.mbind (GithubCommitter.init fails)
    (fun committer =>
       GithubCommitter.commit_files fails (fun p => Assoc.lookup p (scratch self))
         committer commit_msg file_paths).

Definition commit_staged (self : handler) (dicts : paths * paths)
    (repo_covers repo_notes : GithubCommitter.world)
  : result unit * GithubCommitter.world * GithubCommitter.world :=
  let png_files_dict := fst dicts in
  let updated_notes_dict := snd dicts in
  let (covered, repo_covers) :=
    match png_files_dict with
    | _ :: _ =>
        publish covers_fails self GenerateCoverImages.COMMIT_MSG png_files_dict repo_covers
    | [] => (Ok tt, repo_covers)
    end in
  match covered with
  | Ok _ =>
      let (noted, repo_notes) :=
        publish notes_fails self GenerateCoverImages.COMMIT_MSG updated_notes_dict repo_notes in
      (noted, repo_covers, repo_notes)
  | Raise e => (Raise e, repo_covers, repo_notes)
  end.

(** [run_cover_checker] after [files_from_last_commit] has returned
    [notes_files]. *)
Definition run_cover_checker (notes_files : list note_file) (self : handler)
    (repo_covers repo_notes : GithubCommitter.world)
  : result unit * handler * GithubCommitter.world * GithubCommitter.world :=
  match staged notes_files self with
  | (Ok dicts, self') =>
      let '(r, repo_covers', repo_notes') := commit_staged self' dicts repo_covers repo_notes in
      (r, self', repo_covers', repo_notes')
  | (Raise e, self') => (Raise e, self', repo_covers, repo_notes)
  end.

End Checker.

(** An entry of the mapping of the notes: the name of an entry of the commit
    that is to be updated, with its scratch path, which has been written. *)
Definition staged_note (tmp : string -> string) (notes_files : list note_file)
    (self : handler) (entry : string * string) : Prop :=
  exists f : note_file,
    In f notes_files /\ to_update f = true
    /\ entry = (filename f, tmp (filename f))
    /\ written self (tmp (filename f)).

(** An entry of the mapping of the images: under [COVERS_DIR], the slug of a
    title followed by [.png], with its scratch path, which has been
    written. *)
Definition staged_cover (tmp : string -> string) (self : handler)
    (entry : string * string) : Prop :=
  exists text : string,
    entry = (GenerateCoverImages.COVERS_DIR
               ++ GenerateCoverImages.clean_text_for_filename text ++ ".png",
             tmp (GenerateCoverImages.clean_text_for_filename text ++ ".png"))
    /\ written self (tmp (GenerateCoverImages.clean_text_for_filename text ++ ".png")).

End GitNotesCoverChecker.

(** ** [GitNotesFrontMatterHandler], in [update_frontmatter.py] *)

Module GitNotesFrontMatterHandler.

Import Notes.

Section Handler.

Context {L : Libs}.

(** The files of the working directory, the date of the run, the content of
    a file of the notes repository ([None] where the call raises) and the
    scratch path of a name. *)
Variable read_file : file_system.
Variable current_date : string.
Variable get_contents : string -> option string.
Variable tmp : string -> string.

(** [generate_trigger_file_content()]; [formatted_datetime] is the time of
    the call. *)
Definition generate_trigger_file_content (formatted_datetime : string) : string :=
  nl ++ " Front Matter Updated on " ++ formatted_datetime.

(** The body of the loop of [get_updated_files]. *)
Definition check_note (f : note_file) (updated_notes : paths) : method paths :=
  let filename := filename f in
  if to_update f then
    _ <~ raise_flags filename ;;
    content <~ lift (or_raise TransportError (get_contents filename)) ;;
    new_content <~ lift (UpdateFrontmatter.update_properties read_file current_date
                           (Some filename) (Some content)) ;;
    if Py.nonempty new_content then
      let md_path := tmp filename in
      _ <~ write_text md_path new_content ;;
      ret (Assoc.set filename md_path updated_notes)
    else ret updated_notes
  else
    _ <~ raise_flags filename ;;
    ret updated_notes.

Fixpoint check_notes (notes_files : list note_file) (updated_notes : paths)
  : method paths :=
  match notes_files with
  | [] => ret updated_notes
  | f :: others =>
      updated_notes <~ check_note f updated_notes ;;
      check_notes others updated_notes
  end.

Definition get_updated_files (notes_files : list note_file) : method paths :=
  check_notes notes_files [].

(** [add_triggers(trigger_file, files_dict)]; [formatted_datetime] is the
    time at which the content would be generated. *)
Definition add_triggers (formatted_datetime trigger_file : string) (files_dict : paths)
  : method paths :=
  if Assoc.mem trigger_file files_dict then ret files_dict
  else
    let new_pub_trigger_content := generate_trigger_file_content formatted_datetime in
    let trigger_publish_path := tmp trigger_file in
    _ <~ write_text trigger_publish_path new_pub_trigger_content ;;
    ret (Assoc.set trigger_file trigger_publish_path files_dict).

(** The first half of [run_cover_checker], up to the commit. *)
Variable publish_time : string.
Variable journal_time : string.

Definition staged (notes_files : list note_file) : method paths :=
  updated_notes_dict <~ get_updated_files notes_files ;;
  updated_notes_dict <~
    (fun self =>
       if publish_flag self
       then add_triggers publish_time PUBLISH_TRIGGER_FILE updated_notes_dict self
       else ret updated_notes_dict self) ;;
  updated_notes_dict <~
    (fun self =>
       if journal_flag self
       then add_triggers journal_time JOURNAL_TRIGGER_FILE updated_notes_dict self
       else ret updated_notes_dict self) ;;
  ret updated_notes_dict.

(** The second half: the notes are committed, whatever the mapping holds.
    The class [GithubCommitter] of this script is that of the cover script,
    with the commit message of this one. *)
Variable notes_fails : nat -> bool.

Definition commit_staged (self : handler) (updated_notes_dict : paths)
  : GithubCommitter.M unit :=
  GithubCommitter.mbind (GithubCommitter.init notes_fails)
    (fun notes_committer =>
       GithubCommitter.commit_files notes_fails (fun p => Assoc.lookup p (scratch self))
         notes_committer UpdateFrontmatter.COMMIT_MSG updated_notes_dict).

(** [run_cover_checker] after [files_from_last_commit] has returned
    [notes_files]. *)
Definition run_cover_checker (notes_files : list note_file) (self : handler)
    (repo_notes : GithubCommitter.world)
  : result unit * handler * GithubCommitter.world :=
  match staged notes_files self with
  | (Ok updated_notes_dict, self') =>
      let (r, repo_notes') := commit_staged self' updated_notes_dict repo_notes in
      (r, self', repo_notes')
  | (Raise e, self') => (Raise e, self', repo_notes)
  end.

End Handler.

End GitNotesFrontMatterHandler.

(** ** A small instance of the library interface

    Block-style YAML with one level of nesting and keys in insertion order,
    templates without a backslash, and greedy wrapping of words that fit in a
    line.  It stands in for the libraries on the concrete documents of the
    examples below; the general theorems hold for every instance. *)

Module Standin.

Definition is_date (s : string) : bool :=
  match s with
  | String y1 (String y2 (String y3 (String y4 (String d1
      (String m1 (String m2 (String d2 (String n1 (String n2 EmptyString))))))))) =>
      Py.is_digit y1 && Py.is_digit y2 && Py.is_digit y3 && Py.is_digit y4
      && Ascii.eqb d1 "-" && Py.is_digit m1 && Py.is_digit m2
      && Ascii.eqb d2 "-" && Py.is_digit n1 && Py.is_digit n2
  | _ => false
  end.

Fixpoint digits_value (acc : Z) (s : string) : Z :=
  match s with
  | EmptyString => acc
  | String c r => digits_value (10 * acc + Z.of_nat (Py.code c - 48)) r
  end.

Fixpoint digits_of (fuel : nat) (n : nat) (acc : string) : string :=
  match fuel with
  | O => acc
  | S fuel' =>
      let acc := String (ascii_of_nat (48 + n mod 10)) acc in
      if n / 10 =? 0 then acc else digits_of fuel' (n / 10) acc
  end.

Definition decimal (n : Z) : string :=
  let m := Z.abs_nat n in
  (if (n <? 0)%Z then "-" else "") ++ digits_of (S m) m "".

Definition quoted (s : string) : string := "'" ++ s ++ "'".

(** A string that would be read back as something else is quoted. *)
Definition dump_str (s : string) : string :=
  if is_date s || Py.isdigit s || negb (Py.nonempty s)
     || String.eqb s "true" || String.eqb s "false" || String.eqb s "null"
  then quoted s else s.

Fixpoint dump_inline (v : value) : string :=
  match v with
  | VNull => "null"
  | VBool b => if b then "true" else "false"
  | VInt n => decimal n
  | VStr s => dump_str s
  | VDate iso => iso
  | VList items => "[" ++ Py.join ", " (map dump_inline items) ++ "]"
  | VMap entries =>
      "{" ++ Py.join ", " (map (fun kv => fst kv ++ ": " ++ dump_inline (snd kv)) entries) ++ "}"
  end.

Definition dump_entry (indent : string) (kv : string * value) : string :=
  indent ++ fst kv ++ ": " ++ dump_inline (snd kv) ++ nl.

Definition dump_top (kv : string * value) : string :=
  match snd kv with
  | VMap (first :: others) =>
      fst kv ++ ":" ++ nl ++ String.concat "" (map (dump_entry "  ") (first :: others))
  | _ => dump_entry "" kv
  end.

Definition dump (d : dict) : string := String.concat "" (map dump_top d).

Definition unquote (s : string) : option string :=
  match Py.strip_prefix "'" s with
  | Some r =>
      match Py.strip_prefix "'" (Py.srev r) with
      | Some inner => Some (Py.srev inner)
      | None => None
      end
  | None => None
  end.

(** The year, month and day of a text that reads as a date are those of a
    day of the calendar. *)
Definition days_in_month (year month : Z) : Z :=
  if (month =? 2)%Z
  then (if ((year mod 4 =? 0) && negb (year mod 100 =? 0) || (year mod 400 =? 0))%Z
        then 29 else 28)%Z
  else if ((month =? 4) || (month =? 6) || (month =? 9) || (month =? 11))%Z
  then 30%Z else 31%Z.

Definition is_day (s : string) : bool :=
  let year := digits_value 0 (String.substring 0 4 s) in
  let month := digits_value 0 (String.substring 5 2 s) in
  let day := digits_value 0 (String.substring 8 2 s) in
  ((1 <=? year) && (1 <=? month) && (month <=? 12)
   && (1 <=? day) && (day <=? days_in_month year month))%Z.

Definition parse_scalar (text : string) : result value :=
  let s := Py.strip text in
  match unquote s with
  | Some inner => Ok (VStr inner)
  | None =>
      if negb (Py.nonempty s) || String.eqb s "null" then Ok VNull
      else if String.eqb s "true" then Ok (VBool true)
      else if String.eqb s "false" then Ok (VBool false)
      else if is_date s then (if is_day s then Ok (VDate s) else Raise ValueError)
      else if Py.isdigit s then Ok (VInt (digits_value 0 s))
      else Ok (VStr s)
  end.

(** The lines are read from the last to the first: [nested] holds the
    indented entries met since the last top-level line. *)
Definition parse_line (line : string) (state : result (dict * dict)) : result (dict * dict) :=
  state <- state ;;
  let '(nested, top) := state in
  if negb (Py.nonempty (Py.strip line)) then Ok state
  else
    match Py.find_sub ":" line with
    | None => Raise YamlError
    | Some (key, text) =>
        match Py.strip_prefix "  " key with
        | Some inner_key =>
            scalar <- parse_scalar text ;;
            Ok ((Py.strip inner_key, scalar) :: nested, top)
        | None =>
            if Py.nonempty (Py.strip text)
            then match nested with
                 | [] =>
                     scalar <- parse_scalar text ;;
                     Ok ([], (key, scalar) :: top)
                 | _ :: _ => Raise YamlError
                 end
            else match nested with
                 | [] => Ok ([], (key, VNull) :: top)
                 | _ :: _ => Ok ([], (key, VMap nested) :: top)
                 end
        end
    end.

Definition load (text : string) : result value :=
  state <- fold_right parse_line (Ok ([], [])) (Py.split_on (ascii_of_nat 10) text) ;;
  match state with
  | ([], []) => Ok VNull
  | ([], top) => Ok (VMap top)
  | _ => Raise YamlError
  end.

Definition expand (template whole inner : string) : option string :=
  if Py.sexists (fun c => Ascii.eqb c "\") template then None else Some template.

Fixpoint fill (width : nat) (line : string) (words : list string) : list string :=
  match words with
  | [] => if Py.nonempty line then [line] else []
  | w :: others =>
      if Py.nonempty line
      then if String.length line + 1 + String.length w <=? width
           then fill width (line ++ " " ++ w) others
           else line :: fill width w others
      else fill width w others
  end.

Definition wrap (text : string) (width : nat) : list string := fill width "" (Py.split text).

Definition libs : Libs := {|
  yaml_load := load;
  yaml_dump := dump;
  re_expand := expand;
  textwrap_wrap := wrap
|}.

Definition no_files : file_system := fun _ => None.

End Standin.

(** ** Sample documents *)

Module Samples.

Definition today : string := "2024-05-01".

Definition lines (ls : list string) : string :=
  String.concat "" (map (fun l => l ++ nl) ls).

(** A document that was processed today: it has a cover and today's date. *)
Definition processed : string :=
  lines [ "---";
          "title: Post";
          "ogImage:";
          "  url: https://example.org/post.png";
          "date: '2024-05-01'";
          "---";
          "";
          "hello" ].

(** A document without a header. *)
Definition plain : string := lines [ "hello" ].

(** A document whose date is to be kept. *)
Definition kept : string :=
  lines [ "---";
          "title: Post";
          "ogImage:";
          "  url: https://example.org/post.png";
          "date: '2020-01-01'";
          "dupdate: true";
          "---";
          "";
          "hello" ].

(** A header without a title. *)
Definition untitled : string :=
  lines [ "---";
          "date: '2020-01-01'";
          "---";
          "";
          "hello" ].

(** A header whose [ogImage] has no [url]. *)
Definition no_url : string :=
  lines [ "---";
          "title: Post";
          "ogImage:";
          "  alt: cover";
          "---";
          "";
          "hello" ].

(** A header whose date is no day of the calendar. *)
Definition impossible : string :=
  lines [ "---";
          "title: Post";
          "date: 2023-02-29";
          "---";
          "";
          "hello" ].

(** A working directory with a note and a file that is no UTF-8. *)
Definition disk : file_system :=
  fun path =>
    if String.eqb path "publish/post.md" then Some (Ok plain)
    else if String.eqb path "publish/binary.md" then Some (Raise ValueError)
    else None.

(** A commit of the notes: a changed note, a removed one and another file.
    [remote] is the content of the files of the notes repository, [tmp] the
    scratch path of a name and [draw] the image of a title. *)
Definition notes_files : list Notes.note_file :=
  [ {| Notes.filename := "publish/post.md"; Notes.status := "modified" |};
    {| Notes.filename := "journal/old.md"; Notes.status := "removed" |};
    {| Notes.filename := "README.txt"; Notes.status := "added" |} ].

Definition remote (name : string) : option string :=
  if String.eqb name "publish/post.md" then Some plain
  else if String.eqb name Notes.PUBLISH_TRIGGER_FILE then Some "log"
  else if String.eqb name Notes.JOURNAL_TRIGGER_FILE then Some "log"
  else None.

Definition tmp (name : string) : string := "/tmp/scratch/" ++ name.

Definition draw (title : string) : option string := Some ("PNG " ++ title).

Definition fresh : Notes.handler :=
  {| Notes.publish_flag := false; Notes.journal_flag := false; Notes.scratch := [] |}.

Definition repository : GithubCommitter.world :=
  {| GithubCommitter.repo :=
       {| GithubCommitter.blobs := []; GithubCommitter.trees := [];
          GithubCommitter.commits := []; GithubCommitter.heads_main := 7;
          GithubCommitter.next_sha := 8 |};
     GithubCommitter.log := [] |}.

(** Two files of the scratch directory and the mapping that hands them to
    the committer. *)
Definition local_files (path : string) : option string :=
  if String.eqb path "/tmp/scratch/publish/post.md" then Some "text of the note"
  else if String.eqb path "/tmp/scratch/post.png" then Some "PNG"
  else None.

Definition staged_paths : list (string * string) :=
  [ ("publish/post.md", "/tmp/scratch/publish/post.md");
    ("public/assets/blog/covers/post.png", "/tmp/scratch/post.png") ].

End Samples.

(** ** Character classes and word shapes used in the properties *)

Definition is_dot (c : ascii) : bool := Ascii.eqb c ".".

(** A token is a piece of the text made of letters and digits. *)
Definition token_of (s word after : string) : Prop :=
  s = word ++ after /\ word <> "" /\ Py.sforall Py.is_alnum word = true.

Definition alnum_or_space (c : ascii) : bool := Py.is_alnum c || Ascii.eqb c " ".

Definition no_space (c : ascii) : bool := negb (Py.is_space c).

(** A word as [str.split()] gives it: not empty and without white space. *)
Definition wordlike (w : string) : Prop :=
  w <> "" /\ Py.sforall no_space w = true.

Definition no_separator (c : ascii) : bool :=
  negb (Ascii.eqb c "_") && negb (Ascii.eqb c "-").

(** ASCII text: every code point is below 128.  On such text the string
    functions above are those of Python. *)
Definition is_ascii (c : ascii) : bool := Py.code c <? 128.

Definition ascii_text (s : string) : bool := Py.sforall is_ascii s.

(** Title case: a letter is upper case where it follows no letter and lower
    case where it follows one. *)
Fixpoint titlecased_from (previous_is_cased : bool) (s : string) : bool :=
  match s with
  | EmptyString => true
  | String c r =>
      (if previous_is_cased then negb (Py.is_upper c) else negb (Py.is_lower c))
      && titlecased_from (Py.is_cased c) r
  end.

Definition titlecased (s : string) : bool := titlecased_from false s.

(** Two characters that are the same up to the case of an ASCII letter, and
    two texts that are so character by character. *)
Definition same_letter (c d : ascii) : bool :=
  Ascii.eqb c d
  || (Py.is_upper c && (Py.code d =? Py.code c + 32))
  || (Py.is_lower c && (Py.code c =? Py.code d + 32)).

Fixpoint same_letters (s t : string) : bool :=
  match s, t with
  | EmptyString, EmptyString => true
  | String c s', String d t' => same_letter c d && same_letters s' t'
  | _, _ => false
  end.

Definition no_newline (c : ascii) : bool := negb (Ascii.eqb c (ascii_of_nat 10)).

(** [text.split(sep)] for a separator that is not empty: the pieces between
    the occurrences of [sep], from left to right.  There are no more
    occurrences than characters, so the length of the text is fuel enough. *)
Fixpoint split_sep_fuel (fuel : nat) (sep s : string) : list string :=
  match fuel with
  | O => [s]
  | S fuel' =>
      match Py.find_sub sep s with
      | Some (before, after) => before :: split_sep_fuel fuel' sep after
      | None => [s]
      end
  end.

Definition split_sep (sep s : string) : list string :=
  split_sep_fuel (String.length s) sep s.

(** A line centred in a width: spaces on both sides, as many on the left as
    on the right up to one, and as few as make the width. *)
Definition centred (width : nat) (line padded : string) : Prop :=
  exists left right : nat,
    padded = Py.spaces left ++ line ++ Py.spaces right
    /\ String.length padded = Nat.max width (String.length line)
    /\ (left = right \/ left = S right \/ right = S left).

(** A header block as it is read back: an opening fence, a text, and a
    closing fence that is the first fence after the opening one. *)
Definition header_block (block : string) : Prop :=
  exists inner : string,
    block = "---" ++ inner ++ "---"
    /\ Py.find_sub "---" (inner ++ "---") = Some (inner, "").

(** The word of a title: [word.title() if not word.isupper() else word]. *)
Definition title_word (word : string) : string :=
  if Py.isupper word then word else Py.title word.

(** * Properties *)

(** ** Strings *)

Lemma append_length (a b : string) :
  String.length (a ++ b) = String.length a + String.length b.
Proof.
  induction a as [|c a IH]; simpl; [reflexivity | now rewrite IH].
Qed.

Lemma append_assoc (a b c : string) : (a ++ b) ++ c = a ++ (b ++ c).
Proof.
  induction a as [|x a IH]; simpl; [reflexivity | now rewrite IH].
Qed.

Lemma append_empty_r (a : string) : a ++ "" = a.
Proof.
  induction a as [|x a IH]; simpl; [reflexivity | now rewrite IH].
Qed.

Lemma spaces_length (n : nat) : String.length (Py.spaces n) = n.
Proof.
  induction n as [|n IH]; simpl; [reflexivity | now rewrite IH].
Qed.

Lemma span_append (p : ascii -> bool) (s run after : string) :
  Py.span p s = (run, after) -> s = run ++ after.
Proof.
  revert run after.
  induction s as [|c s IH]; simpl; intros run after E.
  - now inversion E.
  - destruct (p c).
    + destruct (Py.span p s) as [run' after'] eqn:Es.
      inversion E; subst. simpl. f_equal. now apply IH.
    + now inversion E.
Qed.

Lemma strip_prefix_append (p s after : string) :
  Py.strip_prefix p s = Some after -> s = p ++ after.
Proof.
  revert s.
  induction p as [|a p IH]; simpl; intros s E.
  - now inversion E.
  - destruct s as [|b s]; [discriminate|].
    destruct (Ascii.eqb_spec a b) as [->|]; [|discriminate].
    simpl. f_equal. now apply IH.
Qed.

Lemma find_sub_append (p s before after : string) :
  Py.find_sub p s = Some (before, after) -> s = before ++ p ++ after.
Proof.
  revert before after.
  induction s as [|c s IH]; intros before after E.
  - simpl in E. destruct (Py.strip_prefix p "") as [t|] eqn:Ep; [|discriminate].
    inversion E; subst. simpl. now apply strip_prefix_append.
  - cbn [Py.find_sub] in E.
    destruct (Py.strip_prefix p (String c s)) as [t|] eqn:Ep.
    + inversion E; subst. simpl. now apply strip_prefix_append.
    + destruct (Py.find_sub p s) as [[b a]|] eqn:Es; [|discriminate].
      inversion E; subst. simpl. f_equal. now apply IH.
Qed.

(** The text is the match followed by the rest. *)
Lemma search_header_split (text : string) (m : header_match) :
  search_header text = Some m -> text = matched m ++ rest m.
Proof.
  unfold search_header.
  destruct (Py.span Py.is_space text) as [blank after_blank] eqn:Eb.
  destruct (Py.strip_prefix "---" after_blank) as [after_fence|] eqn:Ef; [|discriminate].
  destruct (Py.find_sub "---" after_fence) as [[inner after]|] eqn:Ei; [|discriminate].
  intros E. inversion E; subst; clear E. cbn [matched rest].
  apply span_append in Eb. apply strip_prefix_append in Ef.
  apply find_sub_append in Ei. subst.
  rewrite append_assoc. f_equal. simpl. now rewrite append_assoc.
Qed.

(** ** Dictionaries *)

Lemma lookup_set_same (k : string) (v : value) (d : dict) :
  Dict.lookup k (Dict.set k v d) = Some v.
Proof.
  induction d as [|[k' v'] d IH]; simpl.
  - now rewrite String.eqb_refl.
  - destruct (String.eqb k k') eqn:E; simpl.
    + now rewrite String.eqb_refl.
    + now rewrite E.
Qed.

Lemma lookup_set_other (k k0 : string) (v : value) (d : dict) :
  k0 <> k -> Dict.lookup k0 (Dict.set k v d) = Dict.lookup k0 d.
Proof.
  intros N.
  induction d as [|[k' v'] d IH]; simpl.
  - apply String.eqb_neq in N. now rewrite N.
  - destruct (String.eqb_spec k k') as [->|Nk]; simpl.
    + apply String.eqb_neq in N. now rewrite N.
    + now rewrite IH.
Qed.

Lemma lookup_setdefault_other (k k0 : string) (v : value) (d : dict) :
  k0 <> k -> Dict.lookup k0 (Dict.setdefault k v d) = Dict.lookup k0 d.
Proof.
  intros N. unfold Dict.setdefault.
  destruct (Dict.mem k d); [reflexivity | now apply lookup_set_other].
Qed.

Lemma lookup_setdefault_absent (k : string) (v : value) (d : dict) :
  Dict.lookup k d = None -> Dict.lookup k (Dict.setdefault k v d) = Some v.
Proof.
  intros E. unfold Dict.setdefault, Dict.mem. rewrite E. apply lookup_set_same.
Qed.

(** ** The slug of a title *)

Lemma filter_replace (a b : ascii) (s : string) :
  Py.is_alnum a = false -> Py.is_alnum b = false ->
  Py.sfilter Py.is_alnum (Py.replace a b s) = Py.sfilter Py.is_alnum s.
Proof.
  intros Ha Hb. unfold Py.replace.
  induction s as [|c s IH]; simpl; [reflexivity|].
  destruct (Ascii.eqb_spec c a) as [->|N].
  - now rewrite Ha, Hb.
  - now rewrite IH.
Qed.

Lemma lower_of_alnum (c : ascii) :
  Py.is_alnum c = true ->
  Py.is_lower (Py.to_lower c) || Py.is_digit (Py.to_lower c) = true.
Proof.
  destruct c as [[] [] [] [] [] [] [] []]; vm_compute; intros E;
    first [reflexivity | discriminate E].
Qed.

Lemma slug_characters (s : string) :
  Py.sforall (fun c => Py.is_lower c || Py.is_digit c)
    (Py.lower (Py.sfilter Py.is_alnum s)) = true.
Proof.
  induction s as [|c s IH]; simpl; [reflexivity|].
  destruct (Py.is_alnum c) eqn:E; [|exact IH].
  cbn [Py.lower Py.smap Py.sforall]. rewrite (lower_of_alnum c E). exact IH.
Qed.

(** C8.  The title ["My Cool Post!"] gives the image file name
    [mycoolpost.png].  For every title, the slug is the title with every
    character outside [a-zA-Z0-9] removed and the letters lowered, so it
    consists of lower-case letters and digits only. *)
Theorem clean_text_for_filename_slug :
  GenerateCoverImages.clean_text_for_filename "My Cool Post!" ++ ".png" = "mycoolpost.png"
  /\ forall title : string,
       GenerateCoverImages.clean_text_for_filename title
         = Py.lower (Py.sfilter Py.is_alnum title)
       /\ Py.sforall (fun c => Py.is_lower c || Py.is_digit c)
            (GenerateCoverImages.clean_text_for_filename title) = true.
Proof.
  split; [reflexivity|].
  intros title.
  assert (E : GenerateCoverImages.clean_text_for_filename title
              = Py.lower (Py.sfilter Py.is_alnum title)).
  { unfold GenerateCoverImages.clean_text_for_filename.
    now rewrite !filter_replace by reflexivity. }
  split; [exact E|]. rewrite E. apply slug_characters.
Qed.

(** ** The words of a file name *)

Lemma span_length (p : ascii -> bool) (s run after : string) :
  Py.span p s = (run, after) ->
  String.length s = String.length run + String.length after.
Proof.
  intros E. apply span_append in E. subst. apply append_length.
Qed.

Lemma span_first (p : ascii -> bool) (c : ascii) (r run after : string) :
  p c = true -> Py.span p (String c r) = (run, after) ->
  String.length after <= String.length r.
Proof.
  intros Hc. cbn [Py.span]. rewrite Hc.
  destruct (Py.span p r) as [run' after'] eqn:E. intros X. inversion X; subst.
  apply span_length in E. lia.
Qed.

Lemma but_last_length (s : string) :
  Py.nonempty (UpdateFrontmatter.but_last s) = true ->
  String.length (UpdateFrontmatter.last_char s) = 1 /\ 2 <= String.length s.
Proof.
  destruct s as [|c [|d r]]; cbn; try discriminate. intros _.
  split; [|lia].
  revert d. induction r as [|e r IH]; intros d; [reflexivity|].
  cbn [UpdateFrontmatter.last_char] in *. apply IH.
Qed.

Lemma upper_run_shorter (c : ascii) (r word after : string) :
  Py.is_upper c = true ->
  UpdateFrontmatter.upper_run (String c r) = Some (word, after) ->
  String.length after < String.length (String c r).
Proof.
  intros Hc. unfold UpdateFrontmatter.upper_run.
  destruct (Py.span Py.is_upper (String c r)) as [run rest_] eqn:Es.
  pose proof (span_first _ _ _ _ _ Hc Es) as Hlen.
  pose proof (span_length _ _ _ _ Es) as Hsum.
  destruct rest_ as [|d rest_].
  - intros E. inversion E; subst. cbn. lia.
  - destruct (Py.is_digit d || negb (Py.is_word d)).
    + intros E. inversion E; subst. cbn [String.length] in *. lia.
    + destruct (Py.is_lower d && Py.nonempty (UpdateFrontmatter.but_last run)) eqn:Hb;
        [|discriminate].
      apply andb_true_iff in Hb. destruct Hb as [_ Hb].
      apply but_last_length in Hb. destruct Hb as [H1 H2].
      intros E. inversion E; subst. rewrite append_length, H1.
      cbn [String.length] in *. lia.
Qed.

Lemma match_word_shorter (s word after : string) :
  UpdateFrontmatter.match_word s = Some (word, after) ->
  String.length after < String.length s.
Proof.
  destruct s as [|c r]; [discriminate|].
  cbn [UpdateFrontmatter.match_word].
  destruct (Py.is_lower c) eqn:Hl.
  - intros E. inversion E as [Es]. apply (span_first _ _ _ _ _ Hl) in Es. cbn. lia.
  - destruct (Py.is_upper c) eqn:Hu.
    + assert (Hrun : forall w a, UpdateFrontmatter.upper_run (String c r) = Some (w, a) ->
                                 String.length a < String.length (String c r)).
      { intros w a E. now apply (upper_run_shorter c r w a Hu). }
      destruct r as [|d r']; [apply Hrun|].
      destruct (Py.is_lower d) eqn:Hd; [|apply Hrun].
      destruct (Py.span Py.is_lower (String d r')) as [run rest_] eqn:Es.
      intros E. inversion E; subst.
      apply (span_first _ _ _ _ _ Hd) in Es. cbn [String.length]. lia.
    + destruct (Py.is_digit c) eqn:Hg; [|discriminate].
      intros E. inversion E as [Es]. apply (span_first _ _ _ _ _ Hg) in Es. cbn. lia.
Qed.

(** The length of the text is fuel enough for [findall_words]: more fuel
    gives the same words. *)
Lemma findall_words_fuel (n : nat) :
  forall (m : nat) (s : string),
    String.length s <= n -> String.length s <= m ->
    UpdateFrontmatter.findall_words n s = UpdateFrontmatter.findall_words m s.
Proof.
  induction n as [|n IH]; intros m s Hn Hm.
  - destruct s; [|cbn in Hn; lia]. now destruct m.
  - destruct s as [|c r]; [now destruct m|].
    destruct m as [|m]; [cbn in Hm; lia|].
    cbn [UpdateFrontmatter.findall_words].
    destruct (UpdateFrontmatter.match_word (String c r)) as [[word after]|] eqn:E.
    + apply match_word_shorter in E. cbn [String.length] in *.
      f_equal. apply IH; lia.
    + cbn [String.length] in *. apply IH; lia.
Qed.

(** ** The text of the cover *)

Lemma center_shape (line : string) (width : nat) :
  exists left right : nat,
    Py.center line width = Py.spaces left ++ line ++ Py.spaces right
    /\ left + String.length line + right = Nat.max width (String.length line)
    /\ (left = right \/ left = S right \/ right = S left).
Proof.
  unfold Py.center.
  destruct (Nat.leb_spec width (String.length line)) as [Hle|Hlt].
  - exists 0, 0. simpl. rewrite append_empty_r. repeat split; [lia | now left].
  - set (marg := width - String.length line).
    pose proof (Nat.div2_odd marg) as E. rewrite Nat.div2_div in E.
    pose proof (Nat.div2_odd width) as Ew.
    pose proof (Nat.div2_odd (String.length line)) as El.
    exists (marg / 2 + (if Nat.odd marg && Nat.odd width then 1 else 0)).
    eexists. split; [reflexivity|].
    assert (Hm : marg + String.length line = width) by (unfold marg; lia).
    destruct (Nat.odd marg) eqn:Om; destruct (Nat.odd width) eqn:Ow;
      simpl in *; lia.
Qed.

Lemma center_length (line : string) (width : nat) :
  String.length (Py.center line width) = Nat.max width (String.length line).
Proof.
  destruct (center_shape line width) as (l & r & E & Hsum & _).
  rewrite E, !append_length, !spaces_length. lia.
Qed.

Example title_text_samples :
  GenerateCoverImages.title_text "NASA REPORT 2024" = "NASA REPORT 2024"
  /\ GenerateCoverImages.title_text "my cool post" = "My Cool Post"
  /\ GenerateCoverImages.title_text "NASA report" = "Nasa Report".
Proof.
  repeat split.
Qed.

(** ** The header branch of the cover script *)

Lemma get_of_lookup (k : string) (v default : value) (d : dict) :
  Dict.lookup k d = Some v -> Dict.get k default d = v.
Proof.
  intros E. unfold Dict.get. now rewrite E.
Qed.

(** Filling in the title changes no other key. *)
Lemma titled_lookup (stem k : string) (properties : dict) :
  k <> "title" ->
  Dict.lookup k (snd (GenerateCoverImages.titled stem properties)) = Dict.lookup k properties.
Proof.
  intros N. unfold GenerateCoverImages.titled.
  destruct (truthy _); cbn; [reflexivity | now apply lookup_set_other].
Qed.

(** Two keys that differ as literals. *)
Ltac distinct_keys := intros Heq; discriminate Heq.

(** The early return. *)
Lemma header_properties_early (stem today : string) (properties og_image : dict) (url : value) :
  Dict.lookup "ogImage" properties = Some (VMap og_image) ->
  Dict.lookup "url" og_image = Some url ->
  truthy url = true ->
  Dict.lookup "date" properties = Some (VStr today) ->
  GenerateCoverImages.header_properties stem today properties = Ok None.
Proof.
  intros Hog Hurl Ht Hdate.
  unfold GenerateCoverImages.header_properties.
  pose proof (titled_lookup stem "ogImage" properties ltac:(distinct_keys)) as Eo.
  pose proof (titled_lookup stem "date" properties ltac:(distinct_keys)) as Ed.
  destruct (GenerateCoverImages.titled stem properties) as [note_title titled_props].
  cbn [snd] in Eo, Ed. rewrite Hog in Eo. rewrite Hdate in Ed.
  rewrite (get_of_lookup _ _ _ _ Eo). cbn [as_dict bind].
  rewrite (get_of_lookup _ _ _ _ Hurl), (get_of_lookup _ _ _ _ Ed), Ht.
  cbn [eq_str]. now rewrite String.eqb_refl.
Qed.

(** ** The two [update_properties] *)

Section Scripts.

Context {L : Libs}.
Variable read_file : file_system.
Variable today : string.

(** C1, for [generate_cover_images.py].  Given a path, a document whose
    header has a true [ogImage.url] and whose [date] is the string of today
    makes [update_properties] return [False, False, False]: the caller leaves
    the document as it is and makes no cover image. *)
Theorem early_return_is_noop (path : string) (file_content : option string)
    (text : string) (m : header_match) (properties og_image : dict) (url : value) :
  read_if_missing read_file path file_content = Ok (Some text) ->
  search_header text = Some m ->
  yaml_load (group1 m) = Ok (VMap properties) ->
  Dict.lookup "ogImage" properties = Some (VMap og_image) ->
  Dict.lookup "url" og_image = Some url ->
  truthy url = true ->
  Dict.lookup "date" properties = Some (VStr today) ->
  exists o : GenerateCoverImages.outcome,
    GenerateCoverImages.update_properties read_file today (Some path) file_content = Ok o
    /\ o = GenerateCoverImages.Unchanged
    /\ GenerateCoverImages.content_after text o = text
    /\ GenerateCoverImages.cover_job o = None.
Proof.
  intros Hread Hm Hload Hog Hurl Ht Hdate.
  exists GenerateCoverImages.Unchanged. repeat split.
  unfold GenerateCoverImages.update_properties. cbn [or_raise bind].
  rewrite Hread. cbn [or_raise bind]. rewrite Hm, Hload. cbn [or_raise bind as_dict].
  now rewrite (header_properties_early _ _ _ _ _ Hog Hurl Ht Hdate).
Qed.

(** C3, for [generate_cover_images.py].  For a document without a header
    the new content is a header with exactly [title] (the stem of the file
    name), [ogImage.url] (the CDN prefix and the image file name) and [date]
    (today), the closing fence, one blank line and the text as it was; the
    title and the image file name are returned with it. *)
Theorem headerless_document (path : string) (file_content : option string) (text : string) :
  read_if_missing read_file path file_content = Ok (Some text) ->
  search_header text = None ->
  let stem := Py.path_stem path in
  let png_file_name := GenerateCoverImages.clean_text_for_filename stem ++ ".png" in
  let properties :=
    [ ("title", VStr stem);
      ("ogImage", VMap [("url", VStr (GenerateCoverImages.cdn_url_prefix ++ png_file_name))]);
      ("date", VStr today) ] in
  GenerateCoverImages.update_properties read_file today (Some path) file_content
  = Ok (GenerateCoverImages.Updated (VStr stem) (Some png_file_name)
          ("---" ++ nl ++ yaml_dump properties ++ "---" ++ nl ++ nl ++ text)).
Proof.
  intros Hread Hm stem png_file_name properties.
  unfold GenerateCoverImages.update_properties. cbn [or_raise bind].
  rewrite Hread. cbn [or_raise bind]. rewrite Hm. reflexivity.
Qed.


Lemma clean_title_error (v : value) :
  GenerateCoverImages.clean_title v <> Raise ValueError.
Proof.
  destruct v; discriminate.
Qed.

Lemma header_properties_error (stem : string) (properties : dict) :
  GenerateCoverImages.header_properties stem today properties <> Raise ValueError.
Proof.
  unfold GenerateCoverImages.header_properties.
  destruct (GenerateCoverImages.titled stem properties) as [note_title titled_props].
  destruct (Dict.get "ogImage" (VMap []) titled_props); cbn [as_dict bind]; try discriminate.
  destruct (_ && _); [discriminate|].
  destruct (truthy _); cbn [bind].
  - destruct (truthy _); discriminate.
  - destruct (GenerateCoverImages.clean_title note_title) as [cleaned|e] eqn:Ec; cbn [bind].
    + destruct (truthy _); discriminate.
    + intros Heq. apply (clean_title_error note_title). rewrite Ec.
      inversion Heq. reflexivity.
Qed.

(** After the loader has returned, the cover script raises no
    [ValueError]. *)
Lemma cover_loaded_error (stem : string) (m : header_match) (loaded : value) :
  (properties <- as_dict AttributeError loaded ;;
   decided <- GenerateCoverImages.header_properties stem today properties ;;
   match decided with
   | None => Ok GenerateCoverImages.Unchanged
   | Some (note_title, png_file_name, properties) =>
       new_content <- sub_header ("---" ++ nl ++ yaml_dump properties ++ "---") m ;;
       Ok (GenerateCoverImages.Updated note_title png_file_name new_content)
   end) <> Raise ValueError.
Proof.
  destruct loaded; cbn [as_dict bind]; try discriminate.
  destruct (GenerateCoverImages.header_properties _ _ _) as [decided|e] eqn:Eh; cbn [bind].
  - destruct decided as [[[note_title png] props]|]; [|discriminate].
    unfold sub_header. destruct (re_expand _ _ _); cbn [or_raise bind]; discriminate.
  - intros Heq. apply (header_properties_error stem entries).
    rewrite Eh. inversion Heq. reflexivity.
Qed.

(** After the loader has returned, so does the front-matter script, or it
    raises another error than [ValueError]. *)
Lemma frontmatter_loaded_error (path : option string) (m : header_match) (loaded : value) :
  (properties <- UpdateFrontmatter.loaded_properties loaded ;;
   sub_header
     (UpdateFrontmatter.front_matter (UpdateFrontmatter.fill_properties path today properties))
     m) <> Raise ValueError.
Proof.
  unfold UpdateFrontmatter.loaded_properties.
  destruct (truthy loaded); [destruct loaded|]; cbn [as_dict bind]; try discriminate;
    unfold sub_header; destruct (re_expand _ _ _); cbn [or_raise bind]; discriminate.
Qed.

(** Reading raises what the file system raises, when there is no true
    content and the path is a file. *)
Lemma read_if_missing_raises (path : string) (file_content : option string) (e : exn) :
  read_if_missing read_file path file_content = Raise e
  <-> match file_content with Some text => Py.nonempty text | None => false end = false
      /\ read_file path = Some (Raise e).
Proof.
  unfold read_if_missing.
  destruct (match file_content with Some text => Py.nonempty text | None => false end).
  - split; [discriminate | now intros [X _]].
  - destruct (read_file path) as [[on_disk|e']|]; cbn [bind].
    + split; [discriminate | now intros [_ X]].
    + split; [intros X; inversion X; now split | intros [_ X]; now inversion X].
    + split; [discriminate | now intros [_ X]].
Qed.

(** C6, as the code has it.  The guard of [update_frontmatter.py] raises
    [ValueError] when no content is at hand: none was given and the path is
    missing, empty or not a file.  With content at hand a [ValueError] is
    that of the read, where the file cannot be decoded, or that of the
    loader, where the header holds an impossible date.
    [generate_cover_images.py] has no guard: its [ValueError] is that of the
    read or of the loader, and without a path it fails with [TypeError]. *)
Theorem invalid_input_condition (file_path file_content : option string) :
  (UpdateFrontmatter.update_properties read_file today file_path file_content = Raise ValueError
   <-> UpdateFrontmatter.resolve_content read_file file_path file_content = Ok None
       \/ UpdateFrontmatter.resolve_content read_file file_path file_content = Raise ValueError
       \/ exists (text : string) (m : header_match),
            UpdateFrontmatter.resolve_content read_file file_path file_content = Ok (Some text)
            /\ search_header text = Some m
            /\ yaml_load (group1 m) = Raise ValueError)
  /\ (UpdateFrontmatter.resolve_content read_file file_path file_content = Ok None
      <-> file_content = None
          /\ match UpdateFrontmatter.given_path file_path with
             | Some p => read_file p = None
             | None => True
             end)
  /\ (UpdateFrontmatter.resolve_content read_file file_path file_content = Raise ValueError
      <-> exists p : string,
            UpdateFrontmatter.given_path file_path = Some p
            /\ match file_content with Some text => Py.nonempty text | None => false end = false
            /\ read_file p = Some (Raise ValueError))
  /\ (GenerateCoverImages.update_properties read_file today file_path file_content
      = Raise ValueError
      <-> exists path : string,
            file_path = Some path
            /\ (read_if_missing read_file path file_content = Raise ValueError
                \/ exists (text : string) (m : header_match),
                     read_if_missing read_file path file_content = Ok (Some text)
                     /\ search_header text = Some m
                     /\ yaml_load (group1 m) = Raise ValueError))
  /\ GenerateCoverImages.update_properties read_file today None file_content
     = Raise TypeError.
Proof.
  split; [|split; [|split; [|split]]].
  - unfold UpdateFrontmatter.update_properties. split.
    + destruct (UpdateFrontmatter.resolve_content read_file file_path file_content)
        as [[text|]|e] eqn:Hr; cbn [or_raise bind].
      * destruct (search_header text) as [m|] eqn:Hm; [|discriminate].
        destruct (yaml_load (group1 m)) as [loaded|e] eqn:Hl; cbn [bind].
        -- intros E. now destruct (frontmatter_loaded_error _ _ _ E).
        -- intros E. inversion E; subst. right. right. now exists text, m.
      * intros _. now left.
      * intros E. inversion E; subst. right. now left.
    + intros [Hr|[Hr|(text & m & Hr & Hm & Hl)]]; rewrite Hr; cbn [or_raise bind];
        try reflexivity.
      now rewrite Hm, Hl.
  - unfold UpdateFrontmatter.resolve_content, read_if_missing.
    destruct (UpdateFrontmatter.given_path file_path) as [p|].
    + destruct file_content as [given|].
      * split; [|now intros [X _]].
        destruct (Py.nonempty given); [discriminate|].
        destruct (read_file p) as [[on_disk|e]|]; discriminate.
      * destruct (read_file p) as [[on_disk|e]|]; cbn [bind].
        -- split; [discriminate | now intros [_ X]].
        -- split; [discriminate | now intros [_ X]].
        -- split; [now intros _ | reflexivity].
    + split; [intros E; inversion E; now split | now intros [-> _]].
  - unfold UpdateFrontmatter.resolve_content.
    destruct (UpdateFrontmatter.given_path file_path) as [p|].
    + rewrite read_if_missing_raises. split.
      * intros [Hc Hf]. now exists p.
      * intros (q & Hq & Hc & Hf). inversion Hq; subst. now split.
    + split; [discriminate | now intros (q & Hq & _)].
  - unfold GenerateCoverImages.update_properties.
    destruct file_path as [path|]; cbn [or_raise bind].
    2:{ split; [discriminate | now intros (q & Hq & _)]. }
    split.
    + intros E. exists path. split; [reflexivity|].
      destruct (read_if_missing read_file path file_content) as [[text|]|e] eqn:Hr;
        cbn [or_raise bind] in E.
      * destruct (search_header text) as [m|] eqn:Hm; [|discriminate].
        destruct (yaml_load (group1 m)) as [loaded|e] eqn:Hl; cbn [bind] in E.
        -- now destruct (cover_loaded_error _ _ _ E).
        -- inversion E; subst. right. now exists text, m.
      * discriminate.
      * inversion E; subst. now left.
    + intros (q & Hq & [Hr|(text & m & Hr & Hm & Hl)]); inversion Hq; subst;
        rewrite Hr; cbn [or_raise bind]; [reflexivity|].
      now rewrite Hm, Hl.
  - reflexivity.
Qed.


Lemma lookup_of_get (k : string) (v : value) (d : dict) :
  Dict.get k VNull d = v -> v <> VNull -> Dict.lookup k d = Some v.
Proof.
  unfold Dict.get. destruct (Dict.lookup k d); intros E N; congruence.
Qed.

Lemma eq_str_true (v : value) (s : string) : eq_str v s = true -> v = VStr s.
Proof.
  destruct v; cbn; try discriminate. intros E. apply String.eqb_eq in E. now subst.
Qed.

Lemma header_properties_date (stem : string) (properties : dict)
    (decided : option (value * option string * dict)) :
  GenerateCoverImages.header_properties stem today properties = Ok decided ->
  match decided with
  | None => Dict.lookup "date" properties = Some (VStr today)
  | Some (_, _, written) =>
      Dict.lookup "date" written
      = if truthy (Dict.get "dupdate" VNull properties)
        then Dict.lookup "date" properties
        else Some (VStr today)
  end.
Proof.
  unfold GenerateCoverImages.header_properties.
  pose proof (titled_lookup stem "dupdate" properties ltac:(distinct_keys)) as Eu.
  pose proof (titled_lookup stem "date" properties ltac:(distinct_keys)) as Ed.
  destruct (GenerateCoverImages.titled stem properties) as [note_title titled_props].
  cbn [snd] in Eu, Ed.
  assert (Gu : Dict.get "dupdate" VNull titled_props = Dict.get "dupdate" VNull properties)
    by (unfold Dict.get; now rewrite Eu).
  rewrite Gu.
  destruct (as_dict _ _) as [og_image|e]; cbn [bind]; [|discriminate].
  destruct (truthy (Dict.get "url" VNull og_image)) eqn:Hurl; cbn [andb].
  - destruct (eq_str _ today) eqn:Hd.
    + intros E. inversion E; subst. rewrite <- Ed.
      apply eq_str_true in Hd. apply lookup_of_get; [exact Hd | discriminate].
    + cbn [bind]. intros E. inversion E; subst; clear E.
      destruct (truthy (Dict.get "dupdate" VNull properties));
        [exact Ed | apply lookup_set_same].
  - destruct (GenerateCoverImages.clean_title note_title); cbn [bind]; [|discriminate].
    intros E. inversion E; subst; clear E.
    destruct (truthy (Dict.get "dupdate" VNull properties)); [|apply lookup_set_same].
    rewrite lookup_setdefault_other by distinct_keys. exact Ed.
Qed.

(** C7, for [generate_cover_images.py].  For a document with a header, the
    properties that are written hold today's date when [dupdate] is not true
    and the stored date, untouched, when it is; the early return happens only
    with the date already equal to today. *)
Theorem date_refresh (path : string) (file_content : option string) (text : string)
    (m : header_match) (properties : dict) (o : GenerateCoverImages.outcome) :
  read_if_missing read_file path file_content = Ok (Some text) ->
  search_header text = Some m ->
  yaml_load (group1 m) = Ok (VMap properties) ->
  GenerateCoverImages.update_properties read_file today (Some path) file_content = Ok o ->
  match o with
  | GenerateCoverImages.Unchanged => Dict.lookup "date" properties = Some (VStr today)
  | GenerateCoverImages.Updated _ _ new_content =>
      exists (written : dict) (header : string),
        re_expand ("---" ++ nl ++ yaml_dump written ++ "---") (matched m) (group1 m)
          = Some header
        /\ new_content = header ++ rest m
        /\ Dict.lookup "date" written
           = if truthy (Dict.get "dupdate" VNull properties)
             then Dict.lookup "date" properties
             else Some (VStr today)
  end.
Proof.
  intros Hread Hm Hload.
  unfold GenerateCoverImages.update_properties. cbn [or_raise bind].
  rewrite Hread. cbn [or_raise bind]. rewrite Hm, Hload. cbn [or_raise bind as_dict].
  destruct (GenerateCoverImages.header_properties _ _ _) as [decided|e] eqn:Eh;
    cbn [bind]; [|discriminate].
  apply header_properties_date in Eh.
  destruct decided as [[[note_title png] written]|].
  - unfold sub_header.
    destruct (re_expand _ _ _) as [header|] eqn:Ex; cbn [or_raise bind]; [|discriminate].
    intros E. inversion E; subst; clear E. now exists written, header.
  - intros E. inversion E; subst. exact Eh.
Qed.


End Scripts.

(** ** The image URL *)

(** C4, where the code departs from it.  When the header has a title and an
    [ogImage] mapping without a true [url], a cover image is asked for under
    the slug of the title, but [setdefault] leaves the [ogImage] that is
    there as it is: the properties that are written still have no [url]. *)
Theorem url_missing_from_existing_ogImage (stem today : string)
    (properties og_image : dict) (note_title : string) :
  Dict.lookup "title" properties = Some (VStr note_title) ->
  Py.nonempty note_title = true ->
  Dict.lookup "ogImage" properties = Some (VMap og_image) ->
  truthy (Dict.get "url" VNull og_image) = false ->
  exists written : dict,
    GenerateCoverImages.header_properties stem today properties
    = Ok (Some (VStr note_title,
                Some (GenerateCoverImages.clean_text_for_filename note_title ++ ".png"),
                written))
    /\ Dict.lookup "ogImage" written = Some (VMap og_image).
Proof.
  intros Htitle Hne Hog Hurl.
  unfold GenerateCoverImages.header_properties, GenerateCoverImages.titled.
  rewrite (get_of_lookup _ _ _ _ Htitle). cbn [truthy]. rewrite Hne.
  rewrite (get_of_lookup _ _ _ _ Hog). cbn [as_dict bind].
  rewrite Hurl. cbn [andb bind GenerateCoverImages.clean_title].
  assert (Hkept : Dict.setdefault "ogImage"
                    (VMap [("url", VStr (GenerateCoverImages.cdn_url_prefix
                                          ++ GenerateCoverImages.clean_text_for_filename note_title
                                          ++ ".png"))]) properties = properties).
  { unfold Dict.setdefault, Dict.mem. now rewrite Hog. }
  rewrite Hkept.
  eexists. split; [reflexivity|].
  destruct (truthy (Dict.get "dupdate" VNull properties)); [exact Hog|].
  rewrite lookup_set_other by distinct_keys. exact Hog.
Qed.

Lemma url_missing_from_existing_ogImage_witness :
  exists written : dict,
    GenerateCoverImages.header_properties "post" Samples.today
      [("title", VStr "Post"); ("ogImage", VMap [("alt", VStr "cover")])]
    = Ok (Some (VStr "Post", Some "post.png", written))
    /\ Dict.lookup "ogImage" written = Some (VMap [("alt", VStr "cover")]).
Proof.
  apply (url_missing_from_existing_ogImage "post" Samples.today
           [("title", VStr "Post"); ("ogImage", VMap [("alt", VStr "cover")])]
           [("alt", VStr "cover")] "Post"); reflexivity.
Defined.

(** X1.  Where the header has no [ogImage] at all, the URL is the CDN prefix
    followed by the slug of the title and [.png], and the image is asked for
    under that name. *)
Lemma url_synthesised (stem today : string) (properties : dict) (note_title : string) :
  Dict.lookup "title" properties = Some (VStr note_title) ->
  Py.nonempty note_title = true ->
  Dict.lookup "ogImage" properties = None ->
  let png_file_name := GenerateCoverImages.clean_text_for_filename note_title ++ ".png" in
  exists written : dict,
    GenerateCoverImages.header_properties stem today properties
    = Ok (Some (VStr note_title, Some png_file_name, written))
    /\ Dict.lookup "ogImage" written
       = Some (VMap [("url", VStr (GenerateCoverImages.cdn_url_prefix ++ png_file_name))]).
Proof.
  intros Htitle Hne Hog png_file_name.
  unfold GenerateCoverImages.header_properties, GenerateCoverImages.titled.
  rewrite (get_of_lookup _ _ _ _ Htitle). cbn [truthy]. rewrite Hne.
  assert (Gog : Dict.get "ogImage" (VMap []) properties = VMap [])
    by (unfold Dict.get; now rewrite Hog).
  rewrite Gog. cbn [as_dict bind Dict.get Dict.lookup truthy andb].
  cbn [GenerateCoverImages.clean_title bind].
  eexists. split; [reflexivity|].
  destruct (truthy (Dict.get "dupdate" VNull properties)).
  - now apply lookup_setdefault_absent.
  - rewrite lookup_set_other by distinct_keys. now apply lookup_setdefault_absent.
Qed.

Lemma url_synthesised_witness :
  exists written : dict,
    GenerateCoverImages.header_properties "post" Samples.today [("title", VStr "My Cool Post!")]
    = Ok (Some (VStr "My Cool Post!", Some "mycoolpost.png", written))
    /\ Dict.lookup "ogImage" written
       = Some (VMap [("url", VStr (GenerateCoverImages.cdn_url_prefix ++ "mycoolpost.png"))]).
Proof.
  apply (url_synthesised "post" Samples.today [("title", VStr "My Cool Post!")]
           "My Cool Post!"); reflexivity.
Defined.

(** X2.  Where the header has a true [ogImage.url], no image is asked for. *)
Lemma no_cover_job_with_url (stem today : string) (properties og_image : dict)
    (decided : option (value * option string * dict)) :
  Dict.lookup "ogImage" properties = Some (VMap og_image) ->
  truthy (Dict.get "url" VNull og_image) = true ->
  GenerateCoverImages.header_properties stem today properties = Ok decided ->
  match decided with
  | Some (_, png_file_name, _) => png_file_name = None
  | None => True
  end.
Proof.
  intros Hog Hurl.
  unfold GenerateCoverImages.header_properties.
  pose proof (titled_lookup stem "ogImage" properties ltac:(distinct_keys)) as Eo.
  destruct (GenerateCoverImages.titled stem properties) as [note_title titled_props].
  cbn [snd] in Eo. rewrite Hog in Eo.
  rewrite (get_of_lookup _ _ _ _ Eo). cbn [as_dict bind]. rewrite Hurl. cbn [andb].
  destruct (eq_str _ today); cbn [bind]; intros E; inversion E; subst; [exact I | reflexivity].
Qed.

Lemma no_cover_job_with_url_witness :
  GenerateCoverImages.header_properties "post" Samples.today
    [("title", VStr "Post"); ("ogImage", VMap [("url", VStr "https://example.org/post.png")])]
  = Ok (Some (VStr "Post", None,
              [("title", VStr "Post");
               ("ogImage", VMap [("url", VStr "https://example.org/post.png")]);
               ("date", VStr Samples.today)]))
  /\ (None : option string) = None.
Proof.
  split; [reflexivity|].
  exact (no_cover_job_with_url "post" Samples.today
           [("title", VStr "Post");
            ("ogImage", VMap [("url", VStr "https://example.org/post.png")])]
           [("url", VStr "https://example.org/post.png")]
           (Some (VStr "Post", None,
                  [("title", VStr "Post");
                   ("ogImage", VMap [("url", VStr "https://example.org/post.png")]);
                   ("date", VStr Samples.today)]))
           eq_refl eq_refl eq_refl).
Defined.

(** ** The scripts on the sample documents *)

Lemma last_char_append (h s : string) :
  s <> "" -> UpdateFrontmatter.last_char (h ++ s) = UpdateFrontmatter.last_char s.
Proof.
  intros N. induction h as [|c h IH]; [reflexivity|].
  cbn [append UpdateFrontmatter.last_char].
  destruct (h ++ s) as [|d r] eqn:E; [|exact IH].
  destruct h; [now subst | discriminate].
Qed.

(** [update_frontmatter.py] on the document that was processed today: the
    header has a cover and today's date, and the document is rewritten. *)
Lemma frontmatter_rewrites_processed :
  (exists (m : header_match) (properties og_image : dict),
      search_header Samples.processed = Some m
      /\ Standin.load (group1 m) = Ok (VMap properties)
      /\ Dict.lookup "ogImage" properties = Some (VMap og_image)
      /\ Dict.lookup "url" og_image = Some (VStr "https://example.org/post.png")
      /\ Dict.lookup "date" properties = Some (VStr Samples.today))
  /\ exists updated : string,
       @UpdateFrontmatter.update_properties Standin.libs Standin.no_files Samples.today
         (Some "publish/post.md") (Some Samples.processed) = Ok updated
       /\ updated <> Samples.processed.
Proof.
  split.
  - do 3 eexists. repeat split; reflexivity.
  - eexists. split; [vm_compute; reflexivity|].
    apply String.eqb_neq. vm_compute. reflexivity.
Qed.

Lemma early_return_is_noop_witness :
  exists o : GenerateCoverImages.outcome,
    @GenerateCoverImages.update_properties Standin.libs Standin.no_files Samples.today
      (Some "publish/post.md") (Some Samples.processed) = Ok o
    /\ o = GenerateCoverImages.Unchanged
    /\ GenerateCoverImages.content_after Samples.processed o = Samples.processed
    /\ GenerateCoverImages.cover_job o = None.
Proof.
  destruct (search_header Samples.processed) as [m|] eqn:Hm; [|discriminate Hm].
  apply (@early_return_is_noop Standin.libs Standin.no_files Samples.today
           "publish/post.md" (Some Samples.processed) Samples.processed m
           [("title", VStr "Post");
            ("ogImage", VMap [("url", VStr "https://example.org/post.png")]);
            ("date", VStr "2024-05-01")]
           [("url", VStr "https://example.org/post.png")]
           (VStr "https://example.org/post.png"));
    try reflexivity.
  - exact Hm.
  - vm_compute in Hm. injection Hm as <-. reflexivity.
Defined.

(** [update_frontmatter.py] on the document without a header: the last
    newline of the text is lost, so the result does not end with the text. *)
Lemma frontmatter_strips_body :
  search_header Samples.plain = None
  /\ exists updated : string,
       @UpdateFrontmatter.update_properties Standin.libs Standin.no_files Samples.today
         (Some "publish/post.md") (Some Samples.plain) = Ok updated
       /\ ~ (exists header : string, updated = header ++ body_of Samples.plain).
Proof.
  split; [reflexivity|].
  eexists. split; [vm_compute; reflexivity|].
  intros [header E].
  apply (f_equal UpdateFrontmatter.last_char) in E.
  rewrite last_char_append in E by discriminate.
  vm_compute in E. discriminate E.
Qed.

(** [update_frontmatter.py] on the document without a header: the new header
    has [title], [description] and [date], and no [ogImage]. *)
Lemma frontmatter_fresh_header_keys :
  let properties :=
    UpdateFrontmatter.fill_properties (Some "publish/post.md") Samples.today [] in
  search_header Samples.plain = None
  /\ @UpdateFrontmatter.update_properties Standin.libs Standin.no_files Samples.today
       (Some "publish/post.md") (Some Samples.plain)
     = Ok (@UpdateFrontmatter.front_matter Standin.libs properties ++ nl ++ "hello")
  /\ Dict.keys properties = ["title"; "description"; "date"]
  /\ Dict.lookup "ogImage" properties = None.
Proof.
  repeat split; vm_compute; reflexivity.
Qed.

Lemma headerless_document_witness :
  @GenerateCoverImages.update_properties Standin.libs Standin.no_files Samples.today
    (Some "publish/post.md") (Some Samples.plain)
  = Ok (GenerateCoverImages.Updated (VStr "post") (Some "post.png")
          ("---" ++ nl
           ++ Standin.dump
                [ ("title", VStr "post");
                  ("ogImage",
                   VMap [("url", VStr (GenerateCoverImages.cdn_url_prefix ++ "post.png"))]);
                  ("date", VStr Samples.today) ]
           ++ "---" ++ nl ++ nl ++ Samples.plain)).
Proof.
  apply (@headerless_document Standin.libs Standin.no_files Samples.today
           "publish/post.md" (Some Samples.plain) Samples.plain); reflexivity.
Defined.

(** [generate_cover_images.py] on a header without a title: the title is the
    stem of the file name as it is. *)
Lemma cover_title_is_raw_stem :
  exists (png_file_name : option string) (content : string),
    @GenerateCoverImages.update_properties Standin.libs Standin.no_files Samples.today
      (Some "publish/my-cool_Post.md") (Some Samples.untitled)
    = Ok (GenerateCoverImages.Updated (VStr "my-cool_Post") png_file_name content)
    /\ VStr "my-cool_Post" <> VStr "My Cool Post".
Proof.
  do 2 eexists. split; [vm_compute; reflexivity | discriminate].
Qed.

(** [update_frontmatter.py] with a path that is not a file and no content:
    [ValueError], although a path was given. *)
Lemma value_error_despite_path :
  @UpdateFrontmatter.update_properties Standin.libs Standin.no_files Samples.today
    (Some "publish/missing.md") None
  = Raise ValueError
  /\ Some "publish/missing.md" <> None.
Proof.
  split; [reflexivity | discriminate].
Qed.

Lemma invalid_input_condition_witness :
  @UpdateFrontmatter.update_properties Standin.libs Standin.no_files Samples.today None None
  = Raise ValueError
  /\ @UpdateFrontmatter.update_properties Standin.libs Standin.no_files Samples.today
       (Some "publish/post.md") (Some Samples.impossible)
     = Raise ValueError
  /\ @UpdateFrontmatter.update_properties Standin.libs Samples.disk Samples.today
       (Some "publish/binary.md") None
     = Raise ValueError
  /\ @GenerateCoverImages.update_properties Standin.libs Standin.no_files Samples.today
       (Some "publish/post.md") (Some Samples.impossible)
     = Raise ValueError
  /\ @GenerateCoverImages.update_properties Standin.libs Standin.no_files Samples.today
       None None
     = Raise TypeError.
Proof.
  destruct (@invalid_input_condition Standin.libs Standin.no_files Samples.today None None)
    as (Hguard & _ & _ & _ & Hnone).
  destruct (@invalid_input_condition Standin.libs Standin.no_files Samples.today
              (Some "publish/post.md") (Some Samples.impossible))
    as (Hdate & _ & _ & Hcover & _).
  destruct (@invalid_input_condition Standin.libs Samples.disk Samples.today
              (Some "publish/binary.md") None)
    as (Hread & _).
  assert (Hloader : exists (text : string) (m : header_match),
             Ok (Some Samples.impossible) = Ok (Some text)
             /\ search_header text = Some m
             /\ Standin.load (group1 m) = Raise ValueError).
  { destruct (search_header Samples.impossible) as [m|] eqn:Hm; [|discriminate Hm].
    exists Samples.impossible, m. split; [reflexivity|]. split; [exact Hm|].
    vm_compute in Hm. injection Hm as <-. reflexivity. }
  split; [apply Hguard; left; reflexivity|].
  split; [apply Hdate; right; right; exact Hloader|].
  split; [apply Hread; right; left; reflexivity|].
  split; [|exact Hnone].
  apply Hcover. exists "publish/post.md". split; [reflexivity|]. right. exact Hloader.
Defined.

(** [update_frontmatter.py] on the document whose date is to be kept:
    [dupdate] is true and the date is overwritten all the same. *)
Lemma frontmatter_overwrites_kept_date :
  exists (m : header_match) (properties : dict),
    search_header Samples.kept = Some m
    /\ Standin.load (group1 m) = Ok (VMap properties)
    /\ Dict.lookup "dupdate" properties = Some (VBool true)
    /\ Dict.lookup "date" properties = Some (VStr "2020-01-01")
    /\ @UpdateFrontmatter.update_properties Standin.libs Standin.no_files Samples.today
         (Some "publish/post.md") (Some Samples.kept)
       = Ok (@UpdateFrontmatter.front_matter Standin.libs
               (UpdateFrontmatter.fill_properties (Some "publish/post.md")
                  Samples.today properties) ++ rest m)
    /\ Dict.lookup "date"
         (UpdateFrontmatter.fill_properties (Some "publish/post.md")
            Samples.today properties)
       = Some (VStr Samples.today).
Proof.
  do 2 eexists. repeat split; vm_compute; reflexivity.
Qed.

Lemma date_refresh_witness :
  match @GenerateCoverImages.update_properties Standin.libs Standin.no_files Samples.today
          (Some "publish/post.md") (Some Samples.kept) with
  | Ok (GenerateCoverImages.Updated _ _ new_content) =>
      exists (written : dict) (header : string),
        new_content = header ++ body_of Samples.kept
        /\ Dict.lookup "date" written = Some (VStr "2020-01-01")
  | _ => False
  end.
Proof.
  destruct (search_header Samples.kept) as [m|] eqn:Hm; [|discriminate Hm].
  destruct (@GenerateCoverImages.update_properties _ _ _ _ _) as [o|e] eqn:E;
    [|vm_compute in E; discriminate E].
  pose proof (@date_refresh Standin.libs Standin.no_files Samples.today
                "publish/post.md" (Some Samples.kept) Samples.kept m
                [("title", VStr "Post");
                 ("ogImage", VMap [("url", VStr "https://example.org/post.png")]);
                 ("date", VStr "2020-01-01"); ("dupdate", VBool true)]
                o eq_refl Hm) as H.
  destruct o as [|note_title png new_content]; [vm_compute in E; discriminate E|].
  destruct H as (written & header & _ & Hc & Hd).
  - vm_compute in Hm. injection Hm as <-. reflexivity.
  - exact E.
  - exists written, header. split; [|exact Hd].
    unfold body_of. rewrite Hm. exact Hc.
Defined.

(** ** The commit publisher *)

(** A call after the blobs that fails, other than the tree creation: nothing
    was committed and the trace holds no failed tree creation. *)
Ltac stopped_after_tree E Hb NoTree :=
  inversion E; subst; clear E; cbn;
  eexists; split; [rewrite <- !app_assoc; reflexivity|];
  split; [|intros N; now rewrite Hb in N];
  intros HI; exfalso; revert HI; apply NoTree; cbn; intuition discriminate.

Section Committer.

Import GithubCommitter.

Variable fails : nat -> bool.
Variable open_local : string -> option string.

Lemma add_blobs_spec (file_paths : list (string * string)) :
  forall (tree_list : list tree_element) (w : world) (r : result (list tree_element)) (w' : world),
    add_blobs fails open_local file_paths tree_list w = (r, w') ->
    exists trace : list (api_call * bool),
      log w' = (log w ++ trace)%list
      /\ Forall (fun ev => fst ev = CreateGitBlob) trace
      /\ trees (repo w') = trees (repo w)
      /\ commits (repo w') = commits (repo w)
      /\ heads_main (repo w') = heads_main (repo w)
      /\ match r with
         | Ok made =>
             trace = repeat (CreateGitBlob, true) (List.length file_paths)
             /\ map te_path made = (map te_path tree_list ++ map fst file_paths)%list
         | Raise _ => True
         end.
Proof.
  induction file_paths as [|[git_path local_path] others IH]; intros tree_list w r w' E.
  - inversion E; subst. exists []. rewrite !app_nil_r. repeat split; constructor.
  - cbn [add_blobs] in E. unfold mbind, ret, raise, create_git_blob, call in E.
    destruct (open_local local_path) as [content|].
    + destruct (fails (List.length (log w))).
      * inversion E; subst. exists [(CreateGitBlob, false)]. cbn.
        repeat split; auto.
      * cbn in E. apply IH in E. destruct E as (trace & El & Ef & Et & Ec & Eh & Er).
        cbn in El, Et, Ec, Eh.
        exists ((CreateGitBlob, true) :: trace).
        rewrite El, <- app_assoc. repeat split; auto.
        destruct r as [made|e]; [|exact I].
        destruct Er as [-> Em]. split; [reflexivity|].
        rewrite Em, map_app, <- app_assoc. reflexivity.
    + inversion E; subst. exists []. rewrite app_nil_r. repeat split; constructor.
Qed.

(** C10.  A run of [commit_files] in which the tree creation fails creates
    no commit and leaves [heads/main] where it was.  The ref moves only in
    the run in which no call fails: every blob, the tree and the commit have
    been created, and the ref points to that commit. *)
Theorem commit_files_atomic (self : committer) (commit_msg : string)
    (file_paths : list (string * string)) (w : world) (r : result unit) (w' : world) :
  commit_files fails open_local self commit_msg file_paths w = (r, w') ->
  exists trace : list (api_call * bool),
    log w' = (log w ++ trace)%list
    /\ (In (CreateGitTree, false) trace ->
        commits (repo w') = commits (repo w)
        /\ heads_main (repo w') = heads_main (repo w))
    /\ (heads_main (repo w') <> heads_main (repo w) ->
        r = Ok tt
        /\ trace = ((GetGitRef, true) :: repeat (CreateGitBlob, true) (List.length file_paths)
                    ++ [(GetGitTree, true); (CreateGitTree, true); (GetGitTree, true);
                        (GetGitCommit, true); (CreateGitCommit, true); (EditRef, true)])%list
        /\ exists (entries : list tree_element) (new_tree commit : sha),
             map te_path entries = map fst file_paths
             /\ trees (repo w')
                = (trees (repo w)
                   ++ [(new_tree, {| tree_entries := entries; base_tree := heads_main (repo w) |})])%list
             /\ commits (repo w')
                = (commits (repo w)
                   ++ [(commit, {| message := commit_msg; tree := new_tree;
                                   parents := [branch_commit_sha self] |})])%list
             /\ heads_main (repo w') = commit).
Proof.
  intros E.
  unfold commit_files, mbind in E.
  unfold get_git_ref, call in E.
  destruct (fails (List.length (log w))) eqn:F0.
  { inversion E; subst; clear E. cbn.
    exists [(GetGitRef, false)]. split; [reflexivity|].
    split; [now intros _ | now intros N]. }
  cbn in E.
  destruct (add_blobs _ _ _ _ _) as [made w1] eqn:Eb in E.
  apply add_blobs_spec in Eb.
  destruct Eb as (bt & Lb & Fb & Tb & Cb & Hb & Rb). cbn in Lb, Tb, Cb, Hb.
  destruct made as [made|e].
  2:{ inversion E; subst; clear E.
      exists ((GetGitRef, true) :: bt). rewrite Lb, <- app_assoc.
      split; [reflexivity|]. split; [now intros _ | now intros N]. }
  destruct Rb as [-> Rb]. cbn in Rb.
  assert (NoTree : forall tail : list (api_call * bool),
             ~ In (CreateGitTree, false) tail ->
             ~ In (CreateGitTree, false)
                 ((GetGitRef, true)
                  :: repeat (CreateGitBlob, true) (List.length file_paths) ++ tail)).
  { intros tail Nt [X|HI]; [discriminate|].
    apply in_app_or in HI. destruct HI as [HI|HI]; [|now apply Nt].
    rewrite Forall_forall in Fb. apply Fb in HI. discriminate. }
  unfold create_commit_and_push in E.
  unfold get_git_tree, create_git_tree, mbind,
    get_git_commit, create_git_commit, edit_ref, call in E.
  rewrite Lb in E.
  destruct (fails _) eqn:F1 in E.
  { stopped_after_tree E Hb NoTree. }
  cbn in E.
  destruct (fails _) eqn:F2 in E.
  { inversion E; subst; clear E. cbn.
    eexists. split; [rewrite <- !app_assoc; reflexivity|].
    split; [intros _; now split | intros N; now rewrite Hb in N]. }
  cbn in E.
  destruct (fails _) eqn:F3 in E.
  { stopped_after_tree E Hb NoTree. }
  cbn in E.
  destruct (fails _) eqn:F4 in E.
  { stopped_after_tree E Hb NoTree. }
  cbn in E.
  destruct (fails _) eqn:F5 in E.
  { stopped_after_tree E Hb NoTree. }
  cbn in E.
  destruct (fails _) eqn:F6 in E.
  { stopped_after_tree E Hb NoTree. }
  inversion E; subst; clear E. cbn.
  eexists. split; [rewrite <- !app_assoc; reflexivity|].
  split.
  { intros HI. exfalso. revert HI. apply NoTree. cbn. intuition discriminate. }
  intros _. split; [reflexivity|]. split; [reflexivity|].
  exists made, (next_sha (repo w1)), (S (next_sha (repo w1))).
  rewrite Tb, Cb. repeat split. exact Rb.
Qed.

End Committer.

Lemma commit_files_atomic_witness :
  let fails := fun n : nat => n =? 3 in
  let w0 := {| GithubCommitter.repo :=
                 {| GithubCommitter.blobs := []; GithubCommitter.trees := [];
                    GithubCommitter.commits := []; GithubCommitter.heads_main := 7;
                    GithubCommitter.next_sha := 8 |};
               GithubCommitter.log := [] |} in
  let run := GithubCommitter.commit_files fails (fun _ => Some "text")
               {| GithubCommitter.branch_commit_sha := 7 |} GenerateCoverImages.COMMIT_MSG
               [("publish/a.md", "/tmp/publish/a.md")] w0 in
  In (GithubCommitter.CreateGitTree, false) (GithubCommitter.log (snd run))
  /\ GithubCommitter.commits (GithubCommitter.repo (snd run)) = []
  /\ GithubCommitter.heads_main (GithubCommitter.repo (snd run)) = 7.
Proof.
  intros fails w0 run.
  destruct (commit_files_atomic fails (fun _ => Some "text")
              {| GithubCommitter.branch_commit_sha := 7 |} GenerateCoverImages.COMMIT_MSG
              [("publish/a.md", "/tmp/publish/a.md")] w0 (fst run) (snd run))
    as (trace & El & Htree & _); [reflexivity|].
  assert (HI : In (GithubCommitter.CreateGitTree, false) trace).
  { cbn in El. rewrite <- El. cbn. intuition. }
  split; [now rewrite El|]. exact (Htree HI).
Defined.

(** * More of the two scripts *)

(** ** Characters *)

Ltac by_cases_on c :=
  destruct c as [[] [] [] [] [] [] [] []]; vm_compute;
  try reflexivity; try discriminate; auto.

Lemma to_lower_idempotent (c : ascii) : Py.to_lower (Py.to_lower c) = Py.to_lower c.
Proof. by_cases_on c. Qed.

Lemma to_upper_idempotent (c : ascii) : Py.to_upper (Py.to_upper c) = Py.to_upper c.
Proof. by_cases_on c. Qed.

Lemma alnum_to_lower (c : ascii) : Py.is_alnum (Py.to_lower c) = Py.is_alnum c.
Proof. by_cases_on c. Qed.

Lemma alnum_to_upper (c : ascii) : Py.is_alnum (Py.to_upper c) = Py.is_alnum c.
Proof. by_cases_on c. Qed.

Lemma space_to_lower (c : ascii) : Py.is_space (Py.to_lower c) = Py.is_space c.
Proof. by_cases_on c. Qed.

Lemma space_to_upper (c : ascii) : Py.is_space (Py.to_upper c) = Py.is_space c.
Proof. by_cases_on c. Qed.

(** ** Maps and filters of strings *)

Lemma smap_append (f : ascii -> ascii) (a b : string) :
  Py.smap f (a ++ b) = Py.smap f a ++ Py.smap f b.
Proof.
  induction a as [|c a IH]; simpl; [reflexivity | now rewrite IH].
Qed.

Lemma sfilter_append (p : ascii -> bool) (a b : string) :
  Py.sfilter p (a ++ b) = Py.sfilter p a ++ Py.sfilter p b.
Proof.
  induction a as [|c a IH]; simpl; [reflexivity|].
  destruct (p c); simpl; now rewrite IH.
Qed.

Lemma sforall_append (p : ascii -> bool) (a b : string) :
  Py.sforall p (a ++ b) = Py.sforall p a && Py.sforall p b.
Proof.
  induction a as [|c a IH]; simpl; [reflexivity|].
  now rewrite IH, andb_assoc.
Qed.

Lemma sforall_smap (p : ascii -> bool) (f : ascii -> ascii) (s : string) :
  (forall c, p (f c) = p c) -> Py.sforall p (Py.smap f s) = Py.sforall p s.
Proof.
  intros H. induction s as [|c s IH]; simpl; [reflexivity | now rewrite H, IH].
Qed.

Lemma sforall_weaken (p q : ascii -> bool) (s : string) :
  (forall c, p c = true -> q c = true) ->
  Py.sforall p s = true -> Py.sforall q s = true.
Proof.
  intros H. induction s as [|c s IH]; simpl; [reflexivity|].
  intros E. apply andb_true_iff in E. destruct E as [Ec Es].
  now rewrite (H c Ec), IH.
Qed.

Lemma lower_idempotent (s : string) : Py.lower (Py.lower s) = Py.lower s.
Proof.
  unfold Py.lower. induction s as [|c s IH]; simpl; [reflexivity|].
  now rewrite to_lower_idempotent, IH.
Qed.

Lemma filter_lower (s : string) :
  Py.sfilter Py.is_alnum (Py.lower s) = Py.lower (Py.sfilter Py.is_alnum s).
Proof.
  unfold Py.lower. induction s as [|c s IH]; simpl; [reflexivity|].
  rewrite alnum_to_lower. destruct (Py.is_alnum c); simpl; now rewrite IH.
Qed.

Lemma sfilter_idempotent (p : ascii -> bool) (s : string) :
  Py.sfilter p (Py.sfilter p s) = Py.sfilter p s.
Proof.
  induction s as [|c s IH]; simpl; [reflexivity|].
  destruct (p c) eqn:E; simpl; [now rewrite E, IH | exact IH].
Qed.

Lemma sfilter_length (p : ascii -> bool) (s : string) :
  String.length (Py.sfilter p s) <= String.length s.
Proof.
  induction s as [|c s IH]; simpl; [lia|]. destruct (p c); simpl; lia.
Qed.

Lemma smap_length (f : ascii -> ascii) (s : string) :
  String.length (Py.smap f s) = String.length s.
Proof.
  induction s as [|c s IH]; simpl; [reflexivity | now rewrite IH].
Qed.

Lemma clean_text_spec (text : string) :
  GenerateCoverImages.clean_text_for_filename text = Py.lower (Py.sfilter Py.is_alnum text).
Proof.
  unfold GenerateCoverImages.clean_text_for_filename.
  now rewrite !filter_replace by reflexivity.
Qed.

(** ** The slug, continued *)

(** X3.  The slug of a slug is the slug itself, the slug of a concatenation
    is the concatenation of the slugs, the slug of an ASCII title does not
    see its case, and the slug is never longer than the title. *)
Theorem clean_text_for_filename_algebra (a b : string) :
  GenerateCoverImages.clean_text_for_filename (GenerateCoverImages.clean_text_for_filename a)
  = GenerateCoverImages.clean_text_for_filename a
  /\ GenerateCoverImages.clean_text_for_filename (a ++ b)
     = GenerateCoverImages.clean_text_for_filename a
       ++ GenerateCoverImages.clean_text_for_filename b
  /\ (ascii_text a = true ->
      GenerateCoverImages.clean_text_for_filename (Py.lower a)
      = GenerateCoverImages.clean_text_for_filename a)
  /\ String.length (GenerateCoverImages.clean_text_for_filename a) <= String.length a.
Proof.
  rewrite !clean_text_spec. repeat split.
  - now rewrite filter_lower, sfilter_idempotent, lower_idempotent.
  - unfold Py.lower. now rewrite sfilter_append, smap_append.
  - intros _. now rewrite filter_lower, lower_idempotent.
  - unfold Py.lower. rewrite smap_length. apply sfilter_length.
Qed.

Lemma clean_text_for_filename_algebra_witness :
  GenerateCoverImages.clean_text_for_filename (Py.lower "My Cool-Post 2")
  = GenerateCoverImages.clean_text_for_filename "My Cool-Post 2"
  /\ GenerateCoverImages.clean_text_for_filename ("My Cool" ++ "-Post 2")
     = "mycool" ++ "post2".
Proof.
  destruct (clean_text_for_filename_algebra "My Cool-Post 2" "") as (_ & _ & Hcase & _).
  destruct (clean_text_for_filename_algebra "My Cool" "-Post 2") as (_ & Hcat & _).
  split; [exact (Hcase eq_refl) | exact Hcat].
Defined.

(** ** File names *)

Lemma rsplit_dot_none (s : string) :
  Py.rsplit_dot s = None <-> Py.sexists is_dot s = false.
Proof.
  induction s as [|c s IH]; simpl; [tauto|].
  destruct (Py.rsplit_dot s) as [[b a]|].
  - split; [discriminate|]. intros E. apply orb_false_iff in E.
    destruct E as [_ E]. apply IH in E. discriminate.
  - unfold is_dot at 1. destruct (Ascii.eqb c "."); simpl; [split; discriminate|].
    split; intros _; [now apply IH | reflexivity].
Qed.

Lemma rsplit_dot_some (s before after : string) :
  Py.rsplit_dot s = Some (before, after) ->
  s = before ++ "." ++ after /\ Py.sexists is_dot after = false.
Proof.
  revert before. induction s as [|c s IH]; intros before; simpl; [discriminate|].
  destruct (Py.rsplit_dot s) as [[b a]|] eqn:E.
  - intros X. inversion X; subst. destruct (IH b eq_refl) as [-> Ha].
    split; [reflexivity | exact Ha].
  - destruct (Ascii.eqb_spec c ".") as [->|]; [|discriminate].
    intros X. inversion X; subst. split; [reflexivity|].
    now apply rsplit_dot_none.
Qed.

Lemma rsplit_dot_last (name ext : string) :
  Py.sexists is_dot ext = false ->
  Py.rsplit_dot (name ++ "." ++ ext) = Some (name, ext).
Proof.
  intros He. induction name as [|c name IH]; simpl.
  - apply rsplit_dot_none in He. now rewrite He.
  - simpl in IH. now rewrite IH.
Qed.

(** X4.  [remove_extension] drops nothing, or a final dot with a non-empty
    extension that has no dot in it.  A name without a dot and a name that
    ends in a dot are left as they are, and taking the extension off
    [name.ext] gives [name] back, whatever dots [name] has. *)
Theorem remove_extension_shape (filename : string) :
  (exists ext : string,
      filename = UpdateFrontmatter.remove_extension filename ++ ext
      /\ (ext = ""
          \/ exists e : string,
               ext = "." ++ e /\ e <> "" /\ Py.sexists is_dot e = false))
  /\ (Py.sexists is_dot filename = false ->
      UpdateFrontmatter.remove_extension filename = filename)
  /\ UpdateFrontmatter.remove_extension (filename ++ ".") = filename ++ "."
  /\ (forall e : string,
        e <> "" -> Py.sexists is_dot e = false ->
        UpdateFrontmatter.remove_extension (filename ++ "." ++ e) = filename).
Proof.
  unfold UpdateFrontmatter.remove_extension. split; [|split; [|split]].
  - destruct (Py.rsplit_dot filename) as [[before after]|] eqn:E.
    + destruct (rsplit_dot_some _ _ _ E) as [Hs Ha].
      destruct after as [|c after]; cbn [Py.nonempty String.eqb negb].
      * exists "". split; [|now left]. now rewrite append_empty_r.
      * exists ("." ++ String c after). split; [exact Hs|].
        right. exists (String c after).
        split; [reflexivity|]. split; [discriminate | exact Ha].
    + exists "". split; [|now left]. now rewrite append_empty_r.
  - intros Hn. apply rsplit_dot_none in Hn. now rewrite Hn.
  - change (filename ++ ".") with (filename ++ "." ++ "").
    now rewrite (rsplit_dot_last filename "" eq_refl).
  - intros e Hne He. rewrite (rsplit_dot_last filename e He).
    destruct e; [contradiction | reflexivity].
Qed.

Lemma remove_extension_shape_witness :
  UpdateFrontmatter.remove_extension ("v1.2-notes" ++ "." ++ "md") = "v1.2-notes"
  /\ UpdateFrontmatter.remove_extension "Makefile" = "Makefile".
Proof.
  destruct (remove_extension_shape "v1.2-notes") as (_ & _ & _ & Hext).
  destruct (remove_extension_shape "Makefile") as (_ & Hnone & _).
  split; [apply Hext; [discriminate | reflexivity] | apply Hnone; reflexivity].
Defined.

(** ** Words *)

Lemma capitalize_idempotent (w : string) :
  Py.capitalize (Py.capitalize w) = Py.capitalize w.
Proof.
  destruct w as [|c r]; [reflexivity|]. cbn [Py.capitalize].
  now rewrite to_upper_idempotent, lower_idempotent.
Qed.

(** X5.  Processing an ASCII word twice is processing it once. *)
Theorem process_word_idempotent (word : string) :
  ascii_text word = true ->
  UpdateFrontmatter.process_word (UpdateFrontmatter.process_word word)
  = UpdateFrontmatter.process_word word.
Proof.
  intros _.
  assert (Hcases : UpdateFrontmatter.process_word word = word
                   \/ UpdateFrontmatter.process_word word = Py.capitalize word).
  { unfold UpdateFrontmatter.process_word.
    destruct (_ && _); [now left|]. destruct (Py.isdigit word); [now left | now right]. }
  destruct Hcases as [E|E]; rewrite E.
  - exact E.
  - unfold UpdateFrontmatter.process_word.
    destruct (_ && _); [reflexivity|].
    destruct (Py.isdigit _); [reflexivity | apply capitalize_idempotent].
Qed.

Lemma process_word_idempotent_witness :
  UpdateFrontmatter.process_word "hELLO" = "Hello"
  /\ UpdateFrontmatter.process_word (UpdateFrontmatter.process_word "hELLO")
     = UpdateFrontmatter.process_word "hELLO"
  /\ UpdateFrontmatter.process_word (UpdateFrontmatter.process_word "a1")
     = UpdateFrontmatter.process_word "a1".
Proof.
  split; [reflexivity|]. split.
  - exact (process_word_idempotent "hELLO" eq_refl).
  - exact (process_word_idempotent "a1" eq_refl).
Defined.
(** ** The words of a file name, continued *)

Lemma span_forall (p : ascii -> bool) (s run after : string) :
  Py.span p s = (run, after) -> Py.sforall p run = true.
Proof.
  revert run after. induction s as [|c s IH]; simpl; intros run after E.
  - now inversion E.
  - destruct (p c) eqn:Hc.
    + destruct (Py.span p s) as [run' after'] eqn:Es.
      inversion E; subst. simpl. rewrite Hc. now apply (IH run' after).
    + now inversion E.
Qed.

Lemma span_prefix (p : ascii -> bool) (run : string) (d : ascii) (after : string) :
  Py.sforall p run = true -> p d = false ->
  Py.span p (run ++ String d after) = (run, String d after).
Proof.
  intros Hr Hd. induction run as [|c run IH]; simpl.
  - now rewrite Hd.
  - simpl in Hr. apply andb_true_iff in Hr. destruct Hr as [Hc Hr].
    now rewrite Hc, (IH Hr).
Qed.

Lemma but_last_last_char (s : string) :
  UpdateFrontmatter.but_last s ++ UpdateFrontmatter.last_char s = s.
Proof.
  induction s as [|c s IH]; [reflexivity|].
  destruct s as [|d s]; [reflexivity|].
  cbn [UpdateFrontmatter.but_last UpdateFrontmatter.last_char] in *.
  cbn [append]. now rewrite IH.
Qed.

Lemma but_last_forall (p : ascii -> bool) (s : string) :
  Py.sforall p s = true -> Py.sforall p (UpdateFrontmatter.but_last s) = true.
Proof.
  induction s as [|c s IH]; [reflexivity|].
  destruct s as [|d s]; [reflexivity|].
  intros E. cbn [Py.sforall] in E. apply andb_true_iff in E. destruct E as [Hc E].
  cbn [UpdateFrontmatter.but_last Py.sforall]. rewrite Hc. now apply IH.
Qed.

Lemma alnum_of_lower (c : ascii) : Py.is_lower c = true -> Py.is_alnum c = true.
Proof. unfold Py.is_alnum. now intros ->. Qed.

Lemma alnum_of_upper (c : ascii) : Py.is_upper c = true -> Py.is_alnum c = true.
Proof. unfold Py.is_alnum. intros ->. now rewrite orb_true_r. Qed.

Lemma alnum_of_digit (c : ascii) : Py.is_digit c = true -> Py.is_alnum c = true.
Proof. unfold Py.is_alnum. intros ->. now rewrite orb_true_r. Qed.

Lemma span_token (p : ascii -> bool) (c : ascii) (r run after : string) :
  (forall x, p x = true -> Py.is_alnum x = true) ->
  p c = true -> Py.span p (String c r) = (run, after) ->
  token_of (String c r) run after.
Proof.
  intros Hp Hc E. split; [now apply span_append in E|]. split.
  - cbn [Py.span] in E. rewrite Hc in E. destruct (Py.span p r). inversion E. discriminate.
  - apply span_forall in E. now apply (sforall_weaken p).
Qed.

Lemma upper_run_token (c : ascii) (r word after : string) :
  Py.is_upper c = true ->
  UpdateFrontmatter.upper_run (String c r) = Some (word, after) ->
  token_of (String c r) word after.
Proof.
  intros Hc. unfold UpdateFrontmatter.upper_run.
  destruct (Py.span Py.is_upper (String c r)) as [run rest_] eqn:Es.
  pose proof (span_token _ _ _ _ _ alnum_of_upper Hc Es) as (Hs & Hn & Ha).
  destruct rest_ as [|d rest_].
  - intros E. inversion E; subst. now split.
  - destruct (Py.is_digit d || negb (Py.is_word d)).
    + intros E. inversion E; subst. now split.
    + destruct (Py.is_lower d && Py.nonempty (UpdateFrontmatter.but_last run)) eqn:Hb;
        [|discriminate].
      apply andb_true_iff in Hb. destruct Hb as [_ Hb].
      intros E. inversion E; subst; clear E. split; [|split].
      * rewrite Hs, <- append_assoc. now rewrite but_last_last_char.
      * intros X. now rewrite X in Hb.
      * now apply but_last_forall.
Qed.

Lemma match_word_token (s word after : string) :
  UpdateFrontmatter.match_word s = Some (word, after) -> token_of s word after.
Proof.
  destruct s as [|c r]; [discriminate|].
  cbn [UpdateFrontmatter.match_word].
  destruct (Py.is_lower c) eqn:Hl.
  - intros E. inversion E as [Es]. now apply (span_token _ _ _ _ _ alnum_of_lower Hl).
  - destruct (Py.is_upper c) eqn:Hu.
    + destruct r as [|d r']; [now apply upper_run_token|].
      destruct (Py.is_lower d) eqn:Hd; [|now apply upper_run_token].
      destruct (Py.span Py.is_lower (String d r')) as [run rest_] eqn:Es.
      intros E. inversion E; subst; clear E.
      destruct (span_token _ _ _ _ _ alnum_of_lower Hd Es) as (Hs & Hn & Ha).
      split; [|split].
      * cbn [append]. now rewrite Hs.
      * discriminate.
      * cbn [Py.sforall]. now rewrite (alnum_of_upper c Hu), Ha.
    + destruct (Py.is_digit c) eqn:Hg; [|discriminate].
      intros E. inversion E as [Es]. now apply (span_token _ _ _ _ _ alnum_of_digit Hg).
Qed.

Lemma findall_words_tokens (fuel : nat) :
  forall s : string,
    Forall (fun word => word <> "" /\ Py.sforall Py.is_alnum word = true)
           (UpdateFrontmatter.findall_words fuel s).
Proof.
  induction fuel as [|fuel IH]; intros s; [constructor|].
  destruct s as [|c r]; [constructor|].
  cbn [UpdateFrontmatter.findall_words].
  destruct (UpdateFrontmatter.match_word (String c r)) as [[word after]|] eqn:E.
  - apply match_word_token in E. destruct E as (_ & Hn & Ha).
    constructor; [now split | apply IH].
  - apply IH.
Qed.

Lemma capitalize_alnum (w : string) :
  Py.sforall Py.is_alnum (Py.capitalize w) = Py.sforall Py.is_alnum w.
Proof.
  destruct w as [|c r]; [reflexivity|].
  cbn [Py.capitalize Py.sforall]. rewrite alnum_to_upper. f_equal.
  apply sforall_smap. exact alnum_to_lower.
Qed.

Lemma process_word_alnum (w : string) :
  Py.sforall Py.is_alnum (UpdateFrontmatter.process_word w) = Py.sforall Py.is_alnum w.
Proof.
  unfold UpdateFrontmatter.process_word.
  destruct (_ && _); [reflexivity|].
  destruct (Py.isdigit w); [reflexivity | apply capitalize_alnum].
Qed.

Lemma join_forall (q : ascii -> bool) (sep : string) (pieces : list string) :
  Py.sforall q sep = true ->
  Forall (fun piece => Py.sforall q piece = true) pieces ->
  Py.sforall q (Py.join sep pieces) = true.
Proof.
  intros Hsep H. unfold Py.join.
  induction H as [|piece others Hp Ho IH]; [reflexivity|].
  cbn [String.concat]. destruct others as [|next others]; [exact Hp|].
  rewrite !sforall_append, Hp, Hsep. exact IH.
Qed.

(** X6.  The description of an ASCII file name is made of letters, digits
    and single spaces only: every word [split_words] finds is a non-empty
    run of letters and digits of the file name, whatever other ASCII
    characters the name holds. *)
Theorem generate_description_characters (filename : string) :
  ascii_text filename = true ->
  Forall (fun word => word <> "" /\ Py.sforall Py.is_alnum word = true)
         (UpdateFrontmatter.split_words filename)
  /\ Py.sforall alnum_or_space (UpdateFrontmatter.generate_description filename) = true.
Proof.
  intros _.
  split; [apply findall_words_tokens|].
  unfold UpdateFrontmatter.generate_description.
  apply join_forall; [reflexivity|].
  rewrite Forall_map.
  eapply Forall_impl; [|apply findall_words_tokens].
  intros word [_ Ha]. cbn beta.
  apply (sforall_weaken Py.is_alnum).
  - intros c Hc. unfold alnum_or_space. now rewrite Hc.
  - now rewrite process_word_alnum.
Qed.

Lemma generate_description_characters_witness :
  UpdateFrontmatter.split_words "my_file-v2.FINAL draft!"
  = ["my"; "file"; "v"; "2"; "FINAL"; "draft"]
  /\ UpdateFrontmatter.generate_description "my_file-v2.FINAL draft!.md"
     = "My File V 2 FINAL Draft"
  /\ Py.sforall alnum_or_space
       (UpdateFrontmatter.generate_description "my_file-v2.FINAL draft!.md") = true.
Proof.
  split; [vm_compute; reflexivity|]. split; [vm_compute; reflexivity|].
  exact (proj2 (generate_description_characters "my_file-v2.FINAL draft!.md" eq_refl)).
Defined.

Lemma match_word_upper_underscore (c : ascii) (run after : string) :
  Py.is_upper c = true -> Py.sforall Py.is_upper run = true ->
  UpdateFrontmatter.match_word (String c (run ++ String "_" after)) = None.
Proof.
  intros Hc Hr.
  assert (Hl : Py.is_lower c = false) by (revert Hc; by_cases_on c).
  assert (Hrun : UpdateFrontmatter.upper_run (String c (run ++ String "_" after)) = None).
  { unfold UpdateFrontmatter.upper_run.
    change (String c (run ++ String "_" after)) with (String c run ++ String "_" after).
    rewrite span_prefix; [reflexivity | | reflexivity].
    cbn [Py.sforall]. now rewrite Hc, Hr. }
  cbn [UpdateFrontmatter.match_word]. rewrite Hl, Hc.
  destruct run as [|d run]; [exact Hrun|].
  cbn [append]. cbn [Py.sforall] in Hr. apply andb_true_iff in Hr. destruct Hr as [Hd _].
  assert (Hdl : Py.is_lower d = false) by (revert Hd; by_cases_on d).
  rewrite Hdl. exact Hrun.
Qed.

(** X7.  Upper-case letters that stand right before an underscore give no
    word: the description of [NASA_report] is that of [report]. *)
Theorem split_words_drops_acronym (acronym after : string) :
  Py.sforall Py.is_upper acronym = true ->
  UpdateFrontmatter.split_words (acronym ++ "_" ++ after)
  = UpdateFrontmatter.split_words after.
Proof.
  intros Hu. unfold UpdateFrontmatter.split_words.
  induction acronym as [|c acronym IH].
  - cbn. now apply findall_words_fuel.
  - cbn [Py.sforall] in Hu. apply andb_true_iff in Hu. destruct Hu as [Hc Hu].
    cbn [append String.length UpdateFrontmatter.findall_words].
    change ("_" ++ after) with (String "_" after).
    rewrite (match_word_upper_underscore c acronym after Hc Hu).
    rewrite <- (IH Hu). reflexivity.
Qed.

Lemma split_words_drops_acronym_witness :
  UpdateFrontmatter.split_words ("NASA" ++ "_" ++ "report") = ["report"]
  /\ UpdateFrontmatter.generate_description "NASA_report" = "Report".
Proof.
  split; [|reflexivity].
  rewrite (split_words_drops_acronym "NASA" "report" eq_refl). reflexivity.
Defined.
(** ** Titles *)

Lemma nonempty_true (s : string) : Py.nonempty s = true <-> s <> "".
Proof.
  unfold Py.nonempty. destruct (String.eqb_spec s ""); simpl; split; congruence.
Qed.

Lemma nonempty_append_char (acc : string) (c : ascii) :
  Py.nonempty (acc ++ String c "") = true.
Proof.
  apply nonempty_true. destruct acc; discriminate.
Qed.

Lemma split_from_words (q : ascii -> bool) (s : string) :
  forall acc : string,
    Py.sforall no_space acc = true -> Py.sforall q acc = true -> Py.sforall q s = true ->
    Forall (fun w => wordlike w /\ Py.sforall q w = true) (Py.split_from acc s).
Proof.
  induction s as [|c s IH]; intros acc Ha Hq Hs; cbn [Py.split_from].
  - destruct (Py.nonempty acc) eqn:E; [|constructor].
    constructor; [|constructor]. split; [split|]; try assumption. now apply nonempty_true.
  - cbn [Py.sforall] in Hs. apply andb_true_iff in Hs. destruct Hs as [Hc Hs].
    destruct (Py.is_space c) eqn:Hsp.
    + destruct (Py.nonempty acc) eqn:E.
      * constructor; [|now apply IH].
        split; [split|]; try assumption. now apply nonempty_true.
      * now apply IH.
    + apply IH; try assumption.
      * rewrite sforall_append, Ha. cbn. unfold no_space. now rewrite Hsp.
      * rewrite sforall_append, Hq. cbn. now rewrite Hc.
Qed.

Lemma split_from_word (w : string) :
  forall acc rest_ : string,
    Py.sforall no_space w = true ->
    Py.split_from acc (w ++ rest_) = Py.split_from (acc ++ w) rest_.
Proof.
  induction w as [|c w IH]; intros acc rest_ Hw; cbn [append].
  - now rewrite append_empty_r.
  - cbn [Py.sforall] in Hw. apply andb_true_iff in Hw. destruct Hw as [Hc Hw].
    unfold no_space in Hc. apply negb_true_iff in Hc.
    cbn [Py.split_from]. rewrite Hc, (IH _ _ Hw), append_assoc. reflexivity.
Qed.

Lemma split_join (ws : list string) :
  Forall wordlike ws -> Py.split (Py.join " " ws) = ws.
Proof.
  unfold Py.split, Py.join.
  induction 1 as [|w ws [Hn Hw] Hws IH]; [reflexivity|].
  cbn [String.concat]. destruct ws as [|w' ws].
  - rewrite <- (append_empty_r w) at 1. rewrite split_from_word by exact Hw.
    cbn [append Py.split_from]. apply nonempty_true in Hn. now rewrite Hn.
  - rewrite split_from_word by exact Hw. cbn [append Py.split_from].
    replace (Py.is_space " ") with true by reflexivity.
    apply nonempty_true in Hn. rewrite Hn. now rewrite IH.
Qed.

Lemma title_from_length (s : string) :
  forall b : bool, String.length (Py.title_from b s) = String.length s.
Proof.
  induction s as [|c s IH]; intros b; simpl; [reflexivity | now rewrite IH].
Qed.

Lemma title_from_forall (q : ascii -> bool) (s : string) :
  (forall c, q (Py.to_upper c) = q c) -> (forall c, q (Py.to_lower c) = q c) ->
  forall b : bool, Py.sforall q (Py.title_from b s) = Py.sforall q s.
Proof.
  intros Hu Hl. induction s as [|c s IH]; intros b; simpl; [reflexivity|].
  rewrite IH. now destruct b; rewrite ?Hu, ?Hl.
Qed.

Lemma no_space_to_upper (c : ascii) : no_space (Py.to_upper c) = no_space c.
Proof. unfold no_space. now rewrite space_to_upper. Qed.

Lemma no_space_to_lower (c : ascii) : no_space (Py.to_lower c) = no_space c.
Proof. unfold no_space. now rewrite space_to_lower. Qed.

Lemma no_separator_to_upper (c : ascii) : no_separator (Py.to_upper c) = no_separator c.
Proof. by_cases_on c. Qed.

Lemma no_separator_to_lower (c : ascii) : no_separator (Py.to_lower c) = no_separator c.
Proof. by_cases_on c. Qed.

Lemma title_word_wordlike (q : ascii -> bool) (w : string) :
  (forall c, q (Py.to_upper c) = q c) -> (forall c, q (Py.to_lower c) = q c) ->
  wordlike w /\ Py.sforall q w = true ->
  wordlike (title_word w) /\ Py.sforall q (title_word w) = true.
Proof.
  intros Hu Hl [[Hn Hw] Hq]. unfold title_word.
  destruct (Py.isupper w); [now repeat split|].
  unfold Py.title. split; [split|].
  - intros E. apply (f_equal String.length) in E. rewrite title_from_length in E.
    destruct w; [contradiction | discriminate].
  - rewrite title_from_forall; [exact Hw | exact no_space_to_upper | exact no_space_to_lower].
  - now rewrite title_from_forall.
Qed.

Lemma replace_no_separator (s : string) :
  Py.sforall no_separator (Py.replace "-" " " (Py.replace "_" " " s)) = true.
Proof.
  unfold Py.replace. induction s as [|c s IH]; [reflexivity|].
  cbn [Py.smap Py.sforall]. rewrite IH, andb_true_r.
  destruct (Ascii.eqb_spec c "_") as [->|N1]; [reflexivity|].
  destruct (Ascii.eqb_spec c "-") as [->|N2]; [reflexivity|].
  unfold no_separator.
  apply Ascii.eqb_neq in N1, N2. now rewrite N1, N2.
Qed.

(** X8.  A generated title has no underscore and no hyphen, and its words
    are separated by single spaces with none at either end: splitting the
    title gives back the words of the file name, each title-cased unless it
    is upper case, and joining them again gives the title. *)
Theorem generate_title_normal_form (filename : string) :
  let base_name :=
    Py.replace "-" " " (Py.replace "_" " " (UpdateFrontmatter.remove_extension filename)) in
  Py.sforall no_separator (UpdateFrontmatter.generate_title filename) = true
  /\ Py.split (UpdateFrontmatter.generate_title filename)
     = map title_word (Py.split base_name)
  /\ Py.join " " (Py.split (UpdateFrontmatter.generate_title filename))
     = UpdateFrontmatter.generate_title filename.
Proof.
  intros base_name.
  assert (Hgen : UpdateFrontmatter.generate_title filename
                 = Py.join " " (map title_word (Py.split base_name))).
  { unfold UpdateFrontmatter.generate_title, title_word. f_equal.
    apply map_ext. intros w. now destruct (Py.isupper w). }
  assert (Hwords : Forall (fun w => wordlike w /\ Py.sforall no_separator w = true)
                          (map title_word (Py.split base_name))).
  { rewrite Forall_map.
    eapply Forall_impl;
      [|apply (split_from_words no_separator base_name "");
        [reflexivity | reflexivity | apply replace_no_separator]].
    intros w Hw. cbn beta.
    apply title_word_wordlike;
      [exact no_separator_to_upper | exact no_separator_to_lower | exact Hw]. }
  assert (Hsplit : Py.split (UpdateFrontmatter.generate_title filename)
                   = map title_word (Py.split base_name)).
  { rewrite Hgen. apply split_join.
    eapply Forall_impl; [|exact Hwords]. now intros w [Hw _]. }
  split; [|split].
  - rewrite Hgen. apply join_forall; [reflexivity|].
    eapply Forall_impl; [|exact Hwords]. now intros w [_ Hq].
  - exact Hsplit.
  - now rewrite Hsplit, <- Hgen.
Qed.
(** ** The header pattern *)

Lemma strip_prefix_of_append (p t : string) : Py.strip_prefix p (p ++ t) = Some t.
Proof.
  induction p as [|c p IH]; [reflexivity|].
  cbn [append Py.strip_prefix]. now rewrite Ascii.eqb_refl.
Qed.

Lemma strip_prefix_longer (p s t u : string) :
  Py.strip_prefix p s = Some t -> Py.strip_prefix p (s ++ u) = Some (t ++ u).
Proof.
  intros E. apply strip_prefix_append in E. subst.
  rewrite append_assoc. apply strip_prefix_of_append.
Qed.

(** The text before the first occurrence holds no occurrence. *)
Lemma find_sub_first (p s before after : string) :
  p <> "" -> Py.find_sub p s = Some (before, after) -> Py.find_sub p before = None.
Proof.
  intros Hp. revert before after.
  induction s as [|c s IH]; intros before after E.
  - cbn in E. destruct (Py.strip_prefix p "") eqn:Ep; [|discriminate].
    apply strip_prefix_append in Ep. destruct p; [contradiction | discriminate].
  - cbn [Py.find_sub] in E.
    destruct (Py.strip_prefix p (String c s)) as [t|] eqn:Ep.
    + inversion E; subst. cbn. destruct p; [contradiction | reflexivity].
    + destruct (Py.find_sub p s) as [[b a]|] eqn:Es; [|discriminate].
      inversion E; subst; clear E.
      pose proof (find_sub_append _ _ _ _ Es) as Hs.
      cbn [Py.find_sub]. rewrite (IH b after eq_refl).
      destruct (Py.strip_prefix p (String c b)) as [t|] eqn:Eb; [|reflexivity].
      apply (strip_prefix_longer _ _ _ (p ++ after)) in Eb.
      cbn [append] in Eb. rewrite <- Hs in Eb. congruence.
Qed.

(** A text that holds an occurrence has a first one. *)
Lemma find_sub_complete (p before after : string) :
  exists before' after' : string, Py.find_sub p (before ++ p ++ after) = Some (before', after').
Proof.
  induction before as [|c before IH].
  - cbn [append]. destruct (p ++ after) as [|d r] eqn:E.
    + destruct p; [|discriminate]. cbn in E. subst. cbn. now exists "", "".
    + rewrite <- E. cbn [Py.find_sub].
      assert (X : Py.find_sub p (p ++ after) = Some ("", after)).
      { destruct (p ++ after) eqn:E'; cbn [Py.find_sub];
          rewrite <- E', strip_prefix_of_append; reflexivity. }
      rewrite X. now exists "", after.
  - destruct IH as (b & a & IH). cbn [append Py.find_sub].
    destruct (Py.strip_prefix p _); [now eexists; eexists|].
    rewrite IH. now exists (String c b), a.
Qed.

Lemma span_blank (blank : string) (s : string) :
  Py.sforall Py.is_space blank = true ->
  Py.span Py.is_space (blank ++ "---" ++ s) = (blank, "---" ++ s).
Proof.
  intros Hb. apply span_prefix; [exact Hb | reflexivity].
Qed.

(** X9.  A header is found exactly when the text is white space, a fence,
    any text and a second fence, followed by anything.  The header that is
    found ends at the first fence after the opening one: the text between
    the fences holds no fence, and what comes before the opening fence is
    white space only. *)
Theorem search_header_characterised (text : string) :
  (search_header text <> None
   <-> exists blank inner after : string,
         Py.sforall Py.is_space blank = true
         /\ text = blank ++ "---" ++ inner ++ "---" ++ after)
  /\ (forall m : header_match,
        search_header text = Some m ->
        exists blank : string,
          Py.sforall Py.is_space blank = true
          /\ matched m = blank ++ "---" ++ group1 m ++ "---"
          /\ text = matched m ++ rest m
          /\ Py.find_sub "---" (group1 m) = None).
Proof.
  assert (Hfound : forall m : header_match,
             search_header text = Some m ->
             exists blank : string,
               Py.sforall Py.is_space blank = true
               /\ matched m = blank ++ "---" ++ group1 m ++ "---"
               /\ text = matched m ++ rest m
               /\ Py.find_sub "---" (group1 m) = None).
  { intros m Hm. pose proof (search_header_split text m Hm) as Hsplit.
    revert Hsplit. unfold search_header in Hm.
    destruct (Py.span Py.is_space text) as [blank after_blank] eqn:Eb.
    destruct (Py.strip_prefix "---" after_blank) as [after_fence|]; [|discriminate].
    destruct (Py.find_sub "---" after_fence) as [[inner after]|] eqn:Ei; [|discriminate].
    injection Hm as <-. cbn [matched group1 rest]. intros Hsplit.
    exists blank. split; [now apply span_forall in Eb|].
    split; [reflexivity|]. split; [exact Hsplit|].
    apply (find_sub_first "---" after_fence inner after); [discriminate | exact Ei]. }
  split; [|exact Hfound]. split.
  - intros Hn. destruct (search_header text) as [m|] eqn:Hm; [|contradiction].
    destruct (Hfound m eq_refl) as (blank & Hb & Hmatched & Htext & _).
    exists blank, (group1 m), (rest m). split; [exact Hb|].
    rewrite Htext, Hmatched, !append_assoc. reflexivity.
  - intros (blank & inner & after & Hb & ->).
    unfold search_header. rewrite (span_blank blank _ Hb).
    rewrite strip_prefix_of_append.
    destruct (find_sub_complete "---" inner after) as (b & a & E).
    rewrite E. discriminate.
Qed.
(** ** The text after the header *)

Lemma strip_prefix_short (p : string) :
  forall s u : string,
    String.length p <= String.length s ->
    Py.strip_prefix p s = None -> Py.strip_prefix p (s ++ u) = None.
Proof.
  induction p as [|a p IH]; intros s u Hlen E; [discriminate|].
  destruct s as [|b s]; [cbn in Hlen; lia|].
  cbn [append Py.strip_prefix String.length] in *.
  destruct (Ascii.eqb a b); [|reflexivity].
  apply IH; [lia | exact E].
Qed.

(** The first occurrence stays the first one when the text goes on. *)
Lemma find_sub_longer (p s before after u : string) :
  Py.find_sub p s = Some (before, after) ->
  Py.find_sub p (s ++ u) = Some (before, after ++ u).
Proof.
  revert before after.
  induction s as [|c s IH]; intros before after E.
  - destruct p as [|a p]; cbn in E; [|discriminate E].
    inversion E; subst; clear E. destruct u; reflexivity.
  - cbn [Py.find_sub] in E. cbn [append Py.find_sub].
    destruct (Py.strip_prefix p (String c s)) as [t|] eqn:Ep.
    + inversion E; subst; clear E.
      pose proof (strip_prefix_longer _ _ _ u Ep) as Eu. cbn [append] in Eu.
      now rewrite Eu.
    + destruct (Py.find_sub p s) as [[b a]|] eqn:Es; [|discriminate].
      inversion E; subst; clear E.
      pose proof (find_sub_append _ _ _ _ Es) as Hs.
      assert (Hlen : String.length p <= String.length (String c s)).
      { rewrite Hs. cbn [String.length]. rewrite !append_length. lia. }
      pose proof (strip_prefix_short p (String c s) u Hlen Ep) as En.
      cbn [append] in En. rewrite En, (IH _ _ eq_refl). reflexivity.
Qed.

(** What follows a header block is the body of the text. *)
Lemma body_after_block (block after : string) :
  header_block block -> body_of (block ++ after) = after.
Proof.
  intros (inner & -> & Hfirst).
  unfold body_of, search_header.
  replace (("---" ++ inner ++ "---") ++ after)
    with ("" ++ "---" ++ (inner ++ "---") ++ after)
    by (cbn [append]; now rewrite !append_assoc).
  rewrite (span_blank "" _ eq_refl), strip_prefix_of_append.
  now rewrite (find_sub_longer _ _ _ _ after Hfirst).
Qed.

Lemma body_of_header (text : string) (m : header_match) :
  search_header text = Some m -> body_of text = rest m.
Proof.
  intros Hm. unfold body_of. now rewrite Hm.
Qed.

Section BodyText.

Context {L : Libs}.
Variable read_file : file_system.
Variable today : string.

(** C2, as the code has it.  Both scripts leave the text that follows the
    header of the input as it is.  For a document with a header the result
    is the expansion of the new header followed by that text: in
    [generate_cover_images.py] the new header ends with the closing fence,
    so the text after the fence of the result is that of the input; in
    [update_frontmatter.py] it ends with a newline after the fence, so the
    text after the fence of the result has one newline more in front.  For
    a document without a header the cover script puts a blank line and the
    whole text after the new header, the other script a newline and the text
    stripped of leading and trailing white space.  What is read back after
    the fence is as said when the new header is read back as one header
    block, that is when it holds no fence before its closing one. *)
Theorem body_text_preserved :
  (forall (path : string) (file_content : option string) (text : string)
          (note_title : value) (png_file_name : option string) (new_content : string),
      read_if_missing read_file path file_content = Ok (Some text) ->
      GenerateCoverImages.update_properties read_file today (Some path) file_content
      = Ok (GenerateCoverImages.Updated note_title png_file_name new_content) ->
      exists (written : dict) (block : string),
        match search_header text with
        | Some m =>
            re_expand ("---" ++ nl ++ yaml_dump written ++ "---") (matched m) (group1 m)
            = Some block
            /\ new_content = block ++ body_of text
            /\ (header_block block -> body_of new_content = body_of text)
        | None =>
            block = "---" ++ nl ++ yaml_dump written ++ "---"
            /\ new_content = block ++ nl ++ nl ++ text
            /\ (header_block block -> body_of new_content = nl ++ nl ++ text)
        end)
  /\ (forall (file_path file_content : option string) (text updated : string),
      UpdateFrontmatter.resolve_content read_file file_path file_content = Ok (Some text) ->
      UpdateFrontmatter.update_properties read_file today file_path file_content = Ok updated ->
      exists (written : dict) (block : string),
        match search_header text with
        | Some m =>
            re_expand (UpdateFrontmatter.front_matter written) (matched m) (group1 m)
            = Some block
            /\ updated = block ++ body_of text
            /\ (forall fenced : string,
                  block = fenced ++ nl -> header_block fenced ->
                  body_of updated = nl ++ body_of text)
        | None =>
            block = UpdateFrontmatter.front_matter written
            /\ updated = block ++ nl ++ Py.strip text
            /\ (forall fenced : string,
                  block = fenced ++ nl -> header_block fenced ->
                  body_of updated = nl ++ nl ++ Py.strip text)
        end).
Proof.
  split.
  - intros path file_content text note_title png_file_name new_content Hread.
    unfold GenerateCoverImages.update_properties. cbn [or_raise bind].
    rewrite Hread. cbn [or_raise bind].
    destruct (search_header text) as [m|] eqn:Hm.
    + rewrite (body_of_header text m Hm).
      destruct (yaml_load (group1 m)) as [loaded|]; cbn [bind]; [|discriminate].
      destruct (as_dict AttributeError loaded) as [properties|]; cbn [bind]; [|discriminate].
      destruct (GenerateCoverImages.header_properties _ _ _) as [decided|];
        cbn [bind]; [|discriminate].
      destruct decided as [[[title png] written]|]; [|discriminate].
      unfold sub_header.
      destruct (re_expand _ _ _) as [block|] eqn:Ex; cbn [or_raise bind]; [|discriminate].
      intros E. inversion E; subst; clear E.
      exists written, block. split; [exact Ex|]. split; [reflexivity|].
      apply body_after_block.
    + intros E. inversion E; subst; clear E.
      exists (GenerateCoverImages.fresh_properties (Py.path_stem path) today).
      eexists. split; [reflexivity|]. split.
      * now rewrite !append_assoc.
      * intros Hb. rewrite <- (body_after_block _ (nl ++ nl ++ text) Hb).
        now rewrite !append_assoc.
  - intros file_path file_content text updated Hr.
    unfold UpdateFrontmatter.update_properties. rewrite Hr. cbn [or_raise bind].
    destruct (search_header text) as [m|] eqn:Hm.
    + rewrite (body_of_header text m Hm).
      destruct (yaml_load (group1 m)) as [loaded|]; cbn [bind]; [|discriminate].
      destruct (UpdateFrontmatter.loaded_properties loaded) as [properties|];
        cbn [bind]; [|discriminate].
      unfold sub_header.
      destruct (re_expand _ _ _) as [block|] eqn:Ex; cbn [or_raise bind]; [|discriminate].
      intros E. inversion E; subst; clear E.
      eexists. exists block. split; [exact Ex|]. split; [reflexivity|].
      intros fenced -> Hb. rewrite append_assoc. now apply body_after_block.
    + intros E.
      exists (UpdateFrontmatter.fill_properties (UpdateFrontmatter.given_path file_path)
                today []).
      eexists. split; [reflexivity|].
      assert (Hu : updated
                   = UpdateFrontmatter.front_matter
                       (UpdateFrontmatter.fill_properties
                          (UpdateFrontmatter.given_path file_path) today [])
                     ++ nl ++ Py.strip text) by congruence.
      split; [exact Hu|].
      intros fenced Hf Hb. rewrite Hu, Hf, append_assoc. now apply body_after_block.
Qed.

End BodyText.

Lemma append_inv_r (s : string) :
  forall a b : string, a ++ s = b ++ s -> a = b.
Proof.
  assert (Hlen : forall a b : string, a ++ s = b ++ s -> String.length a = String.length b).
  { intros a b E. apply (f_equal String.length) in E. rewrite !append_length in E. lia. }
  induction a as [|c a IH]; intros b E; pose proof (Hlen _ _ E) as Hl.
  - destruct b; [reflexivity | discriminate Hl].
  - destruct b as [|d b]; [discriminate Hl|].
    cbn [append] in E. inversion E; subst. f_equal. now apply IH.
Qed.

Lemma body_text_preserved_witness :
  match @GenerateCoverImages.update_properties Standin.libs Standin.no_files Samples.today
          (Some "publish/post.md") (Some Samples.kept) with
  | Ok (GenerateCoverImages.Updated _ _ new_content) =>
      body_of new_content = body_of Samples.kept
  | _ => False
  end
  /\ match @UpdateFrontmatter.update_properties Standin.libs Standin.no_files Samples.today
             (Some "publish/post.md") (Some Samples.kept) with
     | Ok updated => body_of updated = nl ++ body_of Samples.kept
     | Raise _ => False
     end.
Proof.
  destruct (@body_text_preserved Standin.libs Standin.no_files Samples.today) as [Hc Hf].
  assert (Hm : exists m, search_header Samples.kept = Some m) by (eexists; reflexivity).
  destruct Hm as [m Hm].
  split.
  - destruct (@GenerateCoverImages.update_properties _ _ _ _ _) as [[|title png new_content]|e]
      eqn:E; [vm_compute in E; discriminate E | | vm_compute in E; discriminate E].
    destruct (Hc "publish/post.md" (Some Samples.kept) Samples.kept title png new_content
                eq_refl E) as (written & block & H).
    rewrite Hm in H. destruct H as (_ & Hnew & Hbody). apply Hbody.
    vm_compute in E. injection E as _ _ <-.
    assert (Hblock : block
                     = "---" ++ nl
                       ++ Standin.dump
                            [("title", VStr "Post");
                             ("ogImage", VMap [("url", VStr "https://example.org/post.png")]);
                             ("date", VStr "2020-01-01"); ("dupdate", VBool true)]
                       ++ "---")
      by (symmetry; apply (append_inv_r (body_of Samples.kept)); exact Hnew).
    rewrite Hblock.
    exists (nl ++ Standin.dump
                    [("title", VStr "Post");
                     ("ogImage", VMap [("url", VStr "https://example.org/post.png")]);
                     ("date", VStr "2020-01-01"); ("dupdate", VBool true)]).
    split; vm_compute; reflexivity.
  - destruct (@UpdateFrontmatter.update_properties _ _ _ _ _) as [updated|e] eqn:E;
      [|vm_compute in E; discriminate E].
    destruct (Hf (Some "publish/post.md") (Some Samples.kept) Samples.kept updated
                eq_refl E) as (written & block & H).
    rewrite Hm in H. destruct H as (_ & Hnew & Hbody).
    vm_compute in E. injection E as <-.
    assert (Hblock : block
                     = ("---" ++ nl
                        ++ Py.strip
                             (Standin.dump
                                [("title", VStr "Post");
                                 ("ogImage",
                                  VMap [("url", VStr "https://example.org/post.png")]);
                                 ("date", VStr Samples.today); ("dupdate", VBool true);
                                 ("description", VStr "Post")])
                        ++ nl ++ "---") ++ nl)
      by (symmetry; apply (append_inv_r (body_of Samples.kept)); exact Hnew).
    apply (Hbody _ Hblock).
    exists (nl ++ Py.strip
                    (Standin.dump
                       [("title", VStr "Post");
                        ("ogImage", VMap [("url", VStr "https://example.org/post.png")]);
                        ("date", VStr Samples.today); ("dupdate", VBool true);
                        ("description", VStr "Post")]) ++ nl).
    split; vm_compute; reflexivity.
Defined.

(** A title with a fence in it closes the header early:
    [generate_cover_images.py] on [publish/a---b.md] with a header that has
    no title writes the stem into the header, and the text after the first
    closing fence of the result is no longer that of the input. *)
Example early_fence_moves_body :
  match @GenerateCoverImages.update_properties Standin.libs Standin.no_files Samples.today
          (Some "publish/a---b.md") (Some Samples.untitled) with
  | Ok (GenerateCoverImages.Updated _ _ new_content) =>
      body_of new_content <> body_of Samples.untitled
  | _ => False
  end.
Proof.
  vm_compute. discriminate.
Qed.

(** ** The title of a document without one *)

(** C5, as the code has it.  For a stem without a dot, [generate_title]
    turns [_] and [-] into spaces and joins the words with single spaces,
    each title-cased unless it is upper case; the two file names of the
    specification give [My Cool Post] and [NASA Report].
    [update_frontmatter.py] stores that title when the header has no [title]
    key; [generate_cover_images.py] takes the stem as it is. *)
Theorem title_derivation (today : string) :
  UpdateFrontmatter.generate_title (Py.path_stem "my-cool_Post.md") = "My Cool Post"
  /\ UpdateFrontmatter.generate_title (Py.path_stem "NASA_report.md") = "NASA Report"
  /\ (forall stem : string,
        Py.sexists is_dot stem = false ->
        UpdateFrontmatter.generate_title stem
        = Py.join " "
            (map (fun word => if Py.isupper word then word else Py.title word)
                 (Py.split (Py.replace "-" " " (Py.replace "_" " " stem)))))
  /\ (forall (path : string) (properties : dict),
        Dict.mem "title" properties = false ->
        Dict.lookup "title"
          (UpdateFrontmatter.fill_properties (Some path) today properties)
        = Some (VStr (UpdateFrontmatter.generate_title (Py.path_stem path))))
  /\ (forall (stem : string) (properties : dict),
        truthy (Dict.get "title" VNull properties) = false ->
        fst (GenerateCoverImages.titled stem properties) = VStr stem).
Proof.
  split; [reflexivity|]. split; [reflexivity|]. split; [|split].
  - intros stem Hdot. unfold UpdateFrontmatter.generate_title.
    assert (Hstem : UpdateFrontmatter.remove_extension stem = stem).
    { unfold UpdateFrontmatter.remove_extension.
      apply rsplit_dot_none in Hdot. now rewrite Hdot. }
    rewrite Hstem. f_equal.
    apply map_ext. intros word. now destruct (Py.isupper word).
  - intros path properties Hm. unfold UpdateFrontmatter.fill_properties.
    rewrite Hm. cbn [negb].
    rewrite lookup_set_other by distinct_keys.
    destruct (negb _).
    + rewrite lookup_set_other by distinct_keys. apply lookup_set_same.
    + apply lookup_set_same.
  - intros stem properties Ht. unfold GenerateCoverImages.titled. now rewrite Ht.
Qed.

Lemma title_derivation_witness :
  UpdateFrontmatter.generate_title "release_notes-for-API"
  = Py.join " " ["Release"; "Notes"; "For"; "API"]
  /\ Dict.lookup "title"
       (UpdateFrontmatter.fill_properties (Some "journal/NASA_report.md") Samples.today
          [("date", VStr "2020-01-01")])
     = Some (VStr "NASA Report")
  /\ fst (GenerateCoverImages.titled "NASA_report" [("date", VStr "2020-01-01")])
     = VStr "NASA_report".
Proof.
  destruct (title_derivation Samples.today) as (_ & _ & Hg & Hf & Hc).
  split; [exact (Hg "release_notes-for-API" eq_refl)|].
  split.
  - exact (Hf "journal/NASA_report.md" [("date", VStr "2020-01-01")] eq_refl).
  - exact (Hc "NASA_report" [("date", VStr "2020-01-01")] eq_refl).
Defined.

(** A stem with a dot in it: [generate_title] takes an extension off what is
    a stem already, and the title of [v1.2-notes.md] is [V1]. *)
Example dotted_stem_is_cut :
  Py.path_stem "publish/v1.2-notes.md" = "v1.2-notes"
  /\ UpdateFrontmatter.generate_title (Py.path_stem "publish/v1.2-notes.md") = "V1".
Proof.
  split; reflexivity.
Qed.

(** ** The text block of the cover *)

Lemma title_from_titlecased (s : string) :
  forall previous_is_cased : bool,
    titlecased_from previous_is_cased (Py.title_from previous_is_cased s) = true.
Proof.
  induction s as [|c s IH]; intros b; [reflexivity|].
  cbn [Py.title_from titlecased_from].
  assert (Hc : Py.is_cased (if b then Py.to_lower c else Py.to_upper c) = Py.is_cased c)
    by (destruct b; destruct c as [[] [] [] [] [] [] [] []]; reflexivity).
  rewrite Hc, IH, andb_true_r.
  destruct b; destruct c as [[] [] [] [] [] [] [] []]; reflexivity.
Qed.

Lemma title_from_same_letters (s : string) :
  forall previous_is_cased : bool,
    same_letters s (Py.title_from previous_is_cased s) = true.
Proof.
  induction s as [|c s IH]; intros b; [reflexivity|].
  cbn [Py.title_from same_letters]. rewrite IH, andb_true_r.
  destruct b; destruct c as [[] [] [] [] [] [] [] []]; reflexivity.
Qed.

Lemma isupper_letters (s : string) :
  Py.isupper s = true
  <-> Py.sexists Py.is_lower s = false /\ Py.sexists Py.is_upper s = true.
Proof.
  unfold Py.isupper. rewrite andb_true_iff, negb_true_iff. reflexivity.
Qed.

Lemma spaces_no_newline (n : nat) : Py.sforall no_newline (Py.spaces n) = true.
Proof.
  induction n as [|n IH]; [reflexivity | exact IH].
Qed.

Lemma center_no_newline (line : string) (width : nat) :
  Py.sforall no_newline line = true ->
  Py.sforall no_newline (Py.center line width) = true.
Proof.
  intros Hl. destruct (center_shape line width) as (l & r & E & _).
  rewrite E, !sforall_append, !spaces_no_newline, Hl. reflexivity.
Qed.

Lemma strip_blank_none (c : ascii) (s : string) :
  no_newline c = true -> Py.strip_prefix (nl ++ nl) (String c s) = None.
Proof.
  unfold no_newline. intros Hc. apply negb_true_iff in Hc. rewrite Ascii.eqb_sym in Hc.
  cbn [nl append Py.strip_prefix]. now rewrite Hc.
Qed.

(** A text without a newline holds no blank line, and the first blank line
    after such a text is the one that follows it. *)
Lemma find_blank_none (a : string) :
  Py.sforall no_newline a = true -> Py.find_sub (nl ++ nl) a = None.
Proof.
  induction a as [|c a IH]; [reflexivity|].
  cbn [Py.sforall]. intros H. apply andb_true_iff in H. destruct H as [Hc Ha].
  cbn [Py.find_sub]. now rewrite (strip_blank_none c a Hc), (IH Ha).
Qed.

Lemma find_blank_first (a after : string) :
  Py.sforall no_newline a = true ->
  Py.find_sub (nl ++ nl) (a ++ (nl ++ nl) ++ after) = Some (a, after).
Proof.
  induction a as [|c a IH].
  - intros _. reflexivity.
  - cbn [Py.sforall]. intros H. apply andb_true_iff in H. destruct H as [Hc Ha].
    cbn [append Py.find_sub].
    now rewrite (strip_blank_none c _ Hc), (IH Ha).
Qed.

Lemma split_blank_join (pieces : list string) :
  forall fuel : nat,
    pieces <> [] ->
    Forall (fun piece => Py.sforall no_newline piece = true) pieces ->
    List.length pieces <= S fuel ->
    split_sep_fuel fuel (nl ++ nl) (Py.join (nl ++ nl) pieces) = pieces.
Proof.
  unfold Py.join.
  induction pieces as [|x others IH]; intros fuel Hne Hall Hfuel; [contradiction|].
  inversion Hall as [|? ? Hx Hothers]; subst.
  destruct others as [|y others].
  - cbn [String.concat]. destruct fuel; [reflexivity|].
    cbn [split_sep_fuel]. now rewrite (find_blank_none x Hx).
  - destruct fuel as [|fuel]; [cbn in Hfuel; lia|].
    change (String.concat (nl ++ nl) (x :: y :: others))
      with (x ++ (nl ++ nl) ++ String.concat (nl ++ nl) (y :: others)).
    cbn [split_sep_fuel]. rewrite (find_blank_first x _ Hx). f_equal.
    apply IH; [discriminate | exact Hothers | cbn [List.length] in *; lia].
Qed.

Lemma join_blank_length (pieces : list string) :
  List.length pieces <= S (String.length (Py.join (nl ++ nl) pieces)).
Proof.
  unfold Py.join.
  induction pieces as [|x others IH]; [cbn; lia|].
  destruct others as [|y others]; [cbn; lia|].
  change (String.concat (nl ++ nl) (x :: y :: others))
    with (x ++ (nl ++ nl) ++ String.concat (nl ++ nl) (y :: others)).
  rewrite !append_length. cbn [List.length nl append String.length] in *. lia.
Qed.

(** C9.  The text block of the cover.  The title is kept as it is when it
    is upper case and title-cased otherwise.  For ASCII text, upper case
    means that the title has a capital letter and no small one, and the
    title-cased text has the letters of the title, each a capital where it
    follows no letter and a small letter where it follows one.  The title is
    wrapped to the line width by [textwrap.wrap]; every wrapped line is
    centred in that same width, with spaces on both sides, as many on the
    left as on the right up to one; and the centred lines are joined by two
    newlines, so that splitting the text block at the blank lines gives the
    centred lines back. *)
Theorem wrapped_text_layout (L : Libs) (input_text : string) (max_line_length : nat) :
  let title_text := GenerateCoverImages.title_text input_text in
  let lines := textwrap_wrap title_text max_line_length in
  let text := GenerateCoverImages.wrapped_text input_text max_line_length in
  (Py.isupper input_text = true -> title_text = input_text)
  /\ (Py.isupper input_text = false -> title_text = Py.title input_text)
  /\ (ascii_text input_text = true ->
      (Py.isupper input_text = true
       <-> Py.sexists Py.is_lower input_text = false
           /\ Py.sexists Py.is_upper input_text = true)
      /\ titlecased (Py.title input_text) = true
      /\ same_letters input_text (Py.title input_text) = true)
  /\ exists padded : list string,
       Forall2 (centred max_line_length) lines padded
       /\ text = Py.join (nl ++ nl) padded
       /\ (lines = [] -> text = "")
       /\ (lines <> [] ->
           Forall (fun line => Py.sforall no_newline line = true) lines ->
           split_sep (nl ++ nl) text = padded).
Proof.
  intros title_text lines text. subst title_text.
  unfold GenerateCoverImages.title_text at 1 2.
  split; [now intros ->|]. split; [now intros ->|]. split.
  - intros _. split; [apply isupper_letters|].
    split; [apply title_from_titlecased | apply title_from_same_letters].
  - exists (map (fun line => Py.center line max_line_length) lines).
    assert (Htext : text = Py.join (nl ++ nl)
                             (map (fun line => Py.center line max_line_length) lines))
      by reflexivity.
    split; [|split; [exact Htext|split]].
    + generalize lines. intros ls.
      induction ls as [|line others IH]; cbn [map]; constructor; [|exact IH].
      destruct (center_shape line max_line_length) as (l & r & E & _ & Hd).
      exists l, r. split; [exact E|]. split; [apply center_length | exact Hd].
    + intros Hnone. rewrite Htext, Hnone. reflexivity.
    + intros Hne Hall. rewrite Htext. unfold split_sep.
      apply split_blank_join.
      * destruct lines; [contradiction | discriminate].
      * apply Forall_forall. intros padded Hin. apply in_map_iff in Hin.
        destruct Hin as (line & <- & Hin). apply center_no_newline.
        rewrite Forall_forall in Hall. now apply Hall.
      * apply join_blank_length.
Qed.

Lemma wrapped_text_layout_witness :
  GenerateCoverImages.title_text "my cool post about NASA" = "My Cool Post About Nasa"
  /\ GenerateCoverImages.title_text "NASA REPORT 2024" = "NASA REPORT 2024"
  /\ titlecased (Py.title "my cool post about NASA") = true
  /\ split_sep (nl ++ nl)
       (@GenerateCoverImages.wrapped_text Standin.libs "release notes for the cover script" 16)
     = [" Release Notes  "; " For The Cover  "; "     Script     "].
Proof.
  destruct (wrapped_text_layout Standin.libs "my cool post about NASA" 16)
    as (_ & Htitle & Hascii & _).
  destruct (wrapped_text_layout Standin.libs "NASA REPORT 2024" 16)
    as (Hupper & _ & Hletters & _).
  destruct (wrapped_text_layout Standin.libs "release notes for the cover script" 16)
    as (_ & _ & _ & padded & _ & _ & _ & Hsplit).
  destruct (Hascii eq_refl) as (_ & Hcased & _).
  destruct (Hletters eq_refl) as (Hiff & _).
  split; [rewrite (Htitle eq_refl); vm_compute; reflexivity|].
  split; [apply Hupper, Hiff; split; reflexivity|].
  split; [exact Hcased|].
  assert (Hpadded : split_sep (nl ++ nl)
                      (@GenerateCoverImages.wrapped_text Standin.libs
                         "release notes for the cover script" 16) = padded).
  { apply Hsplit; [vm_compute; discriminate | vm_compute; repeat constructor]. }
  rewrite Hpadded. rewrite <- Hpadded. vm_compute. reflexivity.
Defined.

(** ** A second pass of the cover script *)

Lemma mem_of_lookup (k : string) (v : value) (d : dict) :
  Dict.lookup k d = Some v -> Dict.mem k d = true.
Proof.
  intros E. unfold Dict.mem. now rewrite E.
Qed.

Lemma nonempty_png (s : string) : Py.nonempty (s ++ ".png") = true.
Proof.
  apply nonempty_true. destruct s; discriminate.
Qed.

Lemma nonempty_cdn_url (s : string) :
  Py.nonempty (GenerateCoverImages.cdn_url_prefix ++ s) = true.
Proof.
  reflexivity.
Qed.

(** What the header branch writes: the URL is true afterwards when it was
    true before or when there was no [ogImage] key, and the date is today
    unless [dupdate] is true. *)
Lemma header_properties_written (stem today : string) (properties written : dict)
    (note_title : value) (png_file_name : option string) :
  GenerateCoverImages.header_properties stem today properties
  = Ok (Some (note_title, png_file_name, written)) ->
  (Dict.lookup "ogImage" properties = None
   \/ exists og_image : dict,
        Dict.lookup "ogImage" properties = Some (VMap og_image)
        /\ truthy (Dict.get "url" VNull og_image) = true) ->
  exists og_image : dict,
    Dict.lookup "ogImage" written = Some (VMap og_image)
    /\ truthy (Dict.get "url" VNull og_image) = true.
Proof.
  unfold GenerateCoverImages.header_properties.
  pose proof (titled_lookup stem "ogImage" properties ltac:(distinct_keys)) as Eo.
  destruct (GenerateCoverImages.titled stem properties) as [title titled_props].
  cbn [snd] in Eo. intros E Hog.
  assert (Hkeep : forall d : dict,
             Dict.lookup "ogImage"
               (if truthy (Dict.get "dupdate" VNull titled_props) then d
                else Dict.set "date" (VStr today) d)
             = Dict.lookup "ogImage" d).
  { intros d. destruct (truthy _); [reflexivity|].
    now rewrite lookup_set_other by distinct_keys. }
  destruct Hog as [Hnone|(og & Hsome & Hurl)].
  - rewrite Hnone in Eo.
    assert (Gog : Dict.get "ogImage" (VMap []) titled_props = VMap [])
      by (unfold Dict.get; now rewrite Eo).
    rewrite Gog in E. cbn [as_dict bind Dict.get Dict.lookup truthy andb] in E.
    destruct (GenerateCoverImages.clean_title title) as [cleaned|]; cbn [bind] in E;
      [|discriminate].
    inversion E; subst; clear E. eexists. rewrite Hkeep. split.
    + now apply lookup_setdefault_absent.
    + cbn [Dict.get Dict.lookup String.eqb Ascii.eqb Bool.eqb truthy].
      apply nonempty_cdn_url.
  - rewrite Hsome in Eo. rewrite (get_of_lookup _ _ _ _ Eo) in E.
    cbn [as_dict bind] in E. rewrite Hurl in E. cbn [andb] in E.
    destruct (eq_str _ today); [discriminate|]. cbn [bind] in E.
    inversion E; subst; clear E. exists og. rewrite Hkeep. now split.
Qed.

(** X10.  A second pass on the same day does nothing.  When the header had
    a true [ogImage.url] or no [ogImage] key, and no true [dupdate], the
    properties that one pass writes make the next pass take the early
    return. *)
Theorem second_pass_returns_early (stem today : string) (properties written : dict)
    (note_title : value) (png_file_name : option string) :
  GenerateCoverImages.header_properties stem today properties
  = Ok (Some (note_title, png_file_name, written)) ->
  truthy (Dict.get "dupdate" VNull properties) = false ->
  (Dict.lookup "ogImage" properties = None
   \/ exists og_image : dict,
        Dict.lookup "ogImage" properties = Some (VMap og_image)
        /\ truthy (Dict.get "url" VNull og_image) = true) ->
  GenerateCoverImages.header_properties stem today written = Ok None.
Proof.
  intros E Hdup Hog.
  destruct (header_properties_written _ _ _ _ _ _ E Hog) as (og & Ho & Hurl).
  pose proof (header_properties_date today stem properties _ E) as Hdate.
  cbn beta iota in Hdate. rewrite Hdup in Hdate.
  destruct (Dict.lookup "url" og) as [url|] eqn:Eu.
  - apply (header_properties_early stem today written og url Ho Eu); [|exact Hdate].
    unfold Dict.get in Hurl. now rewrite Eu in Hurl.
  - unfold Dict.get in Hurl. rewrite Eu in Hurl. discriminate.
Qed.

Lemma second_pass_returns_early_witness :
  exists written : dict,
    GenerateCoverImages.header_properties "post" Samples.today
      [("title", VStr "Post"); ("date", VStr "2020-01-01")]
    = Ok (Some (VStr "Post", Some "post.png", written))
    /\ GenerateCoverImages.header_properties "post" Samples.today written = Ok None.
Proof.
  eexists. split; [reflexivity|].
  apply (second_pass_returns_early "post" Samples.today
           [("title", VStr "Post"); ("date", VStr "2020-01-01")] _
           (VStr "Post") (Some "post.png")); [reflexivity | reflexivity | now left].
Defined.

(** The job that [update_properties] returns, read off its two branches. *)
Lemma job_of_update {L : Libs} (read_file : file_system)
    (today : string) (file_path file_content : option string)
    (o : GenerateCoverImages.outcome) (note_title : value) (png_file_name : string) :
  GenerateCoverImages.update_properties read_file today file_path file_content = Ok o ->
  GenerateCoverImages.cover_job o = Some (note_title, png_file_name) ->
  exists text : string,
    note_title = VStr text
    /\ png_file_name = GenerateCoverImages.clean_text_for_filename text ++ ".png".
Proof.
  unfold GenerateCoverImages.update_properties.
  destruct file_path as [path|]; cbn [or_raise bind]; [|discriminate].
  destruct (read_if_missing read_file path file_content) as [[text|]|];
    cbn [or_raise bind]; [|discriminate|discriminate].
  destruct (search_header text) as [m|].
  - destruct (yaml_load (group1 m)) as [loaded|]; cbn [bind]; [|discriminate].
    destruct (as_dict AttributeError loaded) as [properties|]; cbn [bind]; [|discriminate].
    destruct (GenerateCoverImages.header_properties _ _ _) as [decided|] eqn:Eh;
      cbn [bind]; [|discriminate].
    destruct decided as [[[title png] written]|].
    + unfold sub_header.
      destruct (re_expand _ _ _); cbn [or_raise bind]; [|discriminate].
      intros E. inversion E; subst; clear E. cbn [GenerateCoverImages.cover_job].
      destruct png as [png|]; [|discriminate].
      destruct (Py.nonempty png); [|discriminate].
      intros X. inversion X; subst; clear X.
      revert Eh. unfold GenerateCoverImages.header_properties.
      destruct (GenerateCoverImages.titled _ _) as [t p].
      destruct (as_dict _ _) as [og|]; cbn [bind]; [|discriminate].
      destruct (_ && _); [discriminate|].
      destruct (truthy (Dict.get "url" VNull og)); cbn [bind]; [discriminate|].
      destruct t; cbn [GenerateCoverImages.clean_title bind]; try discriminate.
      intros X. inversion X; subst. eexists. split; reflexivity.
    + intros E. inversion E; subst. discriminate.
  - intros E. inversion E; subst; clear E. cbn [GenerateCoverImages.cover_job].
    rewrite nonempty_png. intros X. inversion X; subst. now eexists.
Qed.

(** X11.  The title and the file name that are returned belong together:
    when an image is asked for, the title is a string and the file name is
    its slug followed by [.png], so it is not empty. *)
Theorem cover_job_is_slug_of_title {L : Libs} (read_file : file_system)
    (today : string) (file_path file_content : option string)
    (o : GenerateCoverImages.outcome) (note_title : value) (png_file_name : string) :
  GenerateCoverImages.update_properties read_file today file_path file_content = Ok o ->
  GenerateCoverImages.cover_job o = Some (note_title, png_file_name) ->
  exists text : string,
    note_title = VStr text
    /\ png_file_name = GenerateCoverImages.clean_text_for_filename text ++ ".png".
Proof.
  intros Hupdate Hjob.
  exact (job_of_update read_file today file_path file_content o note_title
           png_file_name Hupdate Hjob).
Qed.

Lemma cover_job_is_slug_of_title_witness :
  exists text : string,
    VStr "my-cool_Post" = VStr text
    /\ "mycoolpost.png" = GenerateCoverImages.clean_text_for_filename text ++ ".png".
Proof.
  destruct (@GenerateCoverImages.update_properties Standin.libs Standin.no_files
              Samples.today (Some "publish/my-cool_Post.md") (Some Samples.untitled))
    as [o|e] eqn:E; [|vm_compute in E; discriminate E].
  apply (@cover_job_is_slug_of_title Standin.libs Standin.no_files Samples.today
           (Some "publish/my-cool_Post.md") (Some Samples.untitled) o); [exact E|].
  vm_compute in E. injection E as <-. reflexivity.
Defined.

(** ** What [update_frontmatter.py] fills in *)

(** Filling in a key that is missing: the key is there afterwards and no
    key that was there has changed. *)
Lemma fill_missing (k : string) (v : value) (d : dict) :
  let filled := if negb (Dict.mem k d) then Dict.set k v d else d in
  Dict.mem k filled = true
  /\ forall (k0 : string) (v0 : value),
       Dict.lookup k0 d = Some v0 -> Dict.lookup k0 filled = Some v0.
Proof.
  cbn zeta. destruct (Dict.mem k d) eqn:M; cbn [negb].
  - split; [exact M | trivial].
  - split; [unfold Dict.mem; now rewrite lookup_set_same|].
    intros k0 v0 E. destruct (String.eqb_spec k0 k) as [->|N].
    + unfold Dict.mem in M. now rewrite E in M.
    + now rewrite lookup_set_other.
Qed.

(** X12.  After lines 91 to 95 the properties have [title], [description]
    and [date], the date is today, and every other key the header had keeps
    its value: an existing title or description is never replaced. *)
Theorem fill_properties_keeps (path : option string) (current_date : string)
    (properties : dict) :
  let filled := UpdateFrontmatter.fill_properties path current_date properties in
  Dict.mem "title" filled = true
  /\ Dict.mem "description" filled = true
  /\ Dict.lookup "date" filled = Some (VStr current_date)
  /\ forall (k : string) (v : value),
       k <> "date" -> Dict.lookup k properties = Some v -> Dict.lookup k filled = Some v.
Proof.
  cbn zeta. unfold UpdateFrontmatter.fill_properties. cbv zeta.
  match goal with
  | |- context [Dict.set "title" ?t properties] =>
      destruct (fill_missing "title" t properties) as [H1 Hk1]
  end.
  match goal with
  | |- context [Dict.set "description" ?ds ?p1] =>
      destruct (fill_missing "description" ds p1) as [H2 Hk2]
  end.
  cbn zeta in H1, Hk1, H2, Hk2.
  split; [|split; [|split]].
  - unfold Dict.mem in H1.
    destruct (Dict.lookup "title" _) as [v|] eqn:E in H1; [|discriminate].
    apply (mem_of_lookup "title" v). rewrite lookup_set_other by distinct_keys.
    now apply Hk2.
  - unfold Dict.mem in H2.
    destruct (Dict.lookup "description" _) as [v|] eqn:E in H2; [|discriminate].
    apply (mem_of_lookup "description" v). now rewrite lookup_set_other by distinct_keys.
  - apply lookup_set_same.
  - intros k v N E. rewrite lookup_set_other by exact N. now apply Hk2, Hk1.
Qed.

(** ** A run of the commit publisher in which nothing fails *)

Section Published.

Import GithubCommitter.

Variable fails : nat -> bool.
Variable open_local : string -> option string.

Lemma stands_for_more (r r' : repository) (file : string * string) (e : tree_element) :
  incl (blobs r) (blobs r') -> stands_for open_local r file e -> stands_for open_local r' file e.
Proof.
  intros Hi (Hp & Hm & Ht & content & Ho & Hin).
  repeat split; try assumption. exists content. split; [exact Ho | now apply Hi].
Qed.

Lemma add_blobs_succeeds (file_paths : list (string * string)) :
  (forall n : nat, fails n = false) ->
  (forall file, In file file_paths -> open_local (snd file) <> None) ->
  forall (tree_list : list tree_element) (w : world),
  exists (made : list tree_element) (w' : world),
    add_blobs fails open_local file_paths tree_list w = (Ok (tree_list ++ made)%list, w')
    /\ Forall2 (stands_for open_local (repo w')) file_paths made
    /\ incl (blobs (repo w)) (blobs (repo w'))
    /\ List.length (blobs (repo w')) = List.length (blobs (repo w)) + List.length file_paths
    /\ trees (repo w') = trees (repo w)
    /\ commits (repo w') = commits (repo w)
    /\ heads_main (repo w') = heads_main (repo w).
Proof.
  intros Hok. induction file_paths as [|[git_path local_path] others IH];
    intros Hopen tree_list w.
  - exists [], w. rewrite app_nil_r. cbn. repeat split; try reflexivity; try lia.
    + constructor.
    + apply incl_refl.
  - cbn [add_blobs]. unfold mbind, ret, raise, create_git_blob, call.
    destruct (open_local local_path) as [content|] eqn:Ho.
    2:{ exfalso. apply (Hopen (git_path, local_path)); [now left | exact Ho]. }
    rewrite Hok.
    match goal with
    | |- context [add_blobs fails open_local others ?tl ?w1] =>
        destruct (IH (fun file Hin => Hopen file (or_intror Hin)) tl w1)
          as (made & w' & E & Hf & Hi & Hl & Ht & Hc & Hh)
    end.
    cbn [repo blobs trees commits heads_main] in Hi, Hl, Ht, Hc, Hh.
    eexists (_ :: made), w'. split; [|split; [|split; [|split; [|split; [|split]]]]].
    + cbn. rewrite E, <- app_assoc. reflexivity.
    + constructor; [|exact Hf].
      repeat split. exists content. split; [exact Ho|].
      apply Hi. apply in_or_app. right. now left.
    + intros x Hx. apply Hi. apply in_or_app. now left.
    + rewrite Hl, length_app. cbn. lia.
    + exact Ht.
    + exact Hc.
    + exact Hh.
Qed.

(** X13.  When no call of the API fails and every local file can be
    opened, [commit_files] returns: it creates one blob per file, one tree
    whose elements stand for the files in their order, each pointing to the
    blob of its file, based on the head it read, and one commit with that
    tree whose parent is the branch head read at construction; [heads/main]
    ends on that commit.  This also holds for an empty mapping, which gives
    a commit of an empty tree. *)
Theorem commit_files_succeeds (self : committer) (commit_msg : string)
    (file_paths : list (string * string)) (w : world) :
  (forall n : nat, fails n = false) ->
  (forall file, In file file_paths -> open_local (snd file) <> None) ->
  exists (w' : world) (entries : list tree_element) (new_tree commit : sha),
    commit_files fails open_local self commit_msg file_paths w = (Ok tt, w')
    /\ Forall2 (stands_for open_local (repo w')) file_paths entries
    /\ List.length (blobs (repo w')) = List.length (blobs (repo w)) + List.length file_paths
    /\ trees (repo w')
       = (trees (repo w)
          ++ [(new_tree, {| tree_entries := entries; base_tree := heads_main (repo w) |})])%list
    /\ commits (repo w')
       = (commits (repo w)
          ++ [(commit, {| message := commit_msg; tree := new_tree;
                          parents := [branch_commit_sha self] |})])%list
    /\ heads_main (repo w') = commit.
Proof.
  intros Hok Hopen.
  unfold commit_files, mbind, get_git_ref, call. rewrite Hok. cbn [repo log].
  match goal with
  | |- context [add_blobs fails open_local file_paths [] ?w1] =>
      destruct (add_blobs_succeeds file_paths Hok Hopen [] w1)
        as (made & w2 & E & Hf & Hi & Hl & Ht & Hc & Hh)
  end.
  cbn [repo blobs trees commits heads_main app] in E, Hi, Hl, Ht, Hc, Hh.
  rewrite E.
  unfold create_commit_and_push.
  unfold get_git_tree, create_git_tree, mbind, get_git_commit, create_git_commit,
    edit_ref, call.
  repeat (rewrite Hok; cbn).
  eexists. exists made. do 2 eexists.
  split; [reflexivity|]. cbn.
  split; [|split; [exact Hl|]].
  - eapply Forall2_impl; [|exact Hf]. intros file e. apply stands_for_more.
    cbn. apply incl_refl.
  - rewrite Ht, Hc. repeat split.
Qed.

End Published.

Lemma commit_files_succeeds_witness :
  exists (w' : GithubCommitter.world) (entries : list GithubCommitter.tree_element),
    GithubCommitter.commit_files (fun _ => false) Samples.local_files
      {| GithubCommitter.branch_commit_sha := 7 |} UpdateFrontmatter.COMMIT_MSG
      Samples.staged_paths Samples.repository
    = (Ok tt, w')
    /\ Forall2 (GithubCommitter.stands_for Samples.local_files (GithubCommitter.repo w'))
         Samples.staged_paths entries
    /\ GithubCommitter.blobs (GithubCommitter.repo w')
       = [(8, GithubCommitter.Utf8Blob "text of the note");
          (9, GithubCommitter.Base64Blob "PNG")]
    /\ map GithubCommitter.te_sha entries = [8; 9]
    /\ GithubCommitter.trees (GithubCommitter.repo w')
       = [(10, {| GithubCommitter.tree_entries := entries; GithubCommitter.base_tree := 7 |})]
    /\ GithubCommitter.heads_main (GithubCommitter.repo w') = 11.
Proof.
  destruct (commit_files_succeeds (fun _ => false) Samples.local_files
              {| GithubCommitter.branch_commit_sha := 7 |} UpdateFrontmatter.COMMIT_MSG
              Samples.staged_paths Samples.repository (fun _ => eq_refl))
    as (w' & entries & new_tree & commit & E & Hf & _ & Ht & _).
  { intros file [<-|[<-|[]]]; discriminate. }
  exists w', entries. split; [exact E|]. split; [exact Hf|].
  vm_compute in E. injection E as <-.
  cbn in Ht. injection Ht as <- <-.
  repeat split.
Defined.

(** ** Where the text of the cover is drawn *)


(** ** Mappings *)

Section AssocFacts.

Context {A : Type}.

Lemma assoc_lookup_set_same (k : string) (v : A) (d : list (string * A)) :
  Assoc.lookup k (Assoc.set k v d) = Some v.
Proof.
  induction d as [|[k' v'] d IH]; simpl.
  - now rewrite String.eqb_refl.
  - destruct (String.eqb k k') eqn:E; simpl; [now rewrite String.eqb_refl | now rewrite E].
Qed.

Lemma assoc_lookup_set_kept (k k0 : string) (v : A) (d : list (string * A)) :
  Assoc.lookup k0 d <> None -> Assoc.lookup k0 (Assoc.set k v d) <> None.
Proof.
  induction d as [|[k' v'] d IH]; simpl; [congruence|].
  destruct (String.eqb_spec k k') as [->|N]; simpl.
  - destruct (String.eqb k0 k'); [discriminate | trivial].
  - destruct (String.eqb k0 k'); [discriminate | exact IH].
Qed.

Lemma assoc_in_set (k : string) (v : A) (d : list (string * A)) (e : string * A) :
  In e (Assoc.set k v d) -> e = (k, v) \/ In e d.
Proof.
  induction d as [|[k' v'] d IH]; simpl.
  - intros [<-|[]]. now left.
  - destruct (String.eqb k k'); simpl.
    + intros [<-|H]; [now left | right; now right].
    + intros [<-|H]; [right; now left|].
      destruct (IH H) as [->|H']; [now left | right; now right].
Qed.

End AssocFacts.

(** ** Methods of the collecting classes *)

Section MethodFacts.

Import Notes Notes.

Lemma steady_ret {A : Type} (a : A) : steady (ret a).
Proof.
  intros self r self' E. inversion E; subst. now repeat split.
Qed.

Lemma steady_lift {A : Type} (r : result A) : steady (lift r).
Proof.
  intros self r' self' E. inversion E; subst. now repeat split.
Qed.

Lemma steady_write_text (path content : string) : steady (write_text path content).
Proof.
  intros self r self' E. inversion E; subst. cbn. repeat split.
  intros p. unfold written. cbn. apply assoc_lookup_set_kept.
Qed.

Lemma steady_mbind {A B : Type} (m : method A) (k : A -> method B) :
  steady m -> (forall a, steady (k a)) -> steady (mbind m k).
Proof.
  intros Hm Hk self r self' E. unfold mbind in E.
  destruct (m self) as [[a|e] self1] eqn:Em.
  - destruct (Hm _ _ _ Em) as (Hp & Hj & Hw).
    destruct (Hk a _ _ _ E) as (Hp' & Hj' & Hw').
    repeat split; [congruence | congruence | auto].
  - inversion E; subst. exact (Hm _ _ _ Em).
Qed.

Lemma written_write_text (path content : string) (self : handler) :
  written (snd (write_text path content self)) path.
Proof.
  unfold written. cbn. now rewrite assoc_lookup_set_same.
Qed.

End MethodFacts.


(** ** The notes of the last commit, in the cover script *)

Lemma flag_raised (flag : bool) (name prefix : string) :
  (if Notes.startswith name prefix then true else flag)
  = flag || Notes.startswith name prefix.
Proof.
  destruct (Notes.startswith name prefix); [now rewrite orb_true_r | now rewrite orb_false_r].
Qed.

Lemma raise_flags_then {A : Type} (name : string) (k : Notes.method A) :
  Notes.steady k ->
  forall (self : Notes.handler) (r : result A) (self' : Notes.handler),
    Notes.mbind (Notes.raise_flags name) (fun _ => k) self = (r, self') ->
    Notes.publish_flag self' = Notes.publish_flag self || Notes.startswith name "publish/"
    /\ Notes.journal_flag self' = Notes.journal_flag self || Notes.startswith name "journal/"
    /\ forall path : string, Notes.written self path -> Notes.written self' path.
Proof.
  intros Hk self r self' E. unfold Notes.mbind, Notes.raise_flags in E.
  destruct (Hk _ _ _ E) as (Hp & Hj & Hw). cbn in Hp, Hj.
  rewrite Hp, Hj, !flag_raised. repeat split. intros path Hpath. now apply Hw.
Qed.

Section CoverCollector.

Import Notes.

Context {L : Libs}.
Variable read_file : file_system.
Variable formatted_date : string.
Variable get_contents : string -> option string.
Variable tmp : string -> string.
Variable draw : string -> option string.

Lemma steady_create_image (title : value) (png_path : string) :
  steady (GitNotesCoverChecker.create_image draw title png_path).
Proof.
  destruct title; try apply steady_lift.
  cbn [GitNotesCoverChecker.create_image].
  apply steady_mbind; [apply steady_lift | intros image; apply steady_write_text].
Qed.

Lemma check_note_unfold (f : note_file) (png_files updated_notes : paths) :
  GitNotesCoverChecker.check_note read_file formatted_date get_contents tmp draw
    f png_files updated_notes
  = mbind (raise_flags (filename f))
      (fun _ => if to_update f
                then GitNotesCoverChecker.check_note_body read_file formatted_date get_contents tmp draw
                       f png_files updated_notes
                else ret (png_files, updated_notes)).
Proof.
  unfold GitNotesCoverChecker.check_note. now destruct (to_update f).
Qed.

Lemma steady_updated (f : note_file) (png_files updated_notes : paths) :
  steady (GitNotesCoverChecker.check_note_body read_file formatted_date get_contents tmp draw
            f png_files updated_notes).
Proof.
  unfold GitNotesCoverChecker.check_note_body.
  apply steady_mbind; [apply steady_lift | intros content].
  apply steady_mbind; [apply steady_lift | intros o].
  apply steady_mbind; [|intros notes].
  - destruct o as [|t p new_content]; [apply steady_ret|].
    destruct (Py.nonempty new_content); [|apply steady_ret].
    apply steady_mbind; [apply steady_write_text | intros; apply steady_ret].
  - apply steady_mbind; [|intros; apply steady_ret].
    destruct (GenerateCoverImages.cover_job o) as [[title png_name]|]; [|apply steady_ret].
    apply steady_mbind; [apply steady_create_image | intros; apply steady_ret].
Qed.

Lemma check_note_flags (f : note_file) (png_files updated_notes : paths)
    (self : handler) (r : result (paths * paths)) (self' : handler) :
  GitNotesCoverChecker.check_note read_file formatted_date get_contents tmp draw
    f png_files updated_notes self = (r, self') ->
  publish_flag self' = publish_flag self || startswith (filename f) "publish/"
  /\ journal_flag self' = journal_flag self || startswith (filename f) "journal/"
  /\ forall path : string, written self path -> written self' path.
Proof.
  rewrite check_note_unfold. apply raise_flags_then.
  destruct (to_update f); [apply steady_updated | apply steady_ret].
Qed.

(** X15.  When the collection returns, a flag is set exactly when it was set
    before or the name of some entry of the commit starts with the prefix:
    every entry counts, also one that is removed or is not a markdown
    file. *)
Theorem flags_after_collection (notes_files : list note_file) (self : handler)
    (dicts : paths * paths) (self' : handler) :
  GitNotesCoverChecker.get_updated_files_png read_file formatted_date get_contents tmp draw
    notes_files self = (Ok dicts, self') ->
  publish_flag self'
  = publish_flag self || existsb (fun f => startswith (filename f) "publish/") notes_files
  /\ journal_flag self'
     = journal_flag self || existsb (fun f => startswith (filename f) "journal/") notes_files.
Proof.
  unfold GitNotesCoverChecker.get_updated_files_png.
  generalize (@nil (string * string)) at 1 as png_files.
  generalize (@nil (string * string)) as updated_notes.
  revert self.
  induction notes_files as [|f others IH]; intros self updated_notes png_files E.
  - inversion E; subst. cbn. now rewrite !orb_false_r.
  - cbn [GitNotesCoverChecker.check_notes] in E. unfold mbind in E.
    destruct (GitNotesCoverChecker.check_note _ _ _ _ _ f png_files updated_notes self)
      as [[d|e] self1] eqn:E1; [|discriminate].
    apply check_note_flags in E1. destruct E1 as (Hp & Hj & _).
    apply IH in E. destruct E as [Hp' Hj'].
    cbn [existsb]. rewrite Hp', Hj', Hp, Hj, !orb_assoc. now split.
Qed.


(** One entry of the commit, when the loop goes on: what is in the mappings
    afterwards was there before or has just been staged and written. *)
Lemma check_note_staged (f : note_file) (png_files updated_notes : paths)
    (self : handler) (png_files' updated_notes' : paths) (self' : handler) :
  GitNotesCoverChecker.check_note read_file formatted_date get_contents tmp draw
    f png_files updated_notes self = (Ok (png_files', updated_notes'), self') ->
  (forall e, In e updated_notes' ->
     In e updated_notes
     \/ (to_update f = true /\ e = (filename f, tmp (filename f))
         /\ written self' (tmp (filename f))))
  /\ (forall e, In e png_files' -> In e png_files \/ GitNotesCoverChecker.staged_cover tmp self' e).
Proof.
  rewrite check_note_unfold. unfold mbind at 1, raise_flags at 1.
  destruct (to_update f) eqn:Hu.
  2:{ intros E. inversion E; subst. split; intros e He; now left. }
  unfold GitNotesCoverChecker.check_note_body. unfold mbind at 1, lift at 1.
  destruct (get_contents (filename f)) as [content|]; cbn [or_raise]; [|discriminate].
  unfold mbind at 1, lift at 1.
  destruct (GenerateCoverImages.update_properties _ _ _ _) as [o|] eqn:Eo; [|discriminate].
  unfold mbind at 1.
  match goal with
  | |- context [match ?m ?s with _ => _ end] =>
      destruct (m s) as [[notes|e] self1] eqn:E1
  end; [|discriminate].
  unfold mbind at 1.
  match goal with
  | |- context [match ?m ?s with _ => _ end] =>
      destruct (m s) as [[pngs|e] self2] eqn:E2
  end; [|discriminate].
  intros E. inversion E; subst; clear E.
  assert (Hgrow : forall path, written self1 path -> written self' path).
  { assert (Hs : steady
                   (match GenerateCoverImages.cover_job o with
                    | Some (title, png_name) =>
                        _ <~ GitNotesCoverChecker.create_image draw title (tmp png_name) ;;
                        ret (Assoc.set (GenerateCoverImages.COVERS_DIR ++ png_name)
                               (tmp png_name) png_files)
                    | None => ret png_files
                    end)).
    { destruct (GenerateCoverImages.cover_job o) as [[title png_name]|]; [|apply steady_ret].
      apply steady_mbind; [apply steady_create_image | intros; apply steady_ret]. }
    exact (proj2 (proj2 (Hs _ _ _ E2))). }
  split.
  - intros e He. destruct o as [|t p new_content].
    + inversion E1; subst. now left.
    + destruct (Py.nonempty new_content).
      * unfold mbind, write_text, ret in E1. inversion E1; subst; clear E1.
        apply assoc_in_set in He. destruct He as [->|He]; [|now left].
        right. split; [reflexivity|]. split; [reflexivity|].
        apply Hgrow. unfold written. cbn. now rewrite assoc_lookup_set_same.
      * inversion E1; subst. now left.
  - intros e He.
    destruct (GenerateCoverImages.cover_job o) as [[title png_name]|] eqn:Ej.
    + destruct (job_of_update _ _ _ _ _ _ _ Eo Ej) as (text & -> & ->).
      unfold mbind at 1 in E2. cbn [GitNotesCoverChecker.create_image] in E2.
      unfold mbind at 1, lift at 1 in E2.
      destruct (draw text) as [image|]; cbn [or_raise] in E2; [|discriminate].
      unfold write_text, ret in E2. inversion E2; subst; clear E2.
      apply assoc_in_set in He. destruct He as [->|He]; [|now left].
      right. exists text. split; [reflexivity|].
      unfold written. cbn. now rewrite assoc_lookup_set_same.
    + inversion E2; subst. now left.
Qed.

Lemma staged_note_more (notes_files : list note_file) (f : note_file)
    (self self' : handler) (e : string * string) :
  (forall path, written self path -> written self' path) ->
  GitNotesCoverChecker.staged_note tmp notes_files self e -> GitNotesCoverChecker.staged_note tmp (f :: notes_files) self' e.
Proof.
  intros Hw (g & Hin & Hu & He & Hg). exists g. repeat split; auto. now right.
Qed.

Lemma staged_cover_more (self self' : handler) (e : string * string) :
  (forall path, written self path -> written self' path) ->
  GitNotesCoverChecker.staged_cover tmp self e -> GitNotesCoverChecker.staged_cover tmp self' e.
Proof.
  intros Hw (text & He & Hg). exists text. split; auto.
Qed.

Lemma check_notes_staged (notes_files : list note_file) :
  forall (png_files updated_notes : paths) (self : handler)
         (png_files' updated_notes' : paths) (self' : handler),
    GitNotesCoverChecker.check_notes read_file formatted_date get_contents tmp draw
      notes_files png_files updated_notes self = (Ok (png_files', updated_notes'), self') ->
    (forall path, written self path -> written self' path)
    /\ (forall e, In e updated_notes' ->
          In e updated_notes \/ GitNotesCoverChecker.staged_note tmp notes_files self' e)
    /\ (forall e, In e png_files' -> In e png_files \/ GitNotesCoverChecker.staged_cover tmp self' e).
Proof.
  induction notes_files as [|f others IH];
    intros png_files updated_notes self png_files' updated_notes' self' E.
  - inversion E; subst. repeat split; auto.
  - cbn [GitNotesCoverChecker.check_notes] in E. unfold mbind in E.
    destruct (GitNotesCoverChecker.check_note _ _ _ _ _ f png_files updated_notes self)
      as [[[pngs notes]|e] self1] eqn:E1; [|discriminate].
    pose proof (check_note_flags _ _ _ _ _ _ E1) as (_ & _ & Hw1).
    apply check_note_staged in E1. destruct E1 as [Hn1 Hp1].
    cbn [fst snd] in E. apply IH in E. destruct E as (Hw & Hn & Hp).
    split; [auto|]. split.
    + intros e He. destruct (Hn e He) as [H|H].
      * destruct (Hn1 e H) as [H1|(Hu & -> & Hwr)]; [now left|].
        right. exists f. repeat split; auto. now left.
      * right. now apply (staged_note_more others f self').
    + intros e He. destruct (Hp e He) as [H|H]; [|now right].
      destruct (Hp1 e H) as [H1|H1]; [now left|].
      right. now apply (staged_cover_more self1).
Qed.

(** X16.  When the collection returns, every entry of the mapping of the
    notes is the name of an entry of the commit that ends in [.md] and is not
    removed, renamed or deleted, with its scratch path; every entry of the
    mapping of the images is a slug followed by [.png] under [COVERS_DIR],
    with its scratch path; and every one of these scratch paths has been
    written, so that the committer can open it. *)
Theorem collection_is_staged (notes_files : list note_file) (self : handler)
    (png_files updated_notes : paths) (self' : handler) :
  GitNotesCoverChecker.get_updated_files_png read_file formatted_date get_contents tmp draw
    notes_files self = (Ok (png_files, updated_notes), self') ->
  Forall (GitNotesCoverChecker.staged_note tmp notes_files self') updated_notes
  /\ Forall (GitNotesCoverChecker.staged_cover tmp self') png_files.
Proof.
  intros E. apply check_notes_staged in E. destruct E as (_ & Hn & Hp).
  split; apply Forall_forall; intros e He.
  - destruct (Hn e He) as [[]|H]; exact H.
  - destruct (Hp e He) as [[]|H]; exact H.
Qed.

End CoverCollector.

(** ** How the commit publisher ends *)

Section Endings.

Import GithubCommitter.

Variable fails : nat -> bool.
Variable open_local : string -> option string.

Lemma add_blobs_raises (file_paths : list (string * string)) :
  forall (tree_list : list tree_element) (w : world) (e : exn) (w' : world),
    add_blobs fails open_local file_paths tree_list w = (Raise e, w') ->
    publisher_error open_local file_paths e.
Proof.
  induction file_paths as [|[git_path local_path] others IH]; intros tree_list w e w' E.
  - discriminate E.
  - cbn [add_blobs] in E. unfold mbind, ret, raise, create_git_blob, call in E.
    destruct (open_local local_path) as [content|] eqn:Ho.
    + destruct (fails (List.length (log w))).
      * inversion E; subst. now left.
      * apply IH in E. destruct E as [->|(-> & file & Hin & Hf)]; [now left|].
        right. split; [reflexivity|]. exists file. split; [now right | exact Hf].
    + inversion E; subst. right. split; [reflexivity|].
      exists (git_path, local_path). split; [now left | exact Ho].
Qed.

Ltac api_failed E Hb :=
  inversion E; subst; clear E; cbn; split; [exact Hb | now left].

(** Every run of [commit_files]: it returns with one more commit, on which
    [heads/main] ends, or it raises with [heads/main] where it was. *)
Lemma commit_files_cases (self : committer) (commit_msg : string)
    (file_paths : list (string * string)) (w : world) (r : result unit) (w' : world) :
  commit_files fails open_local self commit_msg file_paths w = (r, w') ->
  match r with
  | Ok _ =>
      exists c : sha * git_commit,
        commits (repo w') = (commits (repo w) ++ [c])%list
        /\ heads_main (repo w') = fst c
        /\ message (snd c) = commit_msg
        /\ parents (snd c) = [branch_commit_sha self]
  | Raise e =>
      heads_main (repo w') = heads_main (repo w) /\ publisher_error open_local file_paths e
  end.
Proof.
  intros E. unfold commit_files, mbind in E. unfold get_git_ref, call in E.
  destruct (fails (List.length (log w))).
  { inversion E; subst. cbn. split; [reflexivity | now left]. }
  cbn in E.
  destruct (add_blobs _ _ _ _ _) as [made w1] eqn:Eb in E.
  pose proof Eb as Es. apply add_blobs_spec in Es.
  destruct Es as (bt & _ & _ & _ & Cb & Hb & _). cbn in Cb, Hb.
  destruct made as [made|e].
  2:{ inversion E; subst. split; [exact Hb | now apply add_blobs_raises in Eb]. }
  unfold create_commit_and_push in E.
  unfold get_git_tree, create_git_tree, mbind, get_git_commit, create_git_commit,
    edit_ref, call in E.
  destruct (fails _) in E; [api_failed E Hb|]. cbn in E.
  destruct (fails _) in E; [api_failed E Hb|]. cbn in E.
  destruct (fails _) in E; [api_failed E Hb|]. cbn in E.
  destruct (fails _) in E; [api_failed E Hb|]. cbn in E.
  destruct (fails _) in E; [api_failed E Hb|]. cbn in E.
  destruct (fails _) in E; [api_failed E Hb|].
  inversion E; subst; clear E. cbn. rewrite Cb.
  eexists (_, _). cbn. repeat split.
Qed.

(** X17.  [commit_files] ends in one of three ways.  It returns, with one
    more commit that carries the commit message and has the branch head of
    the construction as its parent, and [heads/main] on it.  Or it raises
    the error of a failed call of the API, or the error of a local file of
    the mapping that cannot be opened; in both cases [heads/main] is where it
    was. *)
Theorem commit_files_endings (self : committer) (commit_msg : string)
    (file_paths : list (string * string)) (w : world) (r : result unit) (w' : world) :
  commit_files fails open_local self commit_msg file_paths w = (r, w') ->
  (r = Ok tt
   /\ exists c : sha * git_commit,
        commits (repo w') = (commits (repo w) ++ [c])%list
        /\ heads_main (repo w') = fst c
        /\ message (snd c) = commit_msg
        /\ parents (snd c) = [branch_commit_sha self])
  \/ (heads_main (repo w') = heads_main (repo w)
      /\ (r = Raise TransportError
          \/ (r = Raise OSError
              /\ exists file, In file file_paths /\ open_local (snd file) = None))).
Proof.
  intros E. apply commit_files_cases in E.
  destruct r as [[]|e].
  - left. split; [reflexivity | exact E].
  - right. destruct E as [Hh [->|(-> & Hf)]]; (split; [exact Hh|]); [now left | now right].
Qed.

End Endings.

Lemma commit_files_endings_witness :
  let w0 := {| GithubCommitter.repo :=
                 {| GithubCommitter.blobs := []; GithubCommitter.trees := [];
                    GithubCommitter.commits := []; GithubCommitter.heads_main := 7;
                    GithubCommitter.next_sha := 8 |};
               GithubCommitter.log := [] |} in
  let run := GithubCommitter.commit_files (fun _ => false) (fun _ => None)
               {| GithubCommitter.branch_commit_sha := 7 |} GenerateCoverImages.COMMIT_MSG
               [("public/assets/blog/covers/post.png", "/tmp/scratch/post.png")] w0 in
  fst run = Raise OSError
  /\ GithubCommitter.heads_main (GithubCommitter.repo (snd run)) = 7.
Proof.
  intros w0 run.
  destruct (commit_files_endings (fun _ => false) (fun _ => None)
              {| GithubCommitter.branch_commit_sha := 7 |} GenerateCoverImages.COMMIT_MSG
              [("public/assets/blog/covers/post.png", "/tmp/scratch/post.png")]
              w0 (fst run) (snd run) eq_refl)
    as [[E _]|[Hh _]].
  - vm_compute in E. discriminate E.
  - split; [reflexivity | exact Hh].
Defined.

(** ** The run of the cover script *)

Section CoverRun.

Import Notes.

Context {L : Libs}.
Variable read_file : file_system.
Variable formatted_date : string.
Variable get_contents : string -> option string.
Variable tmp : string -> string.
Variable draw : string -> option string.
Variable publish_time : string.
Variable journal_time : string.

Lemma add_triggers_written (time trigger_file : string) (files_dict png_dict : paths)
    (self : handler) (files_dict' : paths) (self' : handler) :
  GitNotesCoverChecker.add_triggers get_contents tmp time trigger_file files_dict png_dict self
  = (Ok files_dict', self') ->
  (forall path, written self path -> written self' path)
  /\ (forall e, In e files_dict' ->
        In e files_dict \/ (e = (trigger_file, tmp trigger_file)
                            /\ written self' (tmp trigger_file))).
Proof.
  unfold GitNotesCoverChecker.add_triggers. unfold mbind at 1, lift at 1.
  destruct (GitNotesCoverChecker.update_trigger_file _ _ _ _) as [content|];
    [|discriminate].
  unfold mbind, write_text, ret. intros E. inversion E; subst; clear E.
  split.
  - intros path. unfold written. cbn. apply assoc_lookup_set_kept.
  - intros e He. apply assoc_in_set in He. destruct He as [->|He]; [|now left].
    right. split; [reflexivity|]. unfold written. cbn. now rewrite assoc_lookup_set_same.
Qed.

(** Whatever is handed to the committers has been written. *)
Lemma staged_written (notes_files : list note_file) (self : handler)
    (dicts : paths * paths) (self' : handler) :
  GitNotesCoverChecker.staged read_file formatted_date get_contents tmp draw
    publish_time journal_time notes_files self = (Ok dicts, self') ->
  forall e, In e (fst dicts ++ snd dicts)%list -> written self' (snd e).
Proof.
  unfold GitNotesCoverChecker.staged. unfold mbind at 1.
  destruct (GitNotesCoverChecker.get_updated_files_png _ _ _ _ _ notes_files self)
    as [[[png upd]|e1] self1] eqn:E1; [|discriminate].
  unfold GitNotesCoverChecker.get_updated_files_png in E1.
  apply check_notes_staged in E1. destruct E1 as (_ & Hn & Hp). cbn [fst snd].
  assert (H1 : forall e, In e (png ++ upd)%list -> written self1 (snd e)).
  { intros e He. apply in_app_or in He. destruct He as [He|He].
    - destruct (Hp e He) as [[]|(text & -> & Hw)]. exact Hw.
    - destruct (Hn e He) as [[]|(f & _ & _ & -> & Hw)]. exact Hw. }
  clear Hn Hp. unfold mbind at 1.
  assert (Hstep : forall time trigger (flag : handler -> bool) files s files' s',
             (forall e, In e (png ++ files)%list -> written s (snd e)) ->
             (if flag s
              then GitNotesCoverChecker.add_triggers get_contents tmp time trigger files png s
              else ret files s) = (Ok files', s') ->
             forall e, In e (png ++ files')%list -> written s' (snd e)).
  { intros time trigger flag files s files' s' Hall E e He.
    destruct (flag s).
    - apply add_triggers_written in E. destruct E as [Hw Hin].
      apply in_app_or in He. destruct He as [He|He].
      + apply Hw, Hall, in_or_app. now left.
      + destruct (Hin e He) as [H|[-> H]]; [|exact H].
        apply Hw, Hall, in_or_app. now right.
    - inversion E; subst. now apply Hall. }
  match goal with
  | |- context [match (if ?c then ?a else ?b) with _ => _ end] =>
      destruct (if c then a else b) as [[upd2|e2] self2] eqn:E2
  end; [|discriminate].
  pose proof (Hstep _ _ publish_flag _ _ _ _ H1 E2) as H2.
  unfold mbind at 1.
  match goal with
  | |- context [match (if ?c then ?a else ?b) with _ => _ end] =>
      destruct (if c then a else b) as [[upd3|e3] self3] eqn:E3
  end; [|discriminate].
  pose proof (Hstep _ _ journal_flag _ _ _ _ H2 E3) as H3.
  intros E. inversion E; subst. exact H3.
Qed.

End CoverRun.

Section CoverCommits.

Import GithubCommitter.

Context {L : Libs}.
Variable read_file : file_system.
Variable formatted_date : string.
Variable get_contents : string -> option string.
Variable tmp : string -> string.
Variable draw : string -> option string.
Variable publish_time : string.
Variable journal_time : string.
Variable covers_fails : nat -> bool.
Variable notes_fails : nat -> bool.

(** The construction of a committer and its commit: see [commit_files]. *)
Lemma publish_cases (fails : nat -> bool) (self : Notes.handler) (commit_msg : string)
    (file_paths : Notes.paths) (w : world) (r : result unit) (w' : world) :
  (forall e, In e file_paths -> Notes.written self (snd e)) ->
  GitNotesCoverChecker.publish fails self commit_msg file_paths w = (r, w') ->
  (r = Ok tt
   /\ exists c : sha * git_commit,
        commits (repo w') = (commits (repo w) ++ [c])%list
        /\ heads_main (repo w') = fst c
        /\ parents (snd c) = [heads_main (repo w)])
  \/ (r = Raise TransportError /\ heads_main (repo w') = heads_main (repo w)).
Proof.
  intros Hall. unfold GitNotesCoverChecker.publish, GithubCommitter.mbind, init,
    get_branch, GithubCommitter.mbind, call, GithubCommitter.ret.
  destruct (fails (List.length (log w))).
  { intros E. inversion E; subst. right. now split. }
  cbn. intros E. apply commit_files_cases in E. cbn in E.
  destruct r as [[]|e].
  - left. split; [reflexivity|]. destruct E as (c & Hc & Hh & _ & Hp). now exists c.
  - right. destruct E as [Hh [->|(_ & file & Hin & Hnone)]]; [now split|].
    exfalso. exact (Hall file Hin Hnone).
Qed.

(** X18.  A run of the cover script.  When the collection or a trigger file
    raises, nothing is committed.  Otherwise the commits can only fail by a
    call of the API, never by a file that is missing in the scratch
    directory: either the run returns, the notes have one more commit on
    top of their head, and so have the covers when an image was staged while
    they are untouched when none was; or it raises the error of the API and
    the head of the notes is where it was. *)
Theorem run_cover_checker_commits (notes_files : list Notes.note_file) (self : Notes.handler)
    (repo_covers repo_notes : world) (r : result unit) (self' : Notes.handler)
    (repo_covers' repo_notes' : world) :
  GitNotesCoverChecker.run_cover_checker read_file formatted_date get_contents tmp draw
    publish_time journal_time covers_fails notes_fails
    notes_files self repo_covers repo_notes = (r, self', repo_covers', repo_notes') ->
  match GitNotesCoverChecker.staged read_file formatted_date get_contents tmp draw
          publish_time journal_time notes_files self with
  | (Raise e, _) => r = Raise e /\ repo_covers' = repo_covers /\ repo_notes' = repo_notes
  | (Ok dicts, _) =>
      (r = Ok tt
       /\ advanced repo_notes repo_notes'
       /\ match fst dicts with
          | [] => repo_covers' = repo_covers
          | _ :: _ => advanced repo_covers repo_covers'
          end)
      \/ (r = Raise TransportError
          /\ heads_main (repo repo_notes') = heads_main (repo repo_notes))
  end.
Proof.
  unfold GitNotesCoverChecker.run_cover_checker.
  destruct (GitNotesCoverChecker.staged _ _ _ _ _ _ _ notes_files self)
    as [[dicts|e] self1] eqn:Es.
  2:{ intros E. inversion E; subst. now repeat split. }
  pose proof (staged_written _ _ _ _ _ _ _ _ _ _ _ Es) as Hall.
  unfold GitNotesCoverChecker.commit_staged.
  destruct dicts as [png upd]. cbn [fst snd] in *.
  assert (Hpng : forall e, In e png -> Notes.written self1 (snd e))
    by (intros e He; apply Hall, in_or_app; now left).
  assert (Hupd : forall e, In e upd -> Notes.written self1 (snd e))
    by (intros e He; apply Hall, in_or_app; now right).
  destruct png as [|p png].
  - destruct (GitNotesCoverChecker.publish notes_fails self1 _ upd repo_notes)
      as [r2 w2] eqn:E2.
    intros E. inversion E; subst; clear E.
    destruct (publish_cases _ _ _ _ _ _ _ Hupd E2) as [[-> Hc]|[-> Hh]].
    + left. now repeat split.
    + right. now split.
  - destruct (GitNotesCoverChecker.publish covers_fails self1 _ (p :: png) repo_covers)
      as [r1 w1] eqn:E1.
    destruct (publish_cases _ _ _ _ _ _ _ Hpng E1) as [[-> Hc1]|[-> Hh1]].
    + destruct (GitNotesCoverChecker.publish notes_fails self1 _ upd repo_notes)
        as [r2 w2] eqn:E2.
      intros E. inversion E; subst; clear E.
      destruct (publish_cases _ _ _ _ _ _ _ Hupd E2) as [[-> Hc]|[-> Hh]].
      * left. now repeat split.
      * right. now split.
    + intros E. inversion E; subst. right. now split.
Qed.

End CoverCommits.

(** ** The notes of the last commit, in the front-matter script *)

Section AssocLookup.

Context {A : Type}.

Lemma assoc_lookup_set_other (k k0 : string) (v : A) (d : list (string * A)) :
  k0 <> k -> Assoc.lookup k0 (Assoc.set k v d) = Assoc.lookup k0 d.
Proof.
  intros N. induction d as [|[k' v'] d IH]; simpl.
  - destruct (String.eqb_spec k0 k); [contradiction | reflexivity].
  - destruct (String.eqb_spec k k') as [->|N']; simpl.
    + destruct (String.eqb_spec k0 k'); [contradiction | reflexivity].
    + destruct (String.eqb k0 k'); [reflexivity | exact IH].
Qed.

Lemma assoc_lookup_absent (k : string) (d : list (string * A)) :
  (forall e, In e d -> fst e <> k) -> Assoc.lookup k d = None.
Proof.
  induction d as [|[k' v'] d IH]; intros H; simpl; [reflexivity|].
  destruct (String.eqb_spec k k') as [->|N].
  - exfalso. apply (H (k', v')); [now left | reflexivity].
  - apply IH. intros e He. apply H. now right.
Qed.

End AssocLookup.

Lemma trigger_is_no_note (f : Notes.note_file) :
  Notes.to_update f = true ->
  Notes.filename f <> Notes.PUBLISH_TRIGGER_FILE
  /\ Notes.filename f <> Notes.JOURNAL_TRIGGER_FILE.
Proof.
  unfold Notes.to_update. intros Hu.
  split; intros Heq; rewrite Heq in Hu; vm_compute in Hu; discriminate Hu.
Qed.

Section FrontMatterCollector.

Import Notes.

Context {L : Libs}.
Variable read_file : file_system.
Variable current_date : string.
Variable get_contents : string -> option string.
Variable tmp : string -> string.

Lemma handler_check_note (f : note_file) (updated_notes : paths)
    (self : handler) (updated_notes' : paths) (self' : handler) :
  GitNotesFrontMatterHandler.check_note read_file current_date get_contents tmp
    f updated_notes self = (Ok updated_notes', self') ->
  publish_flag self' = publish_flag self || startswith (filename f) "publish/"
  /\ journal_flag self' = journal_flag self || startswith (filename f) "journal/"
  /\ (forall path : string, written self path -> written self' path)
  /\ (forall e, In e updated_notes' ->
        In e updated_notes
        \/ (to_update f = true /\ e = (filename f, tmp (filename f))
            /\ written self' (tmp (filename f)))).
Proof.
  unfold GitNotesFrontMatterHandler.check_note. destruct (to_update f) eqn:Hu.
  2:{ intros E. pose proof (raise_flags_then _ _ (steady_ret _) _ _ _ E) as (Hp & Hj & Hw).
      unfold mbind, raise_flags, ret in E. inversion E; subst.
      repeat split; auto. }
  intros E.
  match type of E with
  | mbind _ (fun _ => ?k) _ = _ => assert (Hs : steady k)
  end.
  { apply steady_mbind; [apply steady_lift | intros content].
    apply steady_mbind; [apply steady_lift | intros new_content].
    destruct (Py.nonempty new_content); [|apply steady_ret].
    apply steady_mbind; [apply steady_write_text | intros; apply steady_ret]. }
  pose proof (raise_flags_then _ _ Hs _ _ _ E) as (Hp & Hj & Hw).
  split; [exact Hp|]. split; [exact Hj|]. split; [exact Hw|].
  clear Hs Hp Hj Hw. revert E.
  unfold mbind at 1, raise_flags at 1. unfold mbind at 1, lift at 1.
  destruct (get_contents (filename f)) as [content|]; cbn [or_raise]; [|discriminate].
  unfold mbind at 1, lift at 1.
  destruct (UpdateFrontmatter.update_properties _ _ _ _) as [new_content|]; [|discriminate].
  destruct (Py.nonempty new_content).
  - unfold mbind, write_text, ret. intros E. inversion E; subst; clear E.
    intros e He. apply assoc_in_set in He. destruct He as [->|He]; [|now left].
    right. split; [reflexivity|]. split; [reflexivity|].
    unfold written. cbn. now rewrite assoc_lookup_set_same.
  - intros E. inversion E; subst. intros e He. now left.
Qed.

Lemma handler_check_notes (notes_files : list note_file) :
  forall (updated_notes : paths) (self : handler) (updated_notes' : paths) (self' : handler),
    GitNotesFrontMatterHandler.check_notes read_file current_date get_contents tmp
      notes_files updated_notes self = (Ok updated_notes', self') ->
    publish_flag self'
    = publish_flag self || existsb (fun f => startswith (filename f) "publish/") notes_files
    /\ journal_flag self'
       = journal_flag self || existsb (fun f => startswith (filename f) "journal/") notes_files
    /\ (forall path : string, written self path -> written self' path)
    /\ (forall e, In e updated_notes' ->
          In e updated_notes \/ GitNotesCoverChecker.staged_note tmp notes_files self' e).
Proof.
  induction notes_files as [|f others IH]; intros updated_notes self updated_notes' self' E.
  - inversion E; subst. cbn. rewrite !orb_false_r. repeat split; auto.
  - cbn [GitNotesFrontMatterHandler.check_notes] in E. unfold mbind in E.
    destruct (GitNotesFrontMatterHandler.check_note _ _ _ _ f updated_notes self)
      as [[notes|e] self1] eqn:E1; [|discriminate].
    apply handler_check_note in E1. destruct E1 as (Hp1 & Hj1 & Hw1 & Hn1).
    apply IH in E. destruct E as (Hp & Hj & Hw & Hn).
    cbn [existsb]. rewrite Hp, Hj, Hp1, Hj1, !orb_assoc.
    split; [reflexivity|]. split; [reflexivity|]. split; [auto|].
    intros e He. destruct (Hn e He) as [H|H].
    + destruct (Hn1 e H) as [H1|(Hu & -> & Hwr)]; [now left|].
      right. exists f. repeat split; auto. now left.
    + right. now apply (staged_note_more tmp others f self').
Qed.

(** The trigger files are no notes: they are not in the mapping that
    [get_updated_files] returns. *)
Lemma handler_no_trigger (notes_files : list note_file) (self : handler)
    (updated_notes : paths) (self' : handler) :
  GitNotesFrontMatterHandler.get_updated_files read_file current_date get_contents tmp
    notes_files self = (Ok updated_notes, self') ->
  Assoc.lookup PUBLISH_TRIGGER_FILE updated_notes = None
  /\ Assoc.lookup JOURNAL_TRIGGER_FILE updated_notes = None.
Proof.
  intros E. apply handler_check_notes in E. destruct E as (_ & _ & _ & Hn).
  split; apply assoc_lookup_absent; intros e He;
    destruct (Hn e He) as [[]|(f & _ & Hu & -> & _)];
    apply trigger_is_no_note in Hu; cbn [fst]; tauto.
Qed.

Variable publish_time : string.
Variable journal_time : string.

Lemma add_triggers_fresh (time trigger_file : string) (files_dict : paths)
    (self : handler) :
  Assoc.lookup trigger_file files_dict = None ->
  GitNotesFrontMatterHandler.add_triggers tmp time trigger_file files_dict self
  = (Ok (Assoc.set trigger_file (tmp trigger_file) files_dict),
     {| publish_flag := publish_flag self;
        journal_flag := journal_flag self;
        scratch :=
          Assoc.set (tmp trigger_file)
            (GitNotesFrontMatterHandler.generate_trigger_file_content time)
            (scratch self) |}).
Proof.
  intros H. unfold GitNotesFrontMatterHandler.add_triggers, Assoc.mem. now rewrite H.
Qed.

(** What [run_cover_checker] hands to the committer: the notes, and for each
    flag that is set the trigger file, written with its one line. *)
Lemma handler_staged (notes_files : list note_file) (self : handler)
    (files : paths) (self' : handler) :
  GitNotesFrontMatterHandler.staged read_file current_date get_contents tmp
    publish_time journal_time notes_files self = (Ok files, self') ->
  exists (updated_notes : paths) (self1 : handler),
    GitNotesFrontMatterHandler.get_updated_files read_file current_date get_contents tmp
      notes_files self = (Ok updated_notes, self1)
    /\ publish_flag self' = publish_flag self1
    /\ journal_flag self' = journal_flag self1
    /\ files
       = (if journal_flag self1
          then Assoc.set JOURNAL_TRIGGER_FILE (tmp JOURNAL_TRIGGER_FILE)
          else fun d => d)
           ((if publish_flag self1
             then Assoc.set PUBLISH_TRIGGER_FILE (tmp PUBLISH_TRIGGER_FILE)
             else fun d => d) updated_notes)
    /\ scratch self'
       = (if journal_flag self1
          then Assoc.set (tmp JOURNAL_TRIGGER_FILE)
                 (GitNotesFrontMatterHandler.generate_trigger_file_content journal_time)
          else fun d => d)
           ((if publish_flag self1
             then Assoc.set (tmp PUBLISH_TRIGGER_FILE)
                    (GitNotesFrontMatterHandler.generate_trigger_file_content publish_time)
             else fun d => d) (scratch self1)).
Proof.
  unfold GitNotesFrontMatterHandler.staged. unfold mbind at 1.
  destruct (GitNotesFrontMatterHandler.get_updated_files _ _ _ _ notes_files self)
    as [[notes|e1] self1] eqn:E1; [|discriminate].
  destruct (handler_no_trigger _ _ _ _ E1) as [Hpub Hjou].
  intros E. exists notes, self1. split; [reflexivity|]. revert E.
  unfold mbind at 1. destruct (publish_flag self1) eqn:Fp.
  - rewrite (add_triggers_fresh _ _ _ _ Hpub).
    unfold mbind at 1. cbn [journal_flag]. destruct (journal_flag self1) eqn:Fj.
    + rewrite add_triggers_fresh
        by (rewrite assoc_lookup_set_other; [exact Hjou | discriminate]).
      unfold ret. intros E. inversion E; subst; clear E. cbn. now repeat split.
    + unfold ret. intros E. inversion E; subst; clear E. cbn. now repeat split.
  - unfold ret at 1. unfold mbind at 1. destruct (journal_flag self1) eqn:Fj.
    + rewrite (add_triggers_fresh _ _ _ _ Hjou).
      unfold ret. intros E. inversion E; subst; clear E. cbn. now repeat split.
    + unfold ret. intros E. inversion E; subst; clear E. now repeat split.
Qed.

(** X19.  The trigger files of the front-matter run.  A trigger file is in
    the mapping that is committed exactly when its flag is set, that is when
    the flag was set before or the name of some entry of the commit starts
    with the prefix; the test [trigger_file in files_dict] never holds, since
    the notes end in [.md]; and the file that is committed is the one line of
    [generate_trigger_file_content], not the content the repository had. *)
Theorem front_matter_triggers (notes_files : list note_file) (self : handler)
    (files : paths) (self' : handler) :
  tmp PUBLISH_TRIGGER_FILE <> tmp JOURNAL_TRIGGER_FILE ->
  GitNotesFrontMatterHandler.staged read_file current_date get_contents tmp
    publish_time journal_time notes_files self = (Ok files, self') ->
  let publish :=
    publish_flag self || existsb (fun f => startswith (filename f) "publish/") notes_files in
  let journal :=
    journal_flag self || existsb (fun f => startswith (filename f) "journal/") notes_files in
  Assoc.lookup PUBLISH_TRIGGER_FILE files
  = (if publish then Some (tmp PUBLISH_TRIGGER_FILE) else None)
  /\ Assoc.lookup JOURNAL_TRIGGER_FILE files
     = (if journal then Some (tmp JOURNAL_TRIGGER_FILE) else None)
  /\ (publish = true ->
      Assoc.lookup (tmp PUBLISH_TRIGGER_FILE) (scratch self')
      = Some (GitNotesFrontMatterHandler.generate_trigger_file_content publish_time))
  /\ (journal = true ->
      Assoc.lookup (tmp JOURNAL_TRIGGER_FILE) (scratch self')
      = Some (GitNotesFrontMatterHandler.generate_trigger_file_content journal_time)).
Proof.
  intros Htmp E publish journal.
  apply handler_staged in E.
  destruct E as (notes & self1 & E1 & _ & _ & -> & ->).
  destruct (handler_no_trigger _ _ _ _ E1) as [Hpub Hjou].
  apply handler_check_notes in E1. destruct E1 as (Hp & Hj & _ & _).
  fold publish in Hp. fold journal in Hj. rewrite Hp, Hj.
  assert (Npj : PUBLISH_TRIGGER_FILE <> JOURNAL_TRIGGER_FILE) by discriminate.
  assert (Njp : JOURNAL_TRIGGER_FILE <> PUBLISH_TRIGGER_FILE) by discriminate.
  destruct publish, journal;
    rewrite ?(assoc_lookup_set_other _ _ _ _ Npj), ?(assoc_lookup_set_other _ _ _ _ Njp),
      ?(assoc_lookup_set_other _ _ _ _ Htmp), ?assoc_lookup_set_same;
    repeat split; try discriminate; auto.
Qed.

(** Whatever is handed to the committer has been written. *)
Lemma handler_staged_written (notes_files : list note_file) (self : handler)
    (files : paths) (self' : handler) :
  GitNotesFrontMatterHandler.staged read_file current_date get_contents tmp
    publish_time journal_time notes_files self = (Ok files, self') ->
  forall e, In e files -> written self' (snd e).
Proof.
  intros E. apply handler_staged in E.
  destruct E as (notes & self1 & E1 & _ & _ & -> & Hs).
  apply handler_check_notes in E1. destruct E1 as (_ & _ & _ & Hn).
  unfold written. rewrite Hs. clear Hs.
  assert (Hnotes : forall e, In e notes -> Assoc.lookup (snd e) (scratch self1) <> None).
  { intros e He. destruct (Hn e He) as [[]|(f & _ & _ & -> & Hw)]. exact Hw. }
  clear Hn.
  assert (Hstep : forall (flag : bool) (time trigger : string) (d : paths)
                         (s : list (string * string)),
             (forall e, In e d -> Assoc.lookup (snd e) s <> None) ->
             forall e,
               In e ((if flag then Assoc.set trigger (tmp trigger) else fun d => d) d) ->
               Assoc.lookup (snd e)
                 ((if flag
                   then Assoc.set (tmp trigger)
                          (GitNotesFrontMatterHandler.generate_trigger_file_content time)
                   else fun d => d) s) <> None).
  { intros flag time trigger d s Hd e He. destruct flag; [|now apply Hd].
    apply assoc_in_set in He. destruct He as [->|He].
    - cbn [snd]. now rewrite assoc_lookup_set_same.
    - now apply assoc_lookup_set_kept, Hd. }
  intros e He. revert e He. apply Hstep. apply Hstep. exact Hnotes.
Qed.

End FrontMatterCollector.

Section FrontMatterRun.

Import GithubCommitter.

Context {L : Libs}.
Variable read_file : file_system.
Variable current_date : string.
Variable get_contents : string -> option string.
Variable tmp : string -> string.
Variable publish_time : string.
Variable journal_time : string.
Variable notes_fails : nat -> bool.

(** X20.  A run of the front-matter script.  When the collection raises,
    nothing is committed.  Otherwise the commit can only fail by a call of
    the API: either the run returns and the notes have one more commit, with
    the message of the script, on top of their head, also when no note and
    no trigger file is in the mapping; or it raises the error of the API and
    the head of the notes is where it was. *)
Theorem front_matter_run_commits (notes_files : list Notes.note_file)
    (self : Notes.handler) (repo_notes : world) (r : result unit)
    (self' : Notes.handler) (repo_notes' : world) :
  GitNotesFrontMatterHandler.run_cover_checker read_file current_date get_contents tmp
    publish_time journal_time notes_fails notes_files self repo_notes
  = (r, self', repo_notes') ->
  match GitNotesFrontMatterHandler.staged read_file current_date get_contents tmp
          publish_time journal_time notes_files self with
  | (Raise e, _) => r = Raise e /\ repo_notes' = repo_notes
  | (Ok _, _) =>
      (r = Ok tt
       /\ exists c : sha * git_commit,
            commits (repo repo_notes') = (commits (repo repo_notes) ++ [c])%list
            /\ heads_main (repo repo_notes') = fst c
            /\ message (snd c) = UpdateFrontmatter.COMMIT_MSG
            /\ parents (snd c) = [heads_main (repo repo_notes)])
      \/ (r = Raise TransportError
          /\ heads_main (repo repo_notes') = heads_main (repo repo_notes))
  end.
Proof.
  unfold GitNotesFrontMatterHandler.run_cover_checker.
  destruct (GitNotesFrontMatterHandler.staged _ _ _ _ _ _ notes_files self)
    as [[files|e] self1] eqn:Es.
  2:{ intros E. inversion E; subst. now split. }
  pose proof (handler_staged_written _ _ _ _ _ _ _ _ _ _ Es) as Hall.
  destruct (GitNotesFrontMatterHandler.commit_staged notes_fails self1 files repo_notes)
    as [r1 w1] eqn:E1.
  intros E. inversion E; subst; clear E.
  revert E1.
  unfold GitNotesFrontMatterHandler.commit_staged, GithubCommitter.mbind, init,
    get_branch, GithubCommitter.mbind, call, GithubCommitter.ret.
  destruct (notes_fails (List.length (log repo_notes))).
  { intros E. inversion E; subst. right. now split. }
  cbn. intros E. apply commit_files_cases in E. cbn in E.
  destruct r as [[]|e].
  - left. split; [reflexivity|]. exact E.
  - right. destruct E as [Hh [->|(_ & file & Hin & Hnone)]]; [now split|].
    exfalso. exact (Hall file Hin Hnone).
Qed.

End FrontMatterRun.

(** ** One run on a sample commit *)

Lemma flags_after_collection_witness :
  match @GitNotesCoverChecker.get_updated_files_png Standin.libs Standin.no_files
          Samples.today Samples.remote Samples.tmp Samples.draw
          Samples.notes_files Samples.fresh with
  | (Ok _, self') =>
      Notes.publish_flag self' = true /\ Notes.journal_flag self' = true
  | (Raise _, _) => False
  end.
Proof.
  destruct (@GitNotesCoverChecker.get_updated_files_png _ _ _ _ _ _ _ _)
    as [[dicts|e] self'] eqn:E; [|vm_compute in E; discriminate E].
  destruct (@flags_after_collection Standin.libs Standin.no_files Samples.today
              Samples.remote Samples.tmp Samples.draw Samples.notes_files Samples.fresh
              dicts self' E) as [Hp Hj].
  rewrite Hp, Hj. split; reflexivity.
Defined.

Lemma collection_is_staged_witness :
  match @GitNotesCoverChecker.get_updated_files_png Standin.libs Standin.no_files
          Samples.today Samples.remote Samples.tmp Samples.draw
          Samples.notes_files Samples.fresh with
  | (Ok (png_files, updated_notes), self') =>
      updated_notes = [("publish/post.md", "/tmp/scratch/publish/post.md")]
      /\ png_files = [("public/assets/blog/covers/post.png", "/tmp/scratch/post.png")]
      /\ Forall (GitNotesCoverChecker.staged_note Samples.tmp Samples.notes_files self')
           updated_notes
      /\ Forall (GitNotesCoverChecker.staged_cover Samples.tmp self') png_files
  | (Raise _, _) => False
  end.
Proof.
  destruct (@GitNotesCoverChecker.get_updated_files_png _ _ _ _ _ _ _ _)
    as [[[png_files updated_notes]|e] self'] eqn:E; [|vm_compute in E; discriminate E].
  destruct (@collection_is_staged Standin.libs Standin.no_files Samples.today
              Samples.remote Samples.tmp Samples.draw Samples.notes_files Samples.fresh
              png_files updated_notes self' E) as [Hn Hp].
  vm_compute in E. injection E as <- <- <-.
  split; [reflexivity|]. split; [reflexivity|]. split; [exact Hn | exact Hp].
Defined.

Lemma run_cover_checker_commits_witness :
  match @GitNotesCoverChecker.run_cover_checker Standin.libs Standin.no_files
          Samples.today Samples.remote Samples.tmp Samples.draw
          "2024-05-01 10:00:00" "2024-05-01 10:00:01" (fun _ => false) (fun _ => false)
          Samples.notes_files Samples.fresh Samples.repository Samples.repository with
  | (r, _, repo_covers', repo_notes') =>
      r = Ok tt
      /\ GithubCommitter.advanced Samples.repository repo_notes'
      /\ GithubCommitter.advanced Samples.repository repo_covers'
  end.
Proof.
  destruct (@GitNotesCoverChecker.run_cover_checker _ _ _ _ _ _ _ _ _ _ _ _ _ _)
    as [[[r self'] repo_covers'] repo_notes'] eqn:E.
  pose proof (@run_cover_checker_commits Standin.libs Standin.no_files Samples.today
                Samples.remote Samples.tmp Samples.draw
                "2024-05-01 10:00:00" "2024-05-01 10:00:01" (fun _ => false) (fun _ => false)
                Samples.notes_files Samples.fresh Samples.repository Samples.repository
                r self' repo_covers' repo_notes' E) as H.
  destruct (@GitNotesCoverChecker.staged _ _ _ _ _ _ _ _ _ _) as [[dicts|e] self1] eqn:Es;
    [|vm_compute in Es; discriminate Es].
  assert (Hr : r = Ok tt) by (vm_compute in E; now injection E as <- _ _ _).
  assert (Hd : exists p ps, fst dicts = p :: ps)
    by (vm_compute in Es; injection Es as <- _; now do 2 eexists).
  destruct Hd as (p & ps & Hd). rewrite Hd in H.
  destruct H as [(_ & Hn & Hc)|[Hf _]]; [now repeat split|].
  rewrite Hr in Hf. discriminate Hf.
Defined.

Lemma front_matter_triggers_witness :
  match @GitNotesFrontMatterHandler.staged Standin.libs Standin.no_files Samples.today
          Samples.remote Samples.tmp "2024-05-01 10:00:00" "2024-05-01 10:00:01"
          Samples.notes_files Samples.fresh with
  | (Ok files, self') =>
      Assoc.lookup Notes.PUBLISH_TRIGGER_FILE files
      = Some (Samples.tmp Notes.PUBLISH_TRIGGER_FILE)
      /\ Assoc.lookup (Samples.tmp Notes.PUBLISH_TRIGGER_FILE) (Notes.scratch self')
         = Some (GitNotesFrontMatterHandler.generate_trigger_file_content
                   "2024-05-01 10:00:00")
  | (Raise _, _) => False
  end.
Proof.
  destruct (@GitNotesFrontMatterHandler.staged _ _ _ _ _ _ _ _ _)
    as [[files|e] self'] eqn:E; [|vm_compute in E; discriminate E].
  assert (Htmp : Samples.tmp Notes.PUBLISH_TRIGGER_FILE
                 <> Samples.tmp Notes.JOURNAL_TRIGGER_FILE) by (vm_compute; discriminate).
  destruct (@front_matter_triggers Standin.libs Standin.no_files Samples.today
              Samples.remote Samples.tmp "2024-05-01 10:00:00" "2024-05-01 10:00:01"
              Samples.notes_files Samples.fresh files self' Htmp E) as (Hp & _ & Hs & _).
  split; [exact Hp | exact (Hs eq_refl)].
Defined.

Lemma front_matter_run_commits_witness :
  match @GitNotesFrontMatterHandler.run_cover_checker Standin.libs Standin.no_files
          Samples.today Samples.remote Samples.tmp
          "2024-05-01 10:00:00" "2024-05-01 10:00:01" (fun _ => false)
          Samples.notes_files Samples.fresh Samples.repository with
  | (r, _, repo_notes') =>
      r = Ok tt
      /\ exists c : GithubCommitter.sha * GithubCommitter.git_commit,
           GithubCommitter.heads_main (GithubCommitter.repo repo_notes') = fst c
           /\ GithubCommitter.message (snd c) = UpdateFrontmatter.COMMIT_MSG
  end.
Proof.
  destruct (@GitNotesFrontMatterHandler.run_cover_checker _ _ _ _ _ _ _ _ _ _ _)
    as [[r self'] repo_notes'] eqn:E.
  pose proof (@front_matter_run_commits Standin.libs Standin.no_files Samples.today
                Samples.remote Samples.tmp "2024-05-01 10:00:00" "2024-05-01 10:00:01"
                (fun _ => false) Samples.notes_files Samples.fresh Samples.repository
                r self' repo_notes' E) as H.
  destruct (@GitNotesFrontMatterHandler.staged _ _ _ _ _ _ _ _ _) as [[files|e] self1] eqn:Es;
    [|vm_compute in Es; discriminate Es].
  assert (Hr : r = Ok tt) by (vm_compute in E; now injection E as <- _ _).
  destruct H as [(_ & c & _ & Hh & Hm & _)|[Hf _]].
  - split; [exact Hr|]. exists c. now split.
  - rewrite Hr in Hf. discriminate Hf.
Defined.
